(** * Label-It: the data-access service and the translation lookup

    A shallow embedding of [src/backend.py] (classes [DatabaseManager] and
    [BackendService]), of [get_translation], [add_translation] and
    [get_all_translations] from [src/translations.py] and of the paging of
    the image feed in [src/app.py], followed by the properties of the
    specification that concern them and by further properties of the
    same code.

    Conventions of the embedding.
    - A Python [str] is the [string] of its UTF-8 bytes.  Its characters
      ([Py.chars]) are its code points: [len], slices, [str.strip],
      [str.isalnum] and [str.title] work on them, with the character
      classes and the case forms of CPython 3.11 (Unicode 14.0), which are
      given as tables of code points.  A [string] that is not the UTF-8
      form of a [str] ([Py.is_str]) stands for no value of the program,
      and a [str] with a lone surrogate, which has no UTF-8 form, is not
      represented.
    - An optional keyword argument is an [option (option _)]: the key is
      absent, or it is given with the value [None], or with a value.
    - [datetime.now()] and [uuid.uuid4()] are inputs from the environment:
      the operations that call them take the value as an argument.  A
      timestamp is an integer number of seconds since 1970-01-01 00:00:00;
      [day] seconds make a day.
    - SQLite tables are lists of rows in insertion order.  The engine's
      behaviour (SQLite 3.40) is written out where the service relies on
      it: UNIQUE and PRIMARY KEY conflicts raise [IntegrityError], [INSERT
      OR REPLACE] deletes the conflicting rows first, AUTOINCREMENT never
      reuses a rowid, foreign keys are checked only on a connection on
      which [PRAGMA foreign_keys=ON] was executed, work that was not
      committed is lost when the connection is closed, an integer outside
      64 bits cannot be bound to a statement, [LIKE] compares characters
      up to the first NUL and refuses a pattern of more than 50000 bytes,
      and the labels of an image are read through the index of their
      unique key.
    - A storage failure ([sqlite3.OperationalError]: locked database, I/O
      error, unreadable file) is an input as well: the world carries, for
      the connections the service is going to open, whether the storage
      layer fails while that connection is in use.
    - The files on disk are part of the world: what each path names, and
      whether it can be read.  The Excel writer (pandas with openpyxl) is
      not part of the program: [export_to_excel] takes as an argument on
      which of its steps the writer raises. *)

From Stdlib Require Import ZArith String Ascii List Bool Lia Permutation Sorted.
From stdpp Require Import gmap strings.
Import ListNotations.
Local Open Scope string_scope.
Local Open Scope Z_scope.

(** ** Python string methods used by the service *)

Module Py.

(** The value of a byte. *)
Definition byte (c : ascii) : Z := Z.of_nat (nat_of_ascii c).

(** A continuation byte of UTF-8 ([10xxxxxx]). *)
Definition is_cont (c : ascii) : bool := (128 <=? byte c) && (byte c <? 192).

Definition starts_cont (s : string) : bool :=
  match s with
  | String c _ => is_cont c
  | EmptyString => false
  end.

(** The characters of a [str], each as the string of its bytes: a
    character starts at every byte that is not a continuation byte. *)
Fixpoint chars (s : string) : list string :=
  match s with
  | EmptyString => []
  | String c s' =>
      match chars s' with
      | ch :: rest =>
          if starts_cont ch then String c ch :: rest
          else String c EmptyString :: ch :: rest
      | [] => [String c EmptyString]
      end
  end.

(** [''.join(l)] *)
Definition join (l : list string) : string := fold_right append EmptyString l.

(** [len(s)] *)
Definition len (s : string) : nat := List.length (chars s).

(** [ord(ch)] for one character: the code point its bytes encode, [None]
    when they are not the UTF-8 encoding of a code point (overlong forms
    and surrogates included). *)
Definition ord (ch : string) : option Z :=
  match ch with
  | String a EmptyString =>
      if byte a <? 128 then Some (byte a) else None
  | String a (String b EmptyString) =>
      if (194 <=? byte a) && (byte a <? 224) && is_cont b
      then Some ((byte a - 192) * 64 + (byte b - 128))
      else None
  | String a (String b (String c EmptyString)) =>
      let cp := (byte a - 224) * 4096 + (byte b - 128) * 64 + (byte c - 128) in
      if (224 <=? byte a) && (byte a <? 240) && is_cont b && is_cont c
         && (2048 <=? cp) && negb ((55296 <=? cp) && (cp <=? 57343))
      then Some cp
      else None
  | String a (String b (String c (String d EmptyString))) =>
      let cp := (byte a - 240) * 262144 + (byte b - 128) * 4096
                + (byte c - 128) * 64 + (byte d - 128) in
      if (240 <=? byte a) && (byte a <? 248) && is_cont b && is_cont c && is_cont d
         && (65536 <=? cp) && (cp <=? 1114111)
      then Some cp
      else None
  | _ => None
  end.

(** The string is the UTF-8 encoding of a [str]. *)
Definition is_str (s : string) : bool :=
  forallb (fun ch => match ord ch with Some _ => true | None => false end) (chars s).

Definition in_ranges (cp : Z) (table : list (Z * Z)) : bool :=
  existsb (fun r => (fst r <=? cp) && (cp <=? snd r)) table.

(** The code points [c] with [chr(c).isspace()]; they are the ones that
    [str.strip()] removes. *)
Definition whitespace : list (Z * Z) :=
  [(9, 13); (28, 32); (133, 133); (160, 160); (5760, 5760); (8192, 8202); (8232, 8233);
   (8239, 8239); (8287, 8287); (12288, 12288)].

(** The code points [c] with [chr(c).isalnum()], as ranges (CPython 3.11,
    Unicode 14.0). *)
Definition alphanumeric : list (Z * Z) :=
  [(48, 57); (65, 90); (97, 122); (170, 170); (178, 179); (181, 181); (185, 186); (188, 190);
   (192, 214); (216, 246); (248, 705); (710, 721); (736, 740); (748, 748); (750, 750);
   (880, 884); (886, 887); (890, 893); (895, 895); (902, 902); (904, 906); (908, 908);
   (910, 929); (931, 1013); (1015, 1153); (1162, 1327); (1329, 1366); (1369, 1369); (1376, 1416);
   (1488, 1514); (1519, 1522); (1568, 1610); (1632, 1641); (1646, 1647); (1649, 1747);
   (1749, 1749); (1765, 1766); (1774, 1788); (1791, 1791); (1808, 1808); (1810, 1839);
   (1869, 1957); (1969, 1969); (1984, 2026); (2036, 2037); (2042, 2042); (2048, 2069);
   (2074, 2074); (2084, 2084); (2088, 2088); (2112, 2136); (2144, 2154); (2160, 2183);
   (2185, 2190); (2208, 2249); (2308, 2361); (2365, 2365); (2384, 2384); (2392, 2401);
   (2406, 2415); (2417, 2432); (2437, 2444); (2447, 2448); (2451, 2472); (2474, 2480);
   (2482, 2482); (2486, 2489); (2493, 2493); (2510, 2510); (2524, 2525); (2527, 2529);
   (2534, 2545); (2548, 2553); (2556, 2556); (2565, 2570); (2575, 2576); (2579, 2600);
   (2602, 2608); (2610, 2611); (2613, 2614); (2616, 2617); (2649, 2652); (2654, 2654);
   (2662, 2671); (2674, 2676); (2693, 2701); (2703, 2705); (2707, 2728); (2730, 2736);
   (2738, 2739); (2741, 2745); (2749, 2749); (2768, 2768); (2784, 2785); (2790, 2799);
   (2809, 2809); (2821, 2828); (2831, 2832); (2835, 2856); (2858, 2864); (2866, 2867);
   (2869, 2873); (2877, 2877); (2908, 2909); (2911, 2913); (2918, 2927); (2929, 2935);
   (2947, 2947); (2949, 2954); (2958, 2960); (2962, 2965); (2969, 2970); (2972, 2972);
   (2974, 2975); (2979, 2980); (2984, 2986); (2990, 3001); (3024, 3024); (3046, 3058);
   (3077, 3084); (3086, 3088); (3090, 3112); (3114, 3129); (3133, 3133); (3160, 3162);
   (3165, 3165); (3168, 3169); (3174, 3183); (3192, 3198); (3200, 3200); (3205, 3212);
   (3214, 3216); (3218, 3240); (3242, 3251); (3253, 3257); (3261, 3261); (3293, 3294);
   (3296, 3297); (3302, 3311); (3313, 3314); (3332, 3340); (3342, 3344); (3346, 3386);
   (3389, 3389); (3406, 3406); (3412, 3414); (3416, 3425); (3430, 3448); (3450, 3455);
   (3461, 3478); (3482, 3505); (3507, 3515); (3517, 3517); (3520, 3526); (3558, 3567);
   (3585, 3632); (3634, 3635); (3648, 3654); (3664, 3673); (3713, 3714); (3716, 3716);
   (3718, 3722); (3724, 3747); (3749, 3749); (3751, 3760); (3762, 3763); (3773, 3773);
   (3776, 3780); (3782, 3782); (3792, 3801); (3804, 3807); (3840, 3840); (3872, 3891);
   (3904, 3911); (3913, 3948); (3976, 3980); (4096, 4138); (4159, 4169); (4176, 4181);
   (4186, 4189); (4193, 4193); (4197, 4198); (4206, 4208); (4213, 4225); (4238, 4238);
   (4240, 4249); (4256, 4293); (4295, 4295); (4301, 4301); (4304, 4346); (4348, 4680);
   (4682, 4685); (4688, 4694); (4696, 4696); (4698, 4701); (4704, 4744); (4746, 4749);
   (4752, 4784); (4786, 4789); (4792, 4798); (4800, 4800); (4802, 4805); (4808, 4822);
   (4824, 4880); (4882, 4885); (4888, 4954); (4969, 4988); (4992, 5007); (5024, 5109);
   (5112, 5117); (5121, 5740); (5743, 5759); (5761, 5786); (5792, 5866); (5870, 5880);
   (5888, 5905); (5919, 5937); (5952, 5969); (5984, 5996); (5998, 6000); (6016, 6067);
   (6103, 6103); (6108, 6108); (6112, 6121); (6128, 6137); (6160, 6169); (6176, 6264);
   (6272, 6276); (6279, 6312); (6314, 6314); (6320, 6389); (6400, 6430); (6470, 6509);
   (6512, 6516); (6528, 6571); (6576, 6601); (6608, 6618); (6656, 6678); (6688, 6740);
   (6784, 6793); (6800, 6809); (6823, 6823); (6917, 6963); (6981, 6988); (6992, 7001);
   (7043, 7072); (7086, 7141); (7168, 7203); (7232, 7241); (7245, 7293); (7296, 7304);
   (7312, 7354); (7357, 7359); (7401, 7404); (7406, 7411); (7413, 7414); (7418, 7418);
   (7424, 7615); (7680, 7957); (7960, 7965); (7968, 8005); (8008, 8013); (8016, 8023);
   (8025, 8025); (8027, 8027); (8029, 8029); (8031, 8061); (8064, 8116); (8118, 8124);
   (8126, 8126); (8130, 8132); (8134, 8140); (8144, 8147); (8150, 8155); (8160, 8172);
   (8178, 8180); (8182, 8188); (8304, 8305); (8308, 8313); (8319, 8329); (8336, 8348);
   (8450, 8450); (8455, 8455); (8458, 8467); (8469, 8469); (8473, 8477); (8484, 8484);
   (8486, 8486); (8488, 8488); (8490, 8493); (8495, 8505); (8508, 8511); (8517, 8521);
   (8526, 8526); (8528, 8585); (9312, 9371); (9450, 9471); (10102, 10131); (11264, 11492);
   (11499, 11502); (11506, 11507); (11517, 11517); (11520, 11557); (11559, 11559);
   (11565, 11565); (11568, 11623); (11631, 11631); (11648, 11670); (11680, 11686);
   (11688, 11694); (11696, 11702); (11704, 11710); (11712, 11718); (11720, 11726);
   (11728, 11734); (11736, 11742); (11823, 11823); (12293, 12295); (12321, 12329);
   (12337, 12341); (12344, 12348); (12353, 12438); (12445, 12447); (12449, 12538);
   (12540, 12543); (12549, 12591); (12593, 12686); (12690, 12693); (12704, 12735);
   (12784, 12799); (12832, 12841); (12872, 12879); (12881, 12895); (12928, 12937);
   (12977, 12991); (13312, 19903); (19968, 42124); (42192, 42237); (42240, 42508);
   (42512, 42539); (42560, 42606); (42623, 42653); (42656, 42735); (42775, 42783);
   (42786, 42888); (42891, 42954); (42960, 42961); (42963, 42963); (42965, 42969);
   (42994, 43009); (43011, 43013); (43015, 43018); (43020, 43042); (43056, 43061);
   (43072, 43123); (43138, 43187); (43216, 43225); (43250, 43255); (43259, 43259);
   (43261, 43262); (43264, 43301); (43312, 43334); (43360, 43388); (43396, 43442);
   (43471, 43481); (43488, 43492); (43494, 43518); (43520, 43560); (43584, 43586);
   (43588, 43595); (43600, 43609); (43616, 43638); (43642, 43642); (43646, 43695);
   (43697, 43697); (43701, 43702); (43705, 43709); (43712, 43712); (43714, 43714);
   (43739, 43741); (43744, 43754); (43762, 43764); (43777, 43782); (43785, 43790);
   (43793, 43798); (43808, 43814); (43816, 43822); (43824, 43866); (43868, 43881);
   (43888, 44002); (44016, 44025); (44032, 55203); (55216, 55238); (55243, 55291);
   (63744, 64109); (64112, 64217); (64256, 64262); (64275, 64279); (64285, 64285);
   (64287, 64296); (64298, 64310); (64312, 64316); (64318, 64318); (64320, 64321);
   (64323, 64324); (64326, 64433); (64467, 64829); (64848, 64911); (64914, 64967);
   (65008, 65019); (65136, 65140); (65142, 65276); (65296, 65305); (65313, 65338);
   (65345, 65370); (65382, 65470); (65474, 65479); (65482, 65487); (65490, 65495);
   (65498, 65500); (65536, 65547); (65549, 65574); (65576, 65594); (65596, 65597);
   (65599, 65613); (65616, 65629); (65664, 65786); (65799, 65843); (65856, 65912);
   (65930, 65931); (66176, 66204); (66208, 66256); (66273, 66299); (66304, 66339);
   (66349, 66378); (66384, 66421); (66432, 66461); (66464, 66499); (66504, 66511);
   (66513, 66517); (66560, 66717); (66720, 66729); (66736, 66771); (66776, 66811);
   (66816, 66855); (66864, 66915); (66928, 66938); (66940, 66954); (66956, 66962);
   (66964, 66965); (66967, 66977); (66979, 66993); (66995, 67001); (67003, 67004);
   (67072, 67382); (67392, 67413); (67424, 67431); (67456, 67461); (67463, 67504);
   (67506, 67514); (67584, 67589); (67592, 67592); (67594, 67637); (67639, 67640);
   (67644, 67644); (67647, 67669); (67672, 67702); (67705, 67742); (67751, 67759);
   (67808, 67826); (67828, 67829); (67835, 67867); (67872, 67897); (67968, 68023);
   (68028, 68047); (68050, 68096); (68112, 68115); (68117, 68119); (68121, 68149);
   (68160, 68168); (68192, 68222); (68224, 68255); (68288, 68295); (68297, 68324);
   (68331, 68335); (68352, 68405); (68416, 68437); (68440, 68466); (68472, 68497);
   (68521, 68527); (68608, 68680); (68736, 68786); (68800, 68850); (68858, 68899);
   (68912, 68921); (69216, 69246); (69248, 69289); (69296, 69297); (69376, 69415);
   (69424, 69445); (69457, 69460); (69488, 69505); (69552, 69579); (69600, 69622);
   (69635, 69687); (69714, 69743); (69745, 69746); (69749, 69749); (69763, 69807);
   (69840, 69864); (69872, 69881); (69891, 69926); (69942, 69951); (69956, 69956);
   (69959, 69959); (69968, 70002); (70006, 70006); (70019, 70066); (70081, 70084);
   (70096, 70106); (70108, 70108); (70113, 70132); (70144, 70161); (70163, 70187);
   (70272, 70278); (70280, 70280); (70282, 70285); (70287, 70301); (70303, 70312);
   (70320, 70366); (70384, 70393); (70405, 70412); (70415, 70416); (70419, 70440);
   (70442, 70448); (70450, 70451); (70453, 70457); (70461, 70461); (70480, 70480);
   (70493, 70497); (70656, 70708); (70727, 70730); (70736, 70745); (70751, 70753);
   (70784, 70831); (70852, 70853); (70855, 70855); (70864, 70873); (71040, 71086);
   (71128, 71131); (71168, 71215); (71236, 71236); (71248, 71257); (71296, 71338);
   (71352, 71352); (71360, 71369); (71424, 71450); (71472, 71483); (71488, 71494);
   (71680, 71723); (71840, 71922); (71935, 71942); (71945, 71945); (71948, 71955);
   (71957, 71958); (71960, 71983); (71999, 71999); (72001, 72001); (72016, 72025);
   (72096, 72103); (72106, 72144); (72161, 72161); (72163, 72163); (72192, 72192);
   (72203, 72242); (72250, 72250); (72272, 72272); (72284, 72329); (72349, 72349);
   (72368, 72440); (72704, 72712); (72714, 72750); (72768, 72768); (72784, 72812);
   (72818, 72847); (72960, 72966); (72968, 72969); (72971, 73008); (73030, 73030);
   (73040, 73049); (73056, 73061); (73063, 73064); (73066, 73097); (73112, 73112);
   (73120, 73129); (73440, 73458); (73648, 73648); (73664, 73684); (73728, 74649);
   (74752, 74862); (74880, 75075); (77712, 77808); (77824, 78894); (82944, 83526);
   (92160, 92728); (92736, 92766); (92768, 92777); (92784, 92862); (92864, 92873);
   (92880, 92909); (92928, 92975); (92992, 92995); (93008, 93017); (93019, 93025);
   (93027, 93047); (93053, 93071); (93760, 93846); (93952, 94026); (94032, 94032);
   (94099, 94111); (94176, 94177); (94179, 94179); (94208, 100343); (100352, 101589);
   (101632, 101640); (110576, 110579); (110581, 110587); (110589, 110590); (110592, 110882);
   (110928, 110930); (110948, 110951); (110960, 111355); (113664, 113770); (113776, 113788);
   (113792, 113800); (113808, 113817); (119520, 119539); (119648, 119672); (119808, 119892);
   (119894, 119964); (119966, 119967); (119970, 119970); (119973, 119974); (119977, 119980);
   (119982, 119993); (119995, 119995); (119997, 120003); (120005, 120069); (120071, 120074);
   (120077, 120084); (120086, 120092); (120094, 120121); (120123, 120126); (120128, 120132);
   (120134, 120134); (120138, 120144); (120146, 120485); (120488, 120512); (120514, 120538);
   (120540, 120570); (120572, 120596); (120598, 120628); (120630, 120654); (120656, 120686);
   (120688, 120712); (120714, 120744); (120746, 120770); (120772, 120779); (120782, 120831);
   (122624, 122654); (123136, 123180); (123191, 123197); (123200, 123209); (123214, 123214);
   (123536, 123565); (123584, 123627); (123632, 123641); (124896, 124902); (124904, 124907);
   (124909, 124910); (124912, 124926); (124928, 125124); (125127, 125135); (125184, 125251);
   (125259, 125259); (125264, 125273); (126065, 126123); (126125, 126127); (126129, 126132);
   (126209, 126253); (126255, 126269); (126464, 126467); (126469, 126495); (126497, 126498);
   (126500, 126500); (126503, 126503); (126505, 126514); (126516, 126519); (126521, 126521);
   (126523, 126523); (126530, 126530); (126535, 126535); (126537, 126537); (126539, 126539);
   (126541, 126543); (126545, 126546); (126548, 126548); (126551, 126551); (126553, 126553);
   (126555, 126555); (126557, 126557); (126559, 126559); (126561, 126562); (126564, 126564);
   (126567, 126570); (126572, 126578); (126580, 126583); (126585, 126588); (126590, 126590);
   (126592, 126601); (126603, 126619); (126625, 126627); (126629, 126633); (126635, 126651);
   (127232, 127244); (130032, 130041); (131072, 173791); (173824, 177976); (177984, 178205);
   (178208, 183969); (183984, 191456); (194560, 195101); (196608, 201546)].

(** [ch.isspace()] and [ch.isalnum()] for one character. *)
Definition is_space (ch : string) : bool :=
  match ord ch with
  | Some cp => in_ranges cp whitespace
  | None => false
  end.

Definition is_alnum (ch : string) : bool :=
  match ord ch with
  | Some cp => in_ranges cp alphanumeric
  | None => false
  end.

Fixpoint drop_while {A : Type} (p : A -> bool) (l : list A) : list A :=
  match l with
  | [] => []
  | x :: l' => if p x then drop_while p l' else l
  end.

(** The characters of [s.strip()]. *)
Definition strip_chars (l : list string) : list string :=
  rev (drop_while is_space (rev (drop_while is_space l))).

(** [s.strip()] *)
Definition strip (s : string) : string := join (strip_chars (chars s)).

Fixpoint all_chars (p : ascii -> bool) (s : string) : bool :=
  match s with
  | EmptyString => true
  | String c s' => p c && all_chars p s'
  end.

(** [s.isalnum()]: false on the empty string. *)
Definition isalnum (s : string) : bool :=
  match chars s with
  | [] => false
  | l => forallb is_alnum l
  end.

(** [s.replace(old, new)] for a one-character ASCII [old]. *)
Fixpoint replace (old : ascii) (new : string) (s : string) : string :=
  match s with
  | EmptyString => EmptyString
  | String c s' =>
      if Ascii.eqb c old then new ++ replace old new s'
      else String c (replace old new s')
  end.

(** [chr(cp)], in UTF-8. *)
Definition of_byte (z : Z) : ascii := ascii_of_nat (Z.to_nat z).

Definition chr (cp : Z) : string :=
  if cp <? 128 then String (of_byte cp) EmptyString
  else if cp <? 2048 then
    String (of_byte (192 + cp / 64))
      (String (of_byte (128 + cp mod 64)) EmptyString)
  else if cp <? 65536 then
    String (of_byte (224 + cp / 4096))
      (String (of_byte (128 + (cp / 64) mod 64))
         (String (of_byte (128 + cp mod 64)) EmptyString))
  else
    String (of_byte (240 + cp / 262144))
      (String (of_byte (128 + (cp / 4096) mod 64))
         (String (of_byte (128 + (cp / 64) mod 64))
            (String (of_byte (128 + cp mod 64)) EmptyString))).

(** The cased code points (lower-case, upper-case and title-case letters and
    the code points with the property Other_Lowercase or Other_Uppercase), as
    ranges. *)
Definition cased : list (Z * Z) :=
  [(65, 90); (97, 122); (170, 170); (181, 181); (186, 186); (192, 214); (216, 246);
   (248, 442); (444, 447); (452, 659); (661, 696); (704, 705); (736, 740); (837, 837);
   (880, 883); (886, 887); (890, 893); (895, 895); (902, 902); (904, 906); (908, 908);
   (910, 929); (931, 1013); (1015, 1153); (1162, 1327); (1329, 1366); (1376, 1416);
   (4256, 4293); (4295, 4295); (4301, 4301); (4304, 4346); (4349, 4351); (5024, 5109);
   (5112, 5117); (7296, 7304); (7312, 7354); (7357, 7359); (7424, 7615); (7680, 7957);
   (7960, 7965); (7968, 8005); (8008, 8013); (8016, 8023); (8025, 8025); (8027, 8027);
   (8029, 8029); (8031, 8061); (8064, 8116); (8118, 8124); (8126, 8126); (8130, 8132);
   (8134, 8140); (8144, 8147); (8150, 8155); (8160, 8172); (8178, 8180); (8182, 8188);
   (8305, 8305); (8319, 8319); (8336, 8348); (8450, 8450); (8455, 8455); (8458, 8467);
   (8469, 8469); (8473, 8477); (8484, 8484); (8486, 8486); (8488, 8488); (8490, 8493);
   (8495, 8500); (8505, 8505); (8508, 8511); (8517, 8521); (8526, 8526); (8544, 8575);
   (8579, 8580); (9398, 9449); (11264, 11492); (11499, 11502); (11506, 11507);
   (11520, 11557); (11559, 11559); (11565, 11565); (42560, 42605); (42624, 42653);
   (42786, 42887); (42891, 42894); (42896, 42954); (42960, 42961); (42963, 42963);
   (42965, 42969); (42997, 42998); (43000, 43002); (43824, 43866); (43868, 43880);
   (43888, 43967); (64256, 64262); (64275, 64279); (65313, 65338); (65345, 65370);
   (66560, 66639); (66736, 66771); (66776, 66811); (66928, 66938); (66940, 66954);
   (66956, 66962); (66964, 66965); (66967, 66977); (66979, 66993); (66995, 67001);
   (67003, 67004); (67456, 67456); (67459, 67461); (67463, 67504); (67506, 67514);
   (68736, 68786); (68800, 68850); (71840, 71903); (93760, 93823); (119808, 119892);
   (119894, 119964); (119966, 119967); (119970, 119970); (119973, 119974); (119977, 119980);
   (119982, 119993); (119995, 119995); (119997, 120003); (120005, 120069); (120071, 120074);
   (120077, 120084); (120086, 120092); (120094, 120121); (120123, 120126); (120128, 120132);
   (120134, 120134); (120138, 120144); (120146, 120485); (120488, 120512); (120514, 120538);
   (120540, 120570); (120572, 120596); (120598, 120628); (120630, 120654); (120656, 120686);
   (120688, 120712); (120714, 120744); (120746, 120770); (120772, 120779); (122624, 122633);
   (122635, 122654); (125184, 125251); (127280, 127305); (127312, 127337); (127344, 127369)].

(** The code points that the rule for the final sigma skips (property
    Case_Ignorable), as ranges. *)
Definition case_ignorable : list (Z * Z) :=
  [(39, 39); (46, 46); (58, 58); (94, 94); (96, 96); (168, 168); (173, 173); (175, 175);
   (180, 180); (183, 184); (688, 879); (884, 885); (890, 890); (900, 901); (903, 903);
   (1155, 1161); (1369, 1369); (1375, 1375); (1425, 1469); (1471, 1471); (1473, 1474);
   (1476, 1477); (1479, 1479); (1524, 1524); (1536, 1541); (1552, 1562); (1564, 1564);
   (1600, 1600); (1611, 1631); (1648, 1648); (1750, 1757); (1759, 1768); (1770, 1773);
   (1807, 1807); (1809, 1809); (1840, 1866); (1958, 1968); (2027, 2037); (2042, 2042);
   (2045, 2045); (2070, 2093); (2137, 2139); (2184, 2184); (2192, 2193); (2200, 2207);
   (2249, 2306); (2362, 2362); (2364, 2364); (2369, 2376); (2381, 2381); (2385, 2391);
   (2402, 2403); (2417, 2417); (2433, 2433); (2492, 2492); (2497, 2500); (2509, 2509);
   (2530, 2531); (2558, 2558); (2561, 2562); (2620, 2620); (2625, 2626); (2631, 2632);
   (2635, 2637); (2641, 2641); (2672, 2673); (2677, 2677); (2689, 2690); (2748, 2748);
   (2753, 2757); (2759, 2760); (2765, 2765); (2786, 2787); (2810, 2815); (2817, 2817);
   (2876, 2876); (2879, 2879); (2881, 2884); (2893, 2893); (2901, 2902); (2914, 2915);
   (2946, 2946); (3008, 3008); (3021, 3021); (3072, 3072); (3076, 3076); (3132, 3132);
   (3134, 3136); (3142, 3144); (3146, 3149); (3157, 3158); (3170, 3171); (3201, 3201);
   (3260, 3260); (3263, 3263); (3270, 3270); (3276, 3277); (3298, 3299); (3328, 3329);
   (3387, 3388); (3393, 3396); (3405, 3405); (3426, 3427); (3457, 3457); (3530, 3530);
   (3538, 3540); (3542, 3542); (3633, 3633); (3636, 3642); (3654, 3662); (3761, 3761);
   (3764, 3772); (3782, 3782); (3784, 3789); (3864, 3865); (3893, 3893); (3895, 3895);
   (3897, 3897); (3953, 3966); (3968, 3972); (3974, 3975); (3981, 3991); (3993, 4028);
   (4038, 4038); (4141, 4144); (4146, 4151); (4153, 4154); (4157, 4158); (4184, 4185);
   (4190, 4192); (4209, 4212); (4226, 4226); (4229, 4230); (4237, 4237); (4253, 4253);
   (4348, 4348); (4957, 4959); (5906, 5908); (5938, 5939); (5970, 5971); (6002, 6003);
   (6068, 6069); (6071, 6077); (6086, 6086); (6089, 6099); (6103, 6103); (6109, 6109);
   (6155, 6159); (6211, 6211); (6277, 6278); (6313, 6313); (6432, 6434); (6439, 6440);
   (6450, 6450); (6457, 6459); (6679, 6680); (6683, 6683); (6742, 6742); (6744, 6750);
   (6752, 6752); (6754, 6754); (6757, 6764); (6771, 6780); (6783, 6783); (6823, 6823);
   (6832, 6862); (6912, 6915); (6964, 6964); (6966, 6970); (6972, 6972); (6978, 6978);
   (7019, 7027); (7040, 7041); (7074, 7077); (7080, 7081); (7083, 7085); (7142, 7142);
   (7144, 7145); (7149, 7149); (7151, 7153); (7212, 7219); (7222, 7223); (7288, 7293);
   (7376, 7378); (7380, 7392); (7394, 7400); (7405, 7405); (7412, 7412); (7416, 7417);
   (7468, 7530); (7544, 7544); (7579, 7679); (8125, 8125); (8127, 8129); (8141, 8143);
   (8157, 8159); (8173, 8175); (8189, 8190); (8203, 8207); (8216, 8217); (8228, 8228);
   (8231, 8231); (8234, 8238); (8288, 8292); (8294, 8303); (8305, 8305); (8319, 8319);
   (8336, 8348); (8400, 8432); (11388, 11389); (11503, 11505); (11631, 11631);
   (11647, 11647); (11744, 11775); (11823, 11823); (12293, 12293); (12330, 12333);
   (12337, 12341); (12347, 12347); (12441, 12446); (12540, 12542); (40981, 40981);
   (42232, 42237); (42508, 42508); (42607, 42610); (42612, 42621); (42623, 42623);
   (42652, 42655); (42736, 42737); (42752, 42785); (42864, 42864); (42888, 42890);
   (42994, 42996); (43000, 43001); (43010, 43010); (43014, 43014); (43019, 43019);
   (43045, 43046); (43052, 43052); (43204, 43205); (43232, 43249); (43263, 43263);
   (43302, 43309); (43335, 43345); (43392, 43394); (43443, 43443); (43446, 43449);
   (43452, 43453); (43471, 43471); (43493, 43494); (43561, 43566); (43569, 43570);
   (43573, 43574); (43587, 43587); (43596, 43596); (43632, 43632); (43644, 43644);
   (43696, 43696); (43698, 43700); (43703, 43704); (43710, 43711); (43713, 43713);
   (43741, 43741); (43756, 43757); (43763, 43764); (43766, 43766); (43867, 43871);
   (43881, 43883); (44005, 44005); (44008, 44008); (44013, 44013); (64286, 64286);
   (64434, 64450); (65024, 65039); (65043, 65043); (65056, 65071); (65106, 65106);
   (65109, 65109); (65279, 65279); (65287, 65287); (65294, 65294); (65306, 65306);
   (65342, 65342); (65344, 65344); (65392, 65392); (65438, 65439); (65507, 65507);
   (65529, 65531); (66045, 66045); (66272, 66272); (66422, 66426); (67456, 67461);
   (67463, 67504); (67506, 67514); (68097, 68099); (68101, 68102); (68108, 68111);
   (68152, 68154); (68159, 68159); (68325, 68326); (68900, 68903); (69291, 69292);
   (69446, 69456); (69506, 69509); (69633, 69633); (69688, 69702); (69744, 69744);
   (69747, 69748); (69759, 69761); (69811, 69814); (69817, 69818); (69821, 69821);
   (69826, 69826); (69837, 69837); (69888, 69890); (69927, 69931); (69933, 69940);
   (70003, 70003); (70016, 70017); (70070, 70078); (70089, 70092); (70095, 70095);
   (70191, 70193); (70196, 70196); (70198, 70199); (70206, 70206); (70367, 70367);
   (70371, 70378); (70400, 70401); (70459, 70460); (70464, 70464); (70502, 70508);
   (70512, 70516); (70712, 70719); (70722, 70724); (70726, 70726); (70750, 70750);
   (70835, 70840); (70842, 70842); (70847, 70848); (70850, 70851); (71090, 71093);
   (71100, 71101); (71103, 71104); (71132, 71133); (71219, 71226); (71229, 71229);
   (71231, 71232); (71339, 71339); (71341, 71341); (71344, 71349); (71351, 71351);
   (71453, 71455); (71458, 71461); (71463, 71467); (71727, 71735); (71737, 71738);
   (71995, 71996); (71998, 71998); (72003, 72003); (72148, 72151); (72154, 72155);
   (72160, 72160); (72193, 72202); (72243, 72248); (72251, 72254); (72263, 72263);
   (72273, 72278); (72281, 72283); (72330, 72342); (72344, 72345); (72752, 72758);
   (72760, 72765); (72767, 72767); (72850, 72871); (72874, 72880); (72882, 72883);
   (72885, 72886); (73009, 73014); (73018, 73018); (73020, 73021); (73023, 73029);
   (73031, 73031); (73104, 73105); (73109, 73109); (73111, 73111); (73459, 73460);
   (78896, 78904); (92912, 92916); (92976, 92982); (92992, 92995); (94031, 94031);
   (94095, 94111); (94176, 94177); (94179, 94180); (110576, 110579); (110581, 110587);
   (110589, 110590); (113821, 113822); (113824, 113827); (118528, 118573); (118576, 118598);
   (119143, 119145); (119155, 119170); (119173, 119179); (119210, 119213); (119362, 119364);
   (121344, 121398); (121403, 121452); (121461, 121461); (121476, 121476); (121499, 121503);
   (121505, 121519); (122880, 122886); (122888, 122904); (122907, 122913); (122915, 122916);
   (122918, 122922); (123184, 123197); (123566, 123566); (123628, 123631); (125136, 125142);
   (125252, 125259); (127995, 127999); (917505, 917505); (917536, 917631); (917760, 917999)].

(** The title-case form of a code point that has one other than itself:
    the code points from the first to the second of a triple are moved by
    the third. *)
Definition title_shifts : list (Z * Z * Z) :=
  [(97, 122, (-32)); (181, 181, 743); (224, 246, (-32)); (248, 254, (-32)); (255, 255, 121);
   (257, 257, (-1)); (259, 259, (-1)); (261, 261, (-1)); (263, 263, (-1)); (265, 265, (-1));
   (267, 267, (-1)); (269, 269, (-1)); (271, 271, (-1)); (273, 273, (-1)); (275, 275, (-1));
   (277, 277, (-1)); (279, 279, (-1)); (281, 281, (-1)); (283, 283, (-1)); (285, 285, (-1));
   (287, 287, (-1)); (289, 289, (-1)); (291, 291, (-1)); (293, 293, (-1)); (295, 295, (-1));
   (297, 297, (-1)); (299, 299, (-1)); (301, 301, (-1)); (303, 303, (-1));
   (305, 305, (-232)); (307, 307, (-1)); (309, 309, (-1)); (311, 311, (-1));
   (314, 314, (-1)); (316, 316, (-1)); (318, 318, (-1)); (320, 320, (-1)); (322, 322, (-1));
   (324, 324, (-1)); (326, 326, (-1)); (328, 328, (-1)); (331, 331, (-1)); (333, 333, (-1));
   (335, 335, (-1)); (337, 337, (-1)); (339, 339, (-1)); (341, 341, (-1)); (343, 343, (-1));
   (345, 345, (-1)); (347, 347, (-1)); (349, 349, (-1)); (351, 351, (-1)); (353, 353, (-1));
   (355, 355, (-1)); (357, 357, (-1)); (359, 359, (-1)); (361, 361, (-1)); (363, 363, (-1));
   (365, 365, (-1)); (367, 367, (-1)); (369, 369, (-1)); (371, 371, (-1)); (373, 373, (-1));
   (375, 375, (-1)); (378, 378, (-1)); (380, 380, (-1)); (382, 382, (-1));
   (383, 383, (-300)); (384, 384, 195); (387, 387, (-1)); (389, 389, (-1));
   (392, 392, (-1)); (396, 396, (-1)); (402, 402, (-1)); (405, 405, 97); (409, 409, (-1));
   (410, 410, 163); (414, 414, 130); (417, 417, (-1)); (419, 419, (-1)); (421, 421, (-1));
   (424, 424, (-1)); (429, 429, (-1)); (432, 432, (-1)); (436, 436, (-1)); (438, 438, (-1));
   (441, 441, (-1)); (445, 445, (-1)); (447, 447, 56); (452, 452, 1); (454, 454, (-1));
   (455, 455, 1); (457, 457, (-1)); (458, 458, 1); (460, 460, (-1)); (462, 462, (-1));
   (464, 464, (-1)); (466, 466, (-1)); (468, 468, (-1)); (470, 470, (-1)); (472, 472, (-1));
   (474, 474, (-1)); (476, 476, (-1)); (477, 477, (-79)); (479, 479, (-1));
   (481, 481, (-1)); (483, 483, (-1)); (485, 485, (-1)); (487, 487, (-1)); (489, 489, (-1));
   (491, 491, (-1)); (493, 493, (-1)); (495, 495, (-1)); (497, 497, 1); (499, 499, (-1));
   (501, 501, (-1)); (505, 505, (-1)); (507, 507, (-1)); (509, 509, (-1)); (511, 511, (-1));
   (513, 513, (-1)); (515, 515, (-1)); (517, 517, (-1)); (519, 519, (-1)); (521, 521, (-1));
   (523, 523, (-1)); (525, 525, (-1)); (527, 527, (-1)); (529, 529, (-1)); (531, 531, (-1));
   (533, 533, (-1)); (535, 535, (-1)); (537, 537, (-1)); (539, 539, (-1)); (541, 541, (-1));
   (543, 543, (-1)); (547, 547, (-1)); (549, 549, (-1)); (551, 551, (-1)); (553, 553, (-1));
   (555, 555, (-1)); (557, 557, (-1)); (559, 559, (-1)); (561, 561, (-1)); (563, 563, (-1));
   (572, 572, (-1)); (575, 576, 10815); (578, 578, (-1)); (583, 583, (-1));
   (585, 585, (-1)); (587, 587, (-1)); (589, 589, (-1)); (591, 591, (-1));
   (592, 592, 10783); (593, 593, 10780); (594, 594, 10782); (595, 595, (-210));
   (596, 596, (-206)); (598, 599, (-205)); (601, 601, (-202)); (603, 603, (-203));
   (604, 604, 42319); (608, 608, (-205)); (609, 609, 42315); (611, 611, (-207));
   (613, 613, 42280); (614, 614, 42308); (616, 616, (-209)); (617, 617, (-211));
   (618, 618, 42308); (619, 619, 10743); (620, 620, 42305); (623, 623, (-211));
   (625, 625, 10749); (626, 626, (-213)); (629, 629, (-214)); (637, 637, 10727);
   (640, 640, (-218)); (642, 642, 42307); (643, 643, (-218)); (647, 647, 42282);
   (648, 648, (-218)); (649, 649, (-69)); (650, 651, (-217)); (652, 652, (-71));
   (658, 658, (-219)); (669, 669, 42261); (670, 670, 42258); (837, 837, 84);
   (881, 881, (-1)); (883, 883, (-1)); (887, 887, (-1)); (891, 893, 130); (940, 940, (-38));
   (941, 943, (-37)); (945, 961, (-32)); (962, 962, (-31)); (963, 971, (-32));
   (972, 972, (-64)); (973, 974, (-63)); (976, 976, (-62)); (977, 977, (-57));
   (981, 981, (-47)); (982, 982, (-54)); (983, 983, (-8)); (985, 985, (-1));
   (987, 987, (-1)); (989, 989, (-1)); (991, 991, (-1)); (993, 993, (-1)); (995, 995, (-1));
   (997, 997, (-1)); (999, 999, (-1)); (1001, 1001, (-1)); (1003, 1003, (-1));
   (1005, 1005, (-1)); (1007, 1007, (-1)); (1008, 1008, (-86)); (1009, 1009, (-80));
   (1010, 1010, 7); (1011, 1011, (-116)); (1013, 1013, (-96)); (1016, 1016, (-1));
   (1019, 1019, (-1)); (1072, 1103, (-32)); (1104, 1119, (-80)); (1121, 1121, (-1));
   (1123, 1123, (-1)); (1125, 1125, (-1)); (1127, 1127, (-1)); (1129, 1129, (-1));
   (1131, 1131, (-1)); (1133, 1133, (-1)); (1135, 1135, (-1)); (1137, 1137, (-1));
   (1139, 1139, (-1)); (1141, 1141, (-1)); (1143, 1143, (-1)); (1145, 1145, (-1));
   (1147, 1147, (-1)); (1149, 1149, (-1)); (1151, 1151, (-1)); (1153, 1153, (-1));
   (1163, 1163, (-1)); (1165, 1165, (-1)); (1167, 1167, (-1)); (1169, 1169, (-1));
   (1171, 1171, (-1)); (1173, 1173, (-1)); (1175, 1175, (-1)); (1177, 1177, (-1));
   (1179, 1179, (-1)); (1181, 1181, (-1)); (1183, 1183, (-1)); (1185, 1185, (-1));
   (1187, 1187, (-1)); (1189, 1189, (-1)); (1191, 1191, (-1)); (1193, 1193, (-1));
   (1195, 1195, (-1)); (1197, 1197, (-1)); (1199, 1199, (-1)); (1201, 1201, (-1));
   (1203, 1203, (-1)); (1205, 1205, (-1)); (1207, 1207, (-1)); (1209, 1209, (-1));
   (1211, 1211, (-1)); (1213, 1213, (-1)); (1215, 1215, (-1)); (1218, 1218, (-1));
   (1220, 1220, (-1)); (1222, 1222, (-1)); (1224, 1224, (-1)); (1226, 1226, (-1));
   (1228, 1228, (-1)); (1230, 1230, (-1)); (1231, 1231, (-15)); (1233, 1233, (-1));
   (1235, 1235, (-1)); (1237, 1237, (-1)); (1239, 1239, (-1)); (1241, 1241, (-1));
   (1243, 1243, (-1)); (1245, 1245, (-1)); (1247, 1247, (-1)); (1249, 1249, (-1));
   (1251, 1251, (-1)); (1253, 1253, (-1)); (1255, 1255, (-1)); (1257, 1257, (-1));
   (1259, 1259, (-1)); (1261, 1261, (-1)); (1263, 1263, (-1)); (1265, 1265, (-1));
   (1267, 1267, (-1)); (1269, 1269, (-1)); (1271, 1271, (-1)); (1273, 1273, (-1));
   (1275, 1275, (-1)); (1277, 1277, (-1)); (1279, 1279, (-1)); (1281, 1281, (-1));
   (1283, 1283, (-1)); (1285, 1285, (-1)); (1287, 1287, (-1)); (1289, 1289, (-1));
   (1291, 1291, (-1)); (1293, 1293, (-1)); (1295, 1295, (-1)); (1297, 1297, (-1));
   (1299, 1299, (-1)); (1301, 1301, (-1)); (1303, 1303, (-1)); (1305, 1305, (-1));
   (1307, 1307, (-1)); (1309, 1309, (-1)); (1311, 1311, (-1)); (1313, 1313, (-1));
   (1315, 1315, (-1)); (1317, 1317, (-1)); (1319, 1319, (-1)); (1321, 1321, (-1));
   (1323, 1323, (-1)); (1325, 1325, (-1)); (1327, 1327, (-1)); (1377, 1414, (-48));
   (5112, 5117, (-8)); (7296, 7296, (-6254)); (7297, 7297, (-6253)); (7298, 7298, (-6244));
   (7299, 7300, (-6242)); (7301, 7301, (-6243)); (7302, 7302, (-6236));
   (7303, 7303, (-6181)); (7304, 7304, 35266); (7545, 7545, 35332); (7549, 7549, 3814);
   (7566, 7566, 35384); (7681, 7681, (-1)); (7683, 7683, (-1)); (7685, 7685, (-1));
   (7687, 7687, (-1)); (7689, 7689, (-1)); (7691, 7691, (-1)); (7693, 7693, (-1));
   (7695, 7695, (-1)); (7697, 7697, (-1)); (7699, 7699, (-1)); (7701, 7701, (-1));
   (7703, 7703, (-1)); (7705, 7705, (-1)); (7707, 7707, (-1)); (7709, 7709, (-1));
   (7711, 7711, (-1)); (7713, 7713, (-1)); (7715, 7715, (-1)); (7717, 7717, (-1));
   (7719, 7719, (-1)); (7721, 7721, (-1)); (7723, 7723, (-1)); (7725, 7725, (-1));
   (7727, 7727, (-1)); (7729, 7729, (-1)); (7731, 7731, (-1)); (7733, 7733, (-1));
   (7735, 7735, (-1)); (7737, 7737, (-1)); (7739, 7739, (-1)); (7741, 7741, (-1));
   (7743, 7743, (-1)); (7745, 7745, (-1)); (7747, 7747, (-1)); (7749, 7749, (-1));
   (7751, 7751, (-1)); (7753, 7753, (-1)); (7755, 7755, (-1)); (7757, 7757, (-1));
   (7759, 7759, (-1)); (7761, 7761, (-1)); (7763, 7763, (-1)); (7765, 7765, (-1));
   (7767, 7767, (-1)); (7769, 7769, (-1)); (7771, 7771, (-1)); (7773, 7773, (-1));
   (7775, 7775, (-1)); (7777, 7777, (-1)); (7779, 7779, (-1)); (7781, 7781, (-1));
   (7783, 7783, (-1)); (7785, 7785, (-1)); (7787, 7787, (-1)); (7789, 7789, (-1));
   (7791, 7791, (-1)); (7793, 7793, (-1)); (7795, 7795, (-1)); (7797, 7797, (-1));
   (7799, 7799, (-1)); (7801, 7801, (-1)); (7803, 7803, (-1)); (7805, 7805, (-1));
   (7807, 7807, (-1)); (7809, 7809, (-1)); (7811, 7811, (-1)); (7813, 7813, (-1));
   (7815, 7815, (-1)); (7817, 7817, (-1)); (7819, 7819, (-1)); (7821, 7821, (-1));
   (7823, 7823, (-1)); (7825, 7825, (-1)); (7827, 7827, (-1)); (7829, 7829, (-1));
   (7835, 7835, (-59)); (7841, 7841, (-1)); (7843, 7843, (-1)); (7845, 7845, (-1));
   (7847, 7847, (-1)); (7849, 7849, (-1)); (7851, 7851, (-1)); (7853, 7853, (-1));
   (7855, 7855, (-1)); (7857, 7857, (-1)); (7859, 7859, (-1)); (7861, 7861, (-1));
   (7863, 7863, (-1)); (7865, 7865, (-1)); (7867, 7867, (-1)); (7869, 7869, (-1));
   (7871, 7871, (-1)); (7873, 7873, (-1)); (7875, 7875, (-1)); (7877, 7877, (-1));
   (7879, 7879, (-1)); (7881, 7881, (-1)); (7883, 7883, (-1)); (7885, 7885, (-1));
   (7887, 7887, (-1)); (7889, 7889, (-1)); (7891, 7891, (-1)); (7893, 7893, (-1));
   (7895, 7895, (-1)); (7897, 7897, (-1)); (7899, 7899, (-1)); (7901, 7901, (-1));
   (7903, 7903, (-1)); (7905, 7905, (-1)); (7907, 7907, (-1)); (7909, 7909, (-1));
   (7911, 7911, (-1)); (7913, 7913, (-1)); (7915, 7915, (-1)); (7917, 7917, (-1));
   (7919, 7919, (-1)); (7921, 7921, (-1)); (7923, 7923, (-1)); (7925, 7925, (-1));
   (7927, 7927, (-1)); (7929, 7929, (-1)); (7931, 7931, (-1)); (7933, 7933, (-1));
   (7935, 7935, (-1)); (7936, 7943, 8); (7952, 7957, 8); (7968, 7975, 8); (7984, 7991, 8);
   (8000, 8005, 8); (8017, 8017, 8); (8019, 8019, 8); (8021, 8021, 8); (8023, 8023, 8);
   (8032, 8039, 8); (8048, 8049, 74); (8050, 8053, 86); (8054, 8055, 100);
   (8056, 8057, 128); (8058, 8059, 112); (8060, 8061, 126); (8064, 8071, 8);
   (8080, 8087, 8); (8096, 8103, 8); (8112, 8113, 8); (8115, 8115, 9);
   (8126, 8126, (-7205)); (8131, 8131, 9); (8144, 8145, 8); (8160, 8161, 8);
   (8165, 8165, 7); (8179, 8179, 9); (8526, 8526, (-28)); (8560, 8575, (-16));
   (8580, 8580, (-1)); (9424, 9449, (-26)); (11312, 11359, (-48)); (11361, 11361, (-1));
   (11365, 11365, (-10795)); (11366, 11366, (-10792)); (11368, 11368, (-1));
   (11370, 11370, (-1)); (11372, 11372, (-1)); (11379, 11379, (-1)); (11382, 11382, (-1));
   (11393, 11393, (-1)); (11395, 11395, (-1)); (11397, 11397, (-1)); (11399, 11399, (-1));
   (11401, 11401, (-1)); (11403, 11403, (-1)); (11405, 11405, (-1)); (11407, 11407, (-1));
   (11409, 11409, (-1)); (11411, 11411, (-1)); (11413, 11413, (-1)); (11415, 11415, (-1));
   (11417, 11417, (-1)); (11419, 11419, (-1)); (11421, 11421, (-1)); (11423, 11423, (-1));
   (11425, 11425, (-1)); (11427, 11427, (-1)); (11429, 11429, (-1)); (11431, 11431, (-1));
   (11433, 11433, (-1)); (11435, 11435, (-1)); (11437, 11437, (-1)); (11439, 11439, (-1));
   (11441, 11441, (-1)); (11443, 11443, (-1)); (11445, 11445, (-1)); (11447, 11447, (-1));
   (11449, 11449, (-1)); (11451, 11451, (-1)); (11453, 11453, (-1)); (11455, 11455, (-1));
   (11457, 11457, (-1)); (11459, 11459, (-1)); (11461, 11461, (-1)); (11463, 11463, (-1));
   (11465, 11465, (-1)); (11467, 11467, (-1)); (11469, 11469, (-1)); (11471, 11471, (-1));
   (11473, 11473, (-1)); (11475, 11475, (-1)); (11477, 11477, (-1)); (11479, 11479, (-1));
   (11481, 11481, (-1)); (11483, 11483, (-1)); (11485, 11485, (-1)); (11487, 11487, (-1));
   (11489, 11489, (-1)); (11491, 11491, (-1)); (11500, 11500, (-1)); (11502, 11502, (-1));
   (11507, 11507, (-1)); (11520, 11557, (-7264)); (11559, 11559, (-7264));
   (11565, 11565, (-7264)); (42561, 42561, (-1)); (42563, 42563, (-1));
   (42565, 42565, (-1)); (42567, 42567, (-1)); (42569, 42569, (-1)); (42571, 42571, (-1));
   (42573, 42573, (-1)); (42575, 42575, (-1)); (42577, 42577, (-1)); (42579, 42579, (-1));
   (42581, 42581, (-1)); (42583, 42583, (-1)); (42585, 42585, (-1)); (42587, 42587, (-1));
   (42589, 42589, (-1)); (42591, 42591, (-1)); (42593, 42593, (-1)); (42595, 42595, (-1));
   (42597, 42597, (-1)); (42599, 42599, (-1)); (42601, 42601, (-1)); (42603, 42603, (-1));
   (42605, 42605, (-1)); (42625, 42625, (-1)); (42627, 42627, (-1)); (42629, 42629, (-1));
   (42631, 42631, (-1)); (42633, 42633, (-1)); (42635, 42635, (-1)); (42637, 42637, (-1));
   (42639, 42639, (-1)); (42641, 42641, (-1)); (42643, 42643, (-1)); (42645, 42645, (-1));
   (42647, 42647, (-1)); (42649, 42649, (-1)); (42651, 42651, (-1)); (42787, 42787, (-1));
   (42789, 42789, (-1)); (42791, 42791, (-1)); (42793, 42793, (-1)); (42795, 42795, (-1));
   (42797, 42797, (-1)); (42799, 42799, (-1)); (42803, 42803, (-1)); (42805, 42805, (-1));
   (42807, 42807, (-1)); (42809, 42809, (-1)); (42811, 42811, (-1)); (42813, 42813, (-1));
   (42815, 42815, (-1)); (42817, 42817, (-1)); (42819, 42819, (-1)); (42821, 42821, (-1));
   (42823, 42823, (-1)); (42825, 42825, (-1)); (42827, 42827, (-1)); (42829, 42829, (-1));
   (42831, 42831, (-1)); (42833, 42833, (-1)); (42835, 42835, (-1)); (42837, 42837, (-1));
   (42839, 42839, (-1)); (42841, 42841, (-1)); (42843, 42843, (-1)); (42845, 42845, (-1));
   (42847, 42847, (-1)); (42849, 42849, (-1)); (42851, 42851, (-1)); (42853, 42853, (-1));
   (42855, 42855, (-1)); (42857, 42857, (-1)); (42859, 42859, (-1)); (42861, 42861, (-1));
   (42863, 42863, (-1)); (42874, 42874, (-1)); (42876, 42876, (-1)); (42879, 42879, (-1));
   (42881, 42881, (-1)); (42883, 42883, (-1)); (42885, 42885, (-1)); (42887, 42887, (-1));
   (42892, 42892, (-1)); (42897, 42897, (-1)); (42899, 42899, (-1)); (42900, 42900, 48);
   (42903, 42903, (-1)); (42905, 42905, (-1)); (42907, 42907, (-1)); (42909, 42909, (-1));
   (42911, 42911, (-1)); (42913, 42913, (-1)); (42915, 42915, (-1)); (42917, 42917, (-1));
   (42919, 42919, (-1)); (42921, 42921, (-1)); (42933, 42933, (-1)); (42935, 42935, (-1));
   (42937, 42937, (-1)); (42939, 42939, (-1)); (42941, 42941, (-1)); (42943, 42943, (-1));
   (42945, 42945, (-1)); (42947, 42947, (-1)); (42952, 42952, (-1)); (42954, 42954, (-1));
   (42961, 42961, (-1)); (42967, 42967, (-1)); (42969, 42969, (-1)); (42998, 42998, (-1));
   (43859, 43859, (-928)); (43888, 43967, (-38864)); (65345, 65370, (-32));
   (66600, 66639, (-40)); (66776, 66811, (-40)); (66967, 66977, (-39));
   (66979, 66993, (-39)); (66995, 67001, (-39)); (67003, 67004, (-39));
   (68800, 68850, (-64)); (71872, 71903, (-32)); (93792, 93823, (-32));
   (125218, 125251, (-34))].

(** The code points whose title-case form is several code points. *)
Definition title_specials : list (Z * list Z) :=
  [(223, [83; 115]); (329, [700; 78]); (496, [74; 780]); (912, [921; 776; 769]);
   (944, [933; 776; 769]); (1415, [1333; 1410]); (7830, [72; 817]); (7831, [84; 776]);
   (7832, [87; 778]); (7833, [89; 778]); (7834, [65; 702]); (8016, [933; 787]);
   (8018, [933; 787; 768]); (8020, [933; 787; 769]); (8022, [933; 787; 834]);
   (8114, [8122; 837]); (8116, [902; 837]); (8118, [913; 834]); (8119, [913; 834; 837]);
   (8130, [8138; 837]); (8132, [905; 837]); (8134, [919; 834]); (8135, [919; 834; 837]);
   (8146, [921; 776; 768]); (8147, [921; 776; 769]); (8150, [921; 834]);
   (8151, [921; 776; 834]); (8162, [933; 776; 768]); (8163, [933; 776; 769]);
   (8164, [929; 787]); (8166, [933; 834]); (8167, [933; 776; 834]); (8178, [8186; 837]);
   (8180, [911; 837]); (8182, [937; 834]); (8183, [937; 834; 837]); (64256, [70; 102]);
   (64257, [70; 105]); (64258, [70; 108]); (64259, [70; 102; 105]); (64260, [70; 102; 108]);
   (64261, [83; 116]); (64262, [83; 116]); (64275, [1348; 1398]); (64276, [1348; 1381]);
   (64277, [1348; 1387]); (64278, [1358; 1398]); (64279, [1348; 1389])].

(** The lower-case form of a code point, in the same way. *)
Definition lower_shifts : list (Z * Z * Z) :=
  [(65, 90, 32); (192, 214, 32); (216, 222, 32); (256, 256, 1); (258, 258, 1);
   (260, 260, 1); (262, 262, 1); (264, 264, 1); (266, 266, 1); (268, 268, 1); (270, 270, 1);
   (272, 272, 1); (274, 274, 1); (276, 276, 1); (278, 278, 1); (280, 280, 1); (282, 282, 1);
   (284, 284, 1); (286, 286, 1); (288, 288, 1); (290, 290, 1); (292, 292, 1); (294, 294, 1);
   (296, 296, 1); (298, 298, 1); (300, 300, 1); (302, 302, 1); (306, 306, 1); (308, 308, 1);
   (310, 310, 1); (313, 313, 1); (315, 315, 1); (317, 317, 1); (319, 319, 1); (321, 321, 1);
   (323, 323, 1); (325, 325, 1); (327, 327, 1); (330, 330, 1); (332, 332, 1); (334, 334, 1);
   (336, 336, 1); (338, 338, 1); (340, 340, 1); (342, 342, 1); (344, 344, 1); (346, 346, 1);
   (348, 348, 1); (350, 350, 1); (352, 352, 1); (354, 354, 1); (356, 356, 1); (358, 358, 1);
   (360, 360, 1); (362, 362, 1); (364, 364, 1); (366, 366, 1); (368, 368, 1); (370, 370, 1);
   (372, 372, 1); (374, 374, 1); (376, 376, (-121)); (377, 377, 1); (379, 379, 1);
   (381, 381, 1); (385, 385, 210); (386, 386, 1); (388, 388, 1); (390, 390, 206);
   (391, 391, 1); (393, 394, 205); (395, 395, 1); (398, 398, 79); (399, 399, 202);
   (400, 400, 203); (401, 401, 1); (403, 403, 205); (404, 404, 207); (406, 406, 211);
   (407, 407, 209); (408, 408, 1); (412, 412, 211); (413, 413, 213); (415, 415, 214);
   (416, 416, 1); (418, 418, 1); (420, 420, 1); (422, 422, 218); (423, 423, 1);
   (425, 425, 218); (428, 428, 1); (430, 430, 218); (431, 431, 1); (433, 434, 217);
   (435, 435, 1); (437, 437, 1); (439, 439, 219); (440, 440, 1); (444, 444, 1);
   (452, 452, 2); (453, 453, 1); (455, 455, 2); (456, 456, 1); (458, 458, 2); (459, 459, 1);
   (461, 461, 1); (463, 463, 1); (465, 465, 1); (467, 467, 1); (469, 469, 1); (471, 471, 1);
   (473, 473, 1); (475, 475, 1); (478, 478, 1); (480, 480, 1); (482, 482, 1); (484, 484, 1);
   (486, 486, 1); (488, 488, 1); (490, 490, 1); (492, 492, 1); (494, 494, 1); (497, 497, 2);
   (498, 498, 1); (500, 500, 1); (502, 502, (-97)); (503, 503, (-56)); (504, 504, 1);
   (506, 506, 1); (508, 508, 1); (510, 510, 1); (512, 512, 1); (514, 514, 1); (516, 516, 1);
   (518, 518, 1); (520, 520, 1); (522, 522, 1); (524, 524, 1); (526, 526, 1); (528, 528, 1);
   (530, 530, 1); (532, 532, 1); (534, 534, 1); (536, 536, 1); (538, 538, 1); (540, 540, 1);
   (542, 542, 1); (544, 544, (-130)); (546, 546, 1); (548, 548, 1); (550, 550, 1);
   (552, 552, 1); (554, 554, 1); (556, 556, 1); (558, 558, 1); (560, 560, 1); (562, 562, 1);
   (570, 570, 10795); (571, 571, 1); (573, 573, (-163)); (574, 574, 10792); (577, 577, 1);
   (579, 579, (-195)); (580, 580, 69); (581, 581, 71); (582, 582, 1); (584, 584, 1);
   (586, 586, 1); (588, 588, 1); (590, 590, 1); (880, 880, 1); (882, 882, 1); (886, 886, 1);
   (895, 895, 116); (902, 902, 38); (904, 906, 37); (908, 908, 64); (910, 911, 63);
   (913, 929, 32); (931, 939, 32); (975, 975, 8); (984, 984, 1); (986, 986, 1);
   (988, 988, 1); (990, 990, 1); (992, 992, 1); (994, 994, 1); (996, 996, 1); (998, 998, 1);
   (1000, 1000, 1); (1002, 1002, 1); (1004, 1004, 1); (1006, 1006, 1); (1012, 1012, (-60));
   (1015, 1015, 1); (1017, 1017, (-7)); (1018, 1018, 1); (1021, 1023, (-130));
   (1024, 1039, 80); (1040, 1071, 32); (1120, 1120, 1); (1122, 1122, 1); (1124, 1124, 1);
   (1126, 1126, 1); (1128, 1128, 1); (1130, 1130, 1); (1132, 1132, 1); (1134, 1134, 1);
   (1136, 1136, 1); (1138, 1138, 1); (1140, 1140, 1); (1142, 1142, 1); (1144, 1144, 1);
   (1146, 1146, 1); (1148, 1148, 1); (1150, 1150, 1); (1152, 1152, 1); (1162, 1162, 1);
   (1164, 1164, 1); (1166, 1166, 1); (1168, 1168, 1); (1170, 1170, 1); (1172, 1172, 1);
   (1174, 1174, 1); (1176, 1176, 1); (1178, 1178, 1); (1180, 1180, 1); (1182, 1182, 1);
   (1184, 1184, 1); (1186, 1186, 1); (1188, 1188, 1); (1190, 1190, 1); (1192, 1192, 1);
   (1194, 1194, 1); (1196, 1196, 1); (1198, 1198, 1); (1200, 1200, 1); (1202, 1202, 1);
   (1204, 1204, 1); (1206, 1206, 1); (1208, 1208, 1); (1210, 1210, 1); (1212, 1212, 1);
   (1214, 1214, 1); (1216, 1216, 15); (1217, 1217, 1); (1219, 1219, 1); (1221, 1221, 1);
   (1223, 1223, 1); (1225, 1225, 1); (1227, 1227, 1); (1229, 1229, 1); (1232, 1232, 1);
   (1234, 1234, 1); (1236, 1236, 1); (1238, 1238, 1); (1240, 1240, 1); (1242, 1242, 1);
   (1244, 1244, 1); (1246, 1246, 1); (1248, 1248, 1); (1250, 1250, 1); (1252, 1252, 1);
   (1254, 1254, 1); (1256, 1256, 1); (1258, 1258, 1); (1260, 1260, 1); (1262, 1262, 1);
   (1264, 1264, 1); (1266, 1266, 1); (1268, 1268, 1); (1270, 1270, 1); (1272, 1272, 1);
   (1274, 1274, 1); (1276, 1276, 1); (1278, 1278, 1); (1280, 1280, 1); (1282, 1282, 1);
   (1284, 1284, 1); (1286, 1286, 1); (1288, 1288, 1); (1290, 1290, 1); (1292, 1292, 1);
   (1294, 1294, 1); (1296, 1296, 1); (1298, 1298, 1); (1300, 1300, 1); (1302, 1302, 1);
   (1304, 1304, 1); (1306, 1306, 1); (1308, 1308, 1); (1310, 1310, 1); (1312, 1312, 1);
   (1314, 1314, 1); (1316, 1316, 1); (1318, 1318, 1); (1320, 1320, 1); (1322, 1322, 1);
   (1324, 1324, 1); (1326, 1326, 1); (1329, 1366, 48); (4256, 4293, 7264);
   (4295, 4295, 7264); (4301, 4301, 7264); (5024, 5103, 38864); (5104, 5109, 8);
   (7312, 7354, (-3008)); (7357, 7359, (-3008)); (7680, 7680, 1); (7682, 7682, 1);
   (7684, 7684, 1); (7686, 7686, 1); (7688, 7688, 1); (7690, 7690, 1); (7692, 7692, 1);
   (7694, 7694, 1); (7696, 7696, 1); (7698, 7698, 1); (7700, 7700, 1); (7702, 7702, 1);
   (7704, 7704, 1); (7706, 7706, 1); (7708, 7708, 1); (7710, 7710, 1); (7712, 7712, 1);
   (7714, 7714, 1); (7716, 7716, 1); (7718, 7718, 1); (7720, 7720, 1); (7722, 7722, 1);
   (7724, 7724, 1); (7726, 7726, 1); (7728, 7728, 1); (7730, 7730, 1); (7732, 7732, 1);
   (7734, 7734, 1); (7736, 7736, 1); (7738, 7738, 1); (7740, 7740, 1); (7742, 7742, 1);
   (7744, 7744, 1); (7746, 7746, 1); (7748, 7748, 1); (7750, 7750, 1); (7752, 7752, 1);
   (7754, 7754, 1); (7756, 7756, 1); (7758, 7758, 1); (7760, 7760, 1); (7762, 7762, 1);
   (7764, 7764, 1); (7766, 7766, 1); (7768, 7768, 1); (7770, 7770, 1); (7772, 7772, 1);
   (7774, 7774, 1); (7776, 7776, 1); (7778, 7778, 1); (7780, 7780, 1); (7782, 7782, 1);
   (7784, 7784, 1); (7786, 7786, 1); (7788, 7788, 1); (7790, 7790, 1); (7792, 7792, 1);
   (7794, 7794, 1); (7796, 7796, 1); (7798, 7798, 1); (7800, 7800, 1); (7802, 7802, 1);
   (7804, 7804, 1); (7806, 7806, 1); (7808, 7808, 1); (7810, 7810, 1); (7812, 7812, 1);
   (7814, 7814, 1); (7816, 7816, 1); (7818, 7818, 1); (7820, 7820, 1); (7822, 7822, 1);
   (7824, 7824, 1); (7826, 7826, 1); (7828, 7828, 1); (7838, 7838, (-7615));
   (7840, 7840, 1); (7842, 7842, 1); (7844, 7844, 1); (7846, 7846, 1); (7848, 7848, 1);
   (7850, 7850, 1); (7852, 7852, 1); (7854, 7854, 1); (7856, 7856, 1); (7858, 7858, 1);
   (7860, 7860, 1); (7862, 7862, 1); (7864, 7864, 1); (7866, 7866, 1); (7868, 7868, 1);
   (7870, 7870, 1); (7872, 7872, 1); (7874, 7874, 1); (7876, 7876, 1); (7878, 7878, 1);
   (7880, 7880, 1); (7882, 7882, 1); (7884, 7884, 1); (7886, 7886, 1); (7888, 7888, 1);
   (7890, 7890, 1); (7892, 7892, 1); (7894, 7894, 1); (7896, 7896, 1); (7898, 7898, 1);
   (7900, 7900, 1); (7902, 7902, 1); (7904, 7904, 1); (7906, 7906, 1); (7908, 7908, 1);
   (7910, 7910, 1); (7912, 7912, 1); (7914, 7914, 1); (7916, 7916, 1); (7918, 7918, 1);
   (7920, 7920, 1); (7922, 7922, 1); (7924, 7924, 1); (7926, 7926, 1); (7928, 7928, 1);
   (7930, 7930, 1); (7932, 7932, 1); (7934, 7934, 1); (7944, 7951, (-8));
   (7960, 7965, (-8)); (7976, 7983, (-8)); (7992, 7999, (-8)); (8008, 8013, (-8));
   (8025, 8025, (-8)); (8027, 8027, (-8)); (8029, 8029, (-8)); (8031, 8031, (-8));
   (8040, 8047, (-8)); (8072, 8079, (-8)); (8088, 8095, (-8)); (8104, 8111, (-8));
   (8120, 8121, (-8)); (8122, 8123, (-74)); (8124, 8124, (-9)); (8136, 8139, (-86));
   (8140, 8140, (-9)); (8152, 8153, (-8)); (8154, 8155, (-100)); (8168, 8169, (-8));
   (8170, 8171, (-112)); (8172, 8172, (-7)); (8184, 8185, (-128)); (8186, 8187, (-126));
   (8188, 8188, (-9)); (8486, 8486, (-7517)); (8490, 8490, (-8383)); (8491, 8491, (-8262));
   (8498, 8498, 28); (8544, 8559, 16); (8579, 8579, 1); (9398, 9423, 26);
   (11264, 11311, 48); (11360, 11360, 1); (11362, 11362, (-10743)); (11363, 11363, (-3814));
   (11364, 11364, (-10727)); (11367, 11367, 1); (11369, 11369, 1); (11371, 11371, 1);
   (11373, 11373, (-10780)); (11374, 11374, (-10749)); (11375, 11375, (-10783));
   (11376, 11376, (-10782)); (11378, 11378, 1); (11381, 11381, 1); (11390, 11391, (-10815));
   (11392, 11392, 1); (11394, 11394, 1); (11396, 11396, 1); (11398, 11398, 1);
   (11400, 11400, 1); (11402, 11402, 1); (11404, 11404, 1); (11406, 11406, 1);
   (11408, 11408, 1); (11410, 11410, 1); (11412, 11412, 1); (11414, 11414, 1);
   (11416, 11416, 1); (11418, 11418, 1); (11420, 11420, 1); (11422, 11422, 1);
   (11424, 11424, 1); (11426, 11426, 1); (11428, 11428, 1); (11430, 11430, 1);
   (11432, 11432, 1); (11434, 11434, 1); (11436, 11436, 1); (11438, 11438, 1);
   (11440, 11440, 1); (11442, 11442, 1); (11444, 11444, 1); (11446, 11446, 1);
   (11448, 11448, 1); (11450, 11450, 1); (11452, 11452, 1); (11454, 11454, 1);
   (11456, 11456, 1); (11458, 11458, 1); (11460, 11460, 1); (11462, 11462, 1);
   (11464, 11464, 1); (11466, 11466, 1); (11468, 11468, 1); (11470, 11470, 1);
   (11472, 11472, 1); (11474, 11474, 1); (11476, 11476, 1); (11478, 11478, 1);
   (11480, 11480, 1); (11482, 11482, 1); (11484, 11484, 1); (11486, 11486, 1);
   (11488, 11488, 1); (11490, 11490, 1); (11499, 11499, 1); (11501, 11501, 1);
   (11506, 11506, 1); (42560, 42560, 1); (42562, 42562, 1); (42564, 42564, 1);
   (42566, 42566, 1); (42568, 42568, 1); (42570, 42570, 1); (42572, 42572, 1);
   (42574, 42574, 1); (42576, 42576, 1); (42578, 42578, 1); (42580, 42580, 1);
   (42582, 42582, 1); (42584, 42584, 1); (42586, 42586, 1); (42588, 42588, 1);
   (42590, 42590, 1); (42592, 42592, 1); (42594, 42594, 1); (42596, 42596, 1);
   (42598, 42598, 1); (42600, 42600, 1); (42602, 42602, 1); (42604, 42604, 1);
   (42624, 42624, 1); (42626, 42626, 1); (42628, 42628, 1); (42630, 42630, 1);
   (42632, 42632, 1); (42634, 42634, 1); (42636, 42636, 1); (42638, 42638, 1);
   (42640, 42640, 1); (42642, 42642, 1); (42644, 42644, 1); (42646, 42646, 1);
   (42648, 42648, 1); (42650, 42650, 1); (42786, 42786, 1); (42788, 42788, 1);
   (42790, 42790, 1); (42792, 42792, 1); (42794, 42794, 1); (42796, 42796, 1);
   (42798, 42798, 1); (42802, 42802, 1); (42804, 42804, 1); (42806, 42806, 1);
   (42808, 42808, 1); (42810, 42810, 1); (42812, 42812, 1); (42814, 42814, 1);
   (42816, 42816, 1); (42818, 42818, 1); (42820, 42820, 1); (42822, 42822, 1);
   (42824, 42824, 1); (42826, 42826, 1); (42828, 42828, 1); (42830, 42830, 1);
   (42832, 42832, 1); (42834, 42834, 1); (42836, 42836, 1); (42838, 42838, 1);
   (42840, 42840, 1); (42842, 42842, 1); (42844, 42844, 1); (42846, 42846, 1);
   (42848, 42848, 1); (42850, 42850, 1); (42852, 42852, 1); (42854, 42854, 1);
   (42856, 42856, 1); (42858, 42858, 1); (42860, 42860, 1); (42862, 42862, 1);
   (42873, 42873, 1); (42875, 42875, 1); (42877, 42877, (-35332)); (42878, 42878, 1);
   (42880, 42880, 1); (42882, 42882, 1); (42884, 42884, 1); (42886, 42886, 1);
   (42891, 42891, 1); (42893, 42893, (-42280)); (42896, 42896, 1); (42898, 42898, 1);
   (42902, 42902, 1); (42904, 42904, 1); (42906, 42906, 1); (42908, 42908, 1);
   (42910, 42910, 1); (42912, 42912, 1); (42914, 42914, 1); (42916, 42916, 1);
   (42918, 42918, 1); (42920, 42920, 1); (42922, 42922, (-42308)); (42923, 42923, (-42319));
   (42924, 42924, (-42315)); (42925, 42925, (-42305)); (42926, 42926, (-42308));
   (42928, 42928, (-42258)); (42929, 42929, (-42282)); (42930, 42930, (-42261));
   (42931, 42931, 928); (42932, 42932, 1); (42934, 42934, 1); (42936, 42936, 1);
   (42938, 42938, 1); (42940, 42940, 1); (42942, 42942, 1); (42944, 42944, 1);
   (42946, 42946, 1); (42948, 42948, (-48)); (42949, 42949, (-42307));
   (42950, 42950, (-35384)); (42951, 42951, 1); (42953, 42953, 1); (42960, 42960, 1);
   (42966, 42966, 1); (42968, 42968, 1); (42997, 42997, 1); (65313, 65338, 32);
   (66560, 66599, 40); (66736, 66771, 40); (66928, 66938, 39); (66940, 66954, 39);
   (66956, 66962, 39); (66964, 66965, 39); (68736, 68786, 64); (71840, 71871, 32);
   (93760, 93791, 32); (125184, 125217, 34)].

(** The code points whose lower-case form is several code points. *)
Definition lower_specials : list (Z * list Z) :=
  [(304, [105; 775])].

Definition is_cased (ch : string) : bool :=
  match ord ch with
  | Some cp => in_ranges cp cased
  | None => false
  end.

Definition is_case_ignorable (ch : string) : bool :=
  match ord ch with
  | Some cp => in_ranges cp case_ignorable
  | None => false
  end.

(** The form of a character that the tables give: the special form when
    it has one, the moved code point otherwise, and the character itself
    when the tables do not list it. *)
Definition case_form (specials : list (Z * list Z)) (shifts : list (Z * Z * Z))
    (ch : string) : string :=
  match ord ch with
  | Some cp =>
      match find (fun r => fst r =? cp) specials with
      | Some r => join (map chr (snd r))
      | None =>
          match find (fun r => (fst (fst r) <=? cp) && (cp <=? snd (fst r))) shifts with
          | Some r => chr (cp + snd r)
          | None => ch
          end
      end
  | None => ch
  end.

Definition to_title (ch : string) : string := case_form title_specials title_shifts ch.

(** A capital sigma is a final sigma when a cased character comes before
    it and none after it, characters that are ignored for the case apart;
    [before] holds the characters before it, the nearest first. *)
Definition final_sigma (before after : list string) : bool :=
  match drop_while is_case_ignorable before with
  | ch :: _ =>
      is_cased ch
      && match drop_while is_case_ignorable after with
         | ch' :: _ => negb (is_cased ch')
         | [] => true
         end
  | [] => false
  end.

(** The lower-case form of a character of a string. *)
Definition to_lower (before : list string) (ch : string) (after : list string)
  : string :=
  if String.eqb ch (chr 931) then
    if final_sigma before after then chr 962 else chr 963
  else case_form lower_specials lower_shifts ch.

(** [s.title()]: a character takes its title-case form when the character
    before it is not cased and its lower-case form otherwise. *)
Fixpoint title_chars (before : list string) (previous_is_cased : bool)
    (l : list string) : list string :=
  match l with
  | [] => []
  | ch :: l' =>
      (if previous_is_cased then to_lower before ch l' else to_title ch)
      :: title_chars (ch :: before) (is_cased ch) l'
  end.

Definition title (s : string) : string := join (title_chars [] false (chars s)).

(** [s[:n]] and [s[n:]], counting characters. *)
Definition take (n : nat) (s : string) : string := join (firstn n (chars s)).

Definition drop (n : nat) (s : string) : string := join (skipn n (chars s)).

(** [s.rfind(c)]: the last index of the character [c], [-1] when it does
    not occur. *)
Fixpoint rfind_from (i : Z) (c : string) (l : list string) : Z :=
  match l with
  | [] => -1
  | d :: l' =>
      let r := rfind_from (i + 1) c l' in
      if 0 <=? r then r else if String.eqb d c then i else -1
  end.

Definition rfind (c : string) (s : string) : Z := rfind_from 0 c (chars s).

(** The scan of [genericpath._splitext] over the leading dots of the file
    name: [fuel] is [dotIndex - filenameIndex]. *)
Fixpoint splitext_scan (fuel : nat) (name : list string) : bool :=
  match fuel, name with
  | S fuel', c :: name' =>
      if String.eqb c "." then splitext_scan fuel' name' else true
  | _, _ => false
  end.

(** [os.path.splitext(p)] (POSIX: separator [/], no alternative one). *)
Definition splitext (p : string) : string * string :=
  let sepIndex := rfind "/" p in
  let dotIndex := rfind "." p in
  if (sepIndex <? dotIndex)
     && splitext_scan (Z.to_nat (dotIndex - (sepIndex + 1)))
                      (skipn (Z.to_nat (sepIndex + 1)) (chars p))
  then (take (Z.to_nat dotIndex) p, drop (Z.to_nat dotIndex) p)
  else (p, EmptyString).

(** Truthiness of an optional string argument ([if category:]). *)
Definition truthy (o : option string) : option string :=
  match o with
  | Some EmptyString => None
  | _ => o
  end.

(** [a or b] for an optional string [a]. *)
Definition or_else (a : option string) (b : string) : string :=
  match truthy a with
  | Some s => s
  | None => b
  end.

End Py.

(** ** The persisted schema ([DatabaseManager.init_database]) *)

(** Values of the JSON metadata attached to an analytics event. *)
Inductive jval : Type :=
| JStr (s : string)
| JInt (z : Z)
| JBool (b : bool)
| JNull.

(** Table [users].  The column [profile_picture] is never written. *)
Record UserRow : Type := mkUser {
  u_id : Z;
  u_username : string;
  u_password : string;
  u_preferred_language : option string;
  u_full_name : option string;
  u_email : option string;
  u_age : option Z;
  u_created_at : Z;
  u_last_login : option Z;
  u_is_active : bool
}.

(** Table [images].  Coordinates are fixed-point integers; the columns
    [is_verified], [verification_score] and [view_count] keep their
    defaults and are left out. *)
Record ImageRow : Type := mkImage {
  i_id : string;
  i_title : string;
  i_description : string;
  i_category : string;
  i_image_path : string;
  i_uploaded_by : string;
  i_uploaded_at : Z;
  i_latitude : option Z;
  i_longitude : option Z;
  i_city : option string;
  i_country : option string;
  i_location_method : option string;
  i_file_size : option Z;
  i_image_width : option Z;
  i_image_height : option Z;
  i_label_count : Z
}.

(** Table [labels]; the verification columns keep their defaults. *)
Record LabelRow : Type := mkLabel {
  l_id : Z;
  l_image_id : string;
  l_text : string;
  l_language : string;
  l_added_by : string;
  l_added_at : Z
}.

(** Table [analytics]; [metadata] holds the dictionary that
    [json.dumps] serialises. *)
Record AnalyticsRow : Type := mkAnalytics {
  a_event_type : string;
  a_user_id : option string;
  a_metadata : option (list (string * jval))
}.

(** Table [user_activities], the gamification ledger. *)
Record ActivityRow : Type := mkActivity {
  act_user_id : string;
  act_activity_type : string;
  act_description : string;
  act_points_earned : Z
}.

(** The database file: the five tables and the AUTOINCREMENT counters
    ([sqlite_sequence]) of [users] and [labels]. *)
Record DB : Type := mkDB {
  users : list UserRow;
  images : list ImageRow;
  labels : list LabelRow;
  analytics : list AnalyticsRow;
  user_activities : list ActivityRow;
  users_seq : Z;
  labels_seq : Z
}.

(** What [init_database] leaves in a new file. *)
Definition empty_db : DB := mkDB [] [] [] [] [] 0 0.

(** The exceptions that reach the [except] clauses of the service, with
    their [str(e)]. *)
Inductive exn : Type :=
| OperationalError (msg : string)
| IntegrityError (msg : string)
| TypeError (msg : string)
| AttributeError (msg : string)
| OverflowError (msg : string)
| IndexError (msg : string)
| OSError (msg : string)
| StructError (msg : string)
| WriterError (msg : string).

Definition exn_message (e : exn) : string :=
  match e with
  | OperationalError m => m
  | IntegrityError m => m
  | TypeError m => m
  | AttributeError m => m
  | OverflowError m => m
  | IndexError m => m
  | OSError m => m
  | StructError m => m
  | WriterError m => m
  end.

(** What a path names on disk, for [zipfile]: a file it can archive, a
    directory, or a file on which [ZipFile.write] raises (no permission to
    read it, a modification time before 1980). *)
Inductive file_kind : Type :=
| RegularFile
| Directory
| Unarchivable.

Inductive result (A : Type) : Type :=
| Ok (a : A)
| Raise (e : exn).
Arguments Ok {A} a.
Arguments Raise {A} e.

(** A connection: its view of the database (committed data and its own
    pending writes) and its [foreign_keys] pragma, which SQLite keeps per
    connection and which is off when a connection is opened. *)
Record Conn : Type := mkConn {
  cdb : DB;
  foreign_keys : bool
}.

(** The world the service runs in: the committed database, the storage
    failures awaiting the next connections ([Some msg]: the connection
    fails with [OperationalError msg]; [None], or no entry: it works), and
    the paths that exist on disk with what they name. *)
Record World : Type := mkWorld {
  db : DB;
  faults : list (option string);
  disk : list (string * file_kind)
}.

(** ** The SQL the service executes *)

Module Sql.

Definition streq (a b : string) : bool := String.eqb a b.

Definition mem (x : string) (l : list string) : bool := existsb (streq x) l.

(** The distinct values of a column, in order of first occurrence. *)
Fixpoint distinct (l : list string) : list string :=
  match l with
  | [] => []
  | x :: l' => x :: List.filter (fun y => negb (streq y x)) (distinct l')
  end.

Fixpoint distinctZ (l : list Z) : list Z :=
  match l with
  | [] => []
  | x :: l' => x :: List.filter (fun y => negb (y =? x)) (distinctZ l')
  end.

Definition count {A : Type} (p : A -> bool) (l : list A) : Z :=
  Z.of_nat (List.length (List.filter p l)).

Definition sum (l : list Z) : Z := fold_right Z.add 0 l.

Definition maximum (l : list Z) : Z := fold_right Z.max 0 l.

(** The rowid AUTOINCREMENT gives to a new row: one more than the largest
    rowid the table has ever held. *)
Definition next_rowid (seq : Z) (ids : list Z) : Z := Z.max seq (maximum ids) + 1.

(** [ORDER BY]: a stable insertion sort; [le a b] says that [a] may come
    before [b]. *)
Fixpoint insert_by {A : Type} (le : A -> A -> bool) (x : A) (l : list A) : list A :=
  match l with
  | [] => [x]
  | y :: l' => if le x y then x :: l else y :: insert_by le x l'
  end.

Definition order_by {A : Type} (le : A -> A -> bool) (l : list A) : list A :=
  fold_right (insert_by le) [] l.

(** [LIMIT n]: the first [n] rows, which are all the rows when there are
    not more of them; no bound when [n] is negative. *)
Definition limit {A : Type} (n : Z) (l : list A) : list A :=
  if n <? 0 then l else firstn (Z.to_nat (Z.min n (Z.of_nat (List.length l)))) l.

(** The integers SQLite stores: a Python [int] outside this range cannot
    be bound to a statement ([OverflowError]). *)
Definition fits_int64 (z : Z) : bool := (- 2 ^ 63 <=? z) && (z <? 2 ^ 63).

(** The functions of SQLite take their text arguments as C strings: the
    bytes before the first NUL. *)
Fixpoint until_nul (s : string) : string :=
  match s with
  | EmptyString => EmptyString
  | String c s' => if Py.byte c =? 0 then EmptyString else String c (until_nul s')
  end.

(** The lower-case form of an ASCII letter. *)
Definition to_lower (c : ascii) : ascii :=
  if (65 <=? Py.byte c) && (Py.byte c <=? 90) then ascii_of_nat (nat_of_ascii c + 32)
  else c.

(** Two characters are the same for [LIKE] when they are equal, or are
    ASCII letters that differ in case only. *)
Definition same_char (p c : string) : bool :=
  String.eqb p c
  || match p, c with
     | String a EmptyString, String b EmptyString =>
         (Py.byte a <? 128) && (Py.byte b <? 128)
         && Ascii.eqb (to_lower a) (to_lower b)
     | _, _ => false
     end.

(** [text LIKE pattern] on the characters of both: [%] matches any run of
    characters, [_] any one character, anything else itself without
    regard to ASCII case. *)
Fixpoint like_chars (pattern : list string) : list string -> bool :=
  match pattern with
  | [] => fun text => match text with [] => true | _ => false end
  | p :: pattern' =>
      if String.eqb p "%" then
        fix star (text : list string) : bool :=
          like_chars pattern' text
          || match text with
             | [] => false
             | _ :: text' => star text'
             end
      else if String.eqb p "_" then
        fun text => match text with
                    | [] => false
                    | _ :: text' => like_chars pattern' text'
                    end
      else
        fun text => match text with
                    | [] => false
                    | c :: text' => same_char p c && like_chars pattern' text'
                    end
  end.

Definition like (pattern text : string) : bool :=
  like_chars (Py.chars (until_nul pattern)) (Py.chars (until_nul text)).

(** The engine refuses a [LIKE] pattern of more than 50000 bytes
    ([SQLITE_MAX_LIKE_PATTERN_LENGTH]). *)
Definition like_pattern_too_long (pattern : string) : bool :=
  50000 <? Z.of_nat (String.length pattern).

(** The order of the collation BINARY ([memcmp], the shorter string
    first). *)
Fixpoint text_le (a b : string) : bool :=
  match a, b with
  | EmptyString, _ => true
  | String _ _, EmptyString => false
  | String x a', String y b' =>
      if Py.byte x <? Py.byte y then true
      else if Py.byte y <? Py.byte x then false
      else text_le a' b'
  end.

(** [GROUP_CONCAT(col)]: the values with commas between them, NULL when
    there is no value. *)
Definition group_concat (vals : list string) : option string :=
  match vals with
  | [] => None
  | v :: vs => Some (fold_left (fun acc x => acc ++ "," ++ x)%string vs v)
  end.

(** [GROUP_CONCAT(DISTINCT col)] *)
Definition group_concat_distinct (vals : list string) : option string :=
  group_concat (distinct vals).

(** [SELECT key, COUNT( * ) ... GROUP BY key]. *)
Definition group_count (keys : list string) : list (string * Z) :=
  map (fun k => (k, count (streq k) keys)) (distinct keys).

Definition user_exists (d : DB) (username : string) : bool :=
  existsb (fun u => streq (u_username u) username) (users d).

Definition image_exists (d : DB) (image_id : string) : bool :=
  existsb (fun i => streq (i_id i) image_id) (images d).

(** The key of the constraint [UNIQUE(image_id, text, language)]. *)
Definition same_key (image_id text language : string) (l : LabelRow) : bool :=
  streq (l_image_id l) image_id && streq (l_text l) text && streq (l_language l) language.

(** The order of the index of that constraint among the labels of one
    image: by text, then by language. *)
Definition index_le (a b : LabelRow) : bool :=
  if streq (l_text a) (l_text b) then text_le (l_language a) (l_language b)
  else text_le (l_text a) (l_text b).

Definition with_db (c : Conn) (d : DB) : Conn := mkConn d (foreign_keys c).

(** [PRAGMA foreign_keys=ON] *)
Definition pragma_foreign_keys_on (c : Conn) : Conn := mkConn (cdb c) true.

(** [INSERT INTO users (username, password, preferred_language, full_name,
    email, age, created_at)]; [is_active] defaults to TRUE. *)
Definition insert_user (c : Conn) (username password : string)
    (preferred_language full_name email : option string) (age : option Z)
    (created_at : Z) : result Conn :=
  let d := cdb c in
  if match age with Some a => negb (fits_int64 a) | None => false end then
    Raise (OverflowError "Python int too large to convert to SQLite INTEGER")
  else if user_exists d username then
    Raise (IntegrityError "UNIQUE constraint failed: users.username")
  else
    let id := next_rowid (users_seq d) (map u_id (users d)) in
    let row := mkUser id username password preferred_language full_name email age
                      created_at None true in
    Ok (with_db c (mkDB (users d ++ [row])%list (images d) (labels d) (analytics d)
                        (user_activities d) id (labels_seq d))).

(** [UPDATE users SET last_login = ? WHERE username = ?] *)
Definition update_last_login (c : Conn) (now : Z) (username : string) : Conn :=
  let d := cdb c in
  let upd u :=
    if streq (u_username u) username then
      mkUser (u_id u) (u_username u) (u_password u) (u_preferred_language u)
             (u_full_name u) (u_email u) (u_age u) (u_created_at u) (Some now)
             (u_is_active u)
    else u in
  with_db c (mkDB (map upd (users d)) (images d) (labels d) (analytics d)
                  (user_activities d) (users_seq d) (labels_seq d)).

(** [INSERT INTO images (...)]; [label_count] defaults to 0. *)
Definition insert_image (c : Conn) (row : ImageRow) : result Conn :=
  let d := cdb c in
  if image_exists d (i_id row) then
    Raise (IntegrityError "UNIQUE constraint failed: images.id")
  else if foreign_keys c && negb (user_exists d (i_uploaded_by row)) then
    Raise (IntegrityError "FOREIGN KEY constraint failed")
  else
    Ok (with_db c (mkDB (users d) (images d ++ [row])%list (labels d) (analytics d)
                        (user_activities d) (users_seq d) (labels_seq d))).

(** [INSERT OR REPLACE INTO labels (image_id, text, language, added_by,
    added_at)]: the rows that hold the same unique key are deleted and the
    new row gets a new rowid. *)
Definition insert_or_replace_label (c : Conn) (image_id text language added_by : string)
    (added_at : Z) : result Conn :=
  let d := cdb c in
  if foreign_keys c && negb (image_exists d image_id && user_exists d added_by) then
    Raise (IntegrityError "FOREIGN KEY constraint failed")
  else
    let id := next_rowid (labels_seq d) (map l_id (labels d)) in
    let kept := List.filter (fun l => negb (same_key image_id text language l)) (labels d) in
    let row := mkLabel id image_id text language added_by added_at in
    Ok (with_db c (mkDB (users d) (images d) (kept ++ [row])%list (analytics d)
                        (user_activities d) (users_seq d) id)).

(** [SELECT COUNT( * ) FROM labels WHERE image_id = ?] *)
Definition count_labels (ls : list LabelRow) (image_id : string) : Z :=
  count (fun l => streq (l_image_id l) image_id) ls.

Definition set_label_count (i : ImageRow) (n : Z) : ImageRow :=
  mkImage (i_id i) (i_title i) (i_description i) (i_category i) (i_image_path i)
          (i_uploaded_by i) (i_uploaded_at i) (i_latitude i) (i_longitude i) (i_city i)
          (i_country i) (i_location_method i) (i_file_size i) (i_image_width i)
          (i_image_height i) n.

(** [UPDATE images SET label_count = (SELECT COUNT( * ) FROM labels WHERE
    image_id = ?) WHERE id = ?] *)
Definition update_label_count (c : Conn) (image_id : string) : Conn :=
  let d := cdb c in
  let n := count_labels (labels d) image_id in
  let upd i := if streq (i_id i) image_id then set_label_count i n else i in
  with_db c (mkDB (users d) (map upd (images d)) (labels d) (analytics d)
                  (user_activities d) (users_seq d) (labels_seq d)).

(** [INSERT INTO analytics (event_type, user_id, metadata)] *)
Definition insert_analytics (c : Conn) (row : AnalyticsRow) : Conn :=
  let d := cdb c in
  with_db c (mkDB (users d) (images d) (labels d) (analytics d ++ [row])%list
                  (user_activities d) (users_seq d) (labels_seq d)).

(** [INSERT INTO user_activities (user_id, activity_type, description,
    points_earned)] *)
Definition insert_activity (c : Conn) (row : ActivityRow) : result Conn :=
  let d := cdb c in
  if foreign_keys c && negb (user_exists d (act_user_id row)) then
    Raise (IntegrityError "FOREIGN KEY constraint failed")
  else
    Ok (with_db c (mkDB (users d) (images d) (labels d) (analytics d)
                        (user_activities d ++ [row])%list (users_seq d) (labels_seq d))).

End Sql.

(** ** Effects: storage failures, exceptions, commits *)

(** A computation of the service: it reads and changes the world and
    either returns a value or raises an exception. *)
Definition M (A : Type) : Type := World -> result A * World.

Definition ret {A : Type} (a : A) : M A := fun w => (Ok a, w).

Definition raise {A : Type} (e : exn) : M A := fun w => (Raise e, w).

Definition bind {A B : Type} (m : M A) (k : A -> M B) : M B :=
  fun w =>
    match m w with
    | (Ok a, w') => k a w'
    | (Raise e, w') => (Raise e, w')
    end.

Declare Scope service_scope.
Delimit Scope service_scope with service.
Notation "x <- m ;; k" := (bind m (fun x => k))
  (at level 100, m at next level, k at level 200, right associativity) : service_scope.
Notation "m ;; k" := (bind m (fun _ => k))
  (at level 100, k at level 200, right associativity) : service_scope.
Local Open Scope service_scope.

(** [try: m except Exception as e: handler e] *)
Definition try_except {A : Type} (m : M A) (handler : exn -> M A) : M A :=
  fun w =>
    match m w with
    | (Ok a, w') => (Ok a, w')
    | (Raise e, w') => handler e w'
    end.

(** A statement that may violate a constraint. *)
Definition execute {A : Type} (r : result A) : M A := fun w => (r, w).

(** An expression that may raise. *)
Definition evaluate {A : Type} (r : result A) : M A := fun w => (r, w).

Definition set_db (w : World) (d : DB) : World := mkWorld d (faults w) (disk w).

Definition set_faults (w : World) (fs : list (option string)) : World :=
  mkWorld (db w) fs (disk w).

(** The failure, if any, that awaits the next connection, and the world
    once that connection has been opened. *)
Definition storage_fails (w : World) : option string :=
  match faults w with
  | Some msg :: _ => Some msg
  | _ => None
  end.

Definition next (w : World) : World := set_faults w (tl (faults w)).

(** [with self.db.get_connection() as conn: body]: a new connection on the
    committed database, with the foreign-key pragma at its default.  The
    connection is closed when the block is left; what the block did not
    commit is lost with it. *)
Definition get_connection {A : Type} (body : Conn -> M A) : M A :=
  fun w =>
    match storage_fails w with
    | Some msg => (Raise (OperationalError msg), next w)
    | None => body (mkConn (db w) false) (next w)
    end.

(** [conn.commit()] *)
Definition commit (c : Conn) : M unit := fun w => (Ok tt, set_db w (cdb c)).

(** [DatabaseManager.init_database]: the pragmas are set on the connection
    that creates the schema, which is then closed.  [CREATE TABLE IF NOT
    EXISTS] keeps the tables of an existing file; a new file is
    [empty_db]. *)
Definition init_database : M unit :=
  get_connection (fun conn =>
    let conn := Sql.pragma_foreign_keys_on conn in
    commit conn).

(** ** [BackendService] *)

Definition is_empty (s : string) : bool :=
  match s with EmptyString => true | _ => false end.

(** The keyword arguments of [create_user]: [None] is an absent key,
    [Some None] a key given with the value [None] (what the registration
    form passes for an age left blank), [Some (Some v)] a string, or an
    [int] for the age. *)
Record UserKwargs : Type := mkUserKwargs {
  kw_preferred_language : option (option string);
  kw_full_name : option (option string);
  kw_email : option (option string);
  kw_age : option (option Z)
}.

(** The keyword arguments of [add_image]. *)
Record ImageKwargs : Type := mkImageKwargs {
  kw_latitude : option Z;
  kw_longitude : option Z;
  kw_city : option string;
  kw_country : option string;
  kw_location_method : option string;
  kw_file_size : option Z;
  kw_image_width : option Z;
  kw_image_height : option Z
}.

Definition default_str (o : option string) (d : string) : string :=
  match o with Some s => s | None => d end.

(** [kwargs.get(key, default)] *)
Definition kwargs_get {A : Type} (o : option (option A)) (default_ : option A)
  : option A :=
  match o with
  | Some v => v
  | None => default_
  end.

(** [x.strip() or None] *)
Definition strip_or_none (s : string) : option string :=
  Py.truthy (Some (Py.strip s)).

(** [bool(x)] for an optional string and an optional number. *)
Definition bool_str (o : option string) : bool :=
  match Py.truthy o with Some _ => true | None => false end.

(** [kwargs.get(key, '').strip() or None] *)
Definition stripped_or_none (o : option (option string)) : result (option string) :=
  match kwargs_get o (Some EmptyString) with
  | Some s => Ok (strip_or_none s)
  | None => Raise (AttributeError "'NoneType' object has no attribute 'strip'")
  end.

(** [kwargs.get('age') if kwargs.get('age', 0) > 12 else None] *)
Definition age_or_none (o : option (option Z)) : result (option Z) :=
  match kwargs_get o (Some 0) with
  | Some a => Ok (if 12 <? a then Some a else None)
  | None =>
      Raise (TypeError "'>' not supported between instances of 'NoneType' and 'int'")
  end.

Definition jstr (o : option string) : jval :=
  match o with Some s => JStr s | None => JNull end.

Definition bool_num (o : option Z) : bool :=
  match o with Some z => negb (z =? 0) | None => false end.

Definition jopt (o : option Z) : jval :=
  match o with Some z => JInt z | None => JNull end.

(** [json.dumps(metadata) if metadata else None] *)
Definition dumps_or_none (metadata : option (list (string * jval)))
  : option (list (string * jval)) :=
  match metadata with
  | Some (_ :: _) => metadata
  | _ => None
  end.

Definition log_event (event_type : string) (user_id : option string)
    (metadata : option (list (string * jval))) : M unit :=
  try_except
    (get_connection (fun conn =>
       let conn := Sql.insert_analytics conn
                     (mkAnalytics event_type user_id (dumps_or_none metadata)) in
       commit conn))
    (fun _ => ret tt).

Definition _record_user_activity (user_id activity_type description : string)
    (points : Z) : M unit :=
  try_except
    (get_connection (fun conn =>
       conn <- execute (Sql.insert_activity conn
                          (mkActivity user_id activity_type description points)) ;;
       commit conn))
    (fun _ => ret tt).

Definition create_user (now : Z) (username password : string) (kwargs : UserKwargs)
  : M (bool * string) :=
  try_except
    (let username := Py.strip username in
     let password := Py.strip password in
     if is_empty username || is_empty password then
       ret (false, "Username and password are required")
     else if (Py.len username <? 3)%nat then
       ret (false, "Username must be at least 3 characters")
     else if (Py.len password <? 3)%nat then
       ret (false, "Password must be at least 3 characters")
     else if negb (Py.isalnum (Py.replace "-" "" (Py.replace "_" "" username))) then
       ret (false, "Username can only contain letters, numbers, underscore, and hyphen")
     else
       get_connection (fun conn =>
         full_name <- evaluate (stripped_or_none (kw_full_name kwargs)) ;;
         email <- evaluate (stripped_or_none (kw_email kwargs)) ;;
         age <- evaluate (age_or_none (kw_age kwargs)) ;;
         conn <- execute
           (Sql.insert_user conn username password
              (kwargs_get (kw_preferred_language kwargs) (Some "en"))
              full_name email age now) ;;
         commit conn ;;
         log_event "user_registered" (Some username)
           (Some [("language", jstr (kwargs_get (kw_preferred_language kwargs) (Some "en")));
                  ("has_full_name", JBool (bool_str (kwargs_get (kw_full_name kwargs) None)));
                  ("has_email", JBool (bool_str (kwargs_get (kw_email kwargs) None)))]) ;;
         ret (true, "User created successfully")))
    (fun e =>
       match e with
       | IntegrityError _ => ret (false, "Username already exists")
       | _ => ret (false, "Error creating user: " ++ exn_message e)%string
       end).

Definition authenticate_user (now : Z) (username password : string) : M bool :=
  try_except
    (get_connection (fun conn =>
       let user := find (fun u => Sql.streq (u_username u) username
                                  && Sql.streq (u_password u) password
                                  && u_is_active u)
                        (users (cdb conn)) in
       match user with
       | Some _ =>
           let conn := Sql.update_last_login conn now username in
           commit conn ;;
           log_event "user_login" (Some username) None ;;
           ret true
       | None => ret false
       end))
    (fun _ => ret false).

(** [image_id] is the value of [str(uuid.uuid4())]. *)
Definition add_image (now : Z) (image_id : string)
    (title description category image_path uploaded_by : string)
    (kwargs : ImageKwargs) : M string :=
  try_except
    (get_connection (fun conn =>
       conn <- execute
         (Sql.insert_image conn
            (mkImage image_id title description category image_path uploaded_by now
               (kw_latitude kwargs) (kw_longitude kwargs) (kw_city kwargs)
               (kw_country kwargs) (kw_location_method kwargs) (kw_file_size kwargs)
               (kw_image_width kwargs) (kw_image_height kwargs) 0)) ;;
       commit conn ;;
       log_event "image_uploaded" (Some uploaded_by)
         (Some [("image_id", JStr image_id);
                ("category", JStr category);
                ("has_location", JBool (bool_num (kw_latitude kwargs)));
                ("file_size", jopt (kw_file_size kwargs))]) ;;
       _record_user_activity uploaded_by "image_upload"
         ("Uploaded image: " ++ title)%string 10 ;;
       ret image_id))
    (fun e => raise e).

Definition add_label (now : Z) (image_id text language added_by : string) : M bool :=
  try_except
    (get_connection (fun conn =>
       conn <- execute
         (Sql.insert_or_replace_label conn image_id text language added_by now) ;;
       let conn := Sql.update_label_count conn image_id in
       commit conn ;;
       log_event "label_added" (Some added_by)
         (Some [("image_id", JStr image_id);
                ("language", JStr language);
                ("text_length", JInt (Z.of_nat (Py.len text)))]) ;;
       _record_user_activity added_by "label_add"
         ("Added label: " ++ Py.take 50 text ++ "...")%string 5 ;;
       ret true))
    (fun _ => ret false).

(** A row of [get_images]: the image columns ([i.*]) with the two
    aggregates of the query. *)
Record ImageResult : Type := mkImageResult {
  r_image : ImageRow;
  r_total_labels : Z;
  r_languages : option string
}.

(** [images i LEFT JOIN labels l ON i.id = l.image_id] for one image: its
    labels, or a single row with a NULL label when it has none.  The
    engine (SQLite 3.40) finds the labels of an image through the index of
    [UNIQUE(image_id, text, language)] and so reads them in the order of
    that index; SQL itself leaves the order open. *)
Definition left_join (i : ImageRow) (ls : list LabelRow) : list (option LabelRow) :=
  match Sql.order_by Sql.index_le
          (List.filter (fun l => Sql.streq (i_id i) (l_image_id l)) ls) with
  | [] => [None]
  | matching => map Some matching
  end.

(** The [WHERE] clause built by [get_images], on one row of the join.  A
    comparison with the NULL label of an image without labels is NULL,
    which does not select the row. *)
Definition where_clause (category language search : option string)
    (i : ImageRow) (l : option LabelRow) : bool :=
  match Py.truthy category with
  | Some c => Sql.streq (i_category i) c
  | None => true
  end
  &&
  match Py.truthy language with
  | Some lang =>
      match l with Some l => Sql.streq (l_language l) lang | None => false end
  | None => true
  end
  &&
  match Py.truthy search with
  | Some s =>
      let search_param := ("%" ++ s ++ "%")%string in
      Sql.like search_param (i_title i)
      || Sql.like search_param (i_description i)
      || match l with Some l => Sql.like search_param (l_text l) | None => false end
  | None => true
  end.

Fixpoint somes {A : Type} (l : list (option A)) : list A :=
  match l with
  | [] => []
  | Some a :: l' => a :: somes l'
  | None :: l' => somes l'
  end.

(** [GROUP BY i.id] ([id] is the primary key): one group per image, made
    of the joined rows that passed [WHERE]; an image without such a row
    gives no group. *)
Definition image_group (category language search : option string)
    (ls : list LabelRow) (i : ImageRow) : option ImageResult :=
  match List.filter (where_clause category language search i) (left_join i ls) with
  | [] => None
  | rows =>
      Some (mkImageResult i
              (Z.of_nat (List.length (somes rows)))
              (Sql.group_concat_distinct (map l_language (somes rows))))
  end.

Definition newest_first (a b : ImageResult) : bool :=
  i_uploaded_at (r_image b) <=? i_uploaded_at (r_image a).

Definition select_images (category language search : option string) (limit : Z)
    (d : DB) : list ImageResult :=
  Sql.limit limit
    (Sql.order_by newest_first
       (somes (map (image_group category language search (labels d)) (images d)))).

(** The statement of [get_images] with its parameters: a [limit] that
    SQLite cannot store is refused when it is bound, and a pattern that is
    too long when [LIKE] is evaluated (if no row gets that far, the
    statement returns no row, which is also what [get_images] returns
    after the error). *)
Definition query_images (category language search : option string) (limit : Z)
    (d : DB) : result (list ImageResult) :=
  if negb (Sql.fits_int64 limit) then
    Raise (OverflowError "Python int too large to convert to SQLite INTEGER")
  else if match Py.truthy search with
          | Some s => Sql.like_pattern_too_long ("%" ++ s ++ "%")
          | None => false
          end then
    Raise (OperationalError "LIKE or GLOB pattern too complex")
  else Ok (select_images category language search limit d).

Definition get_images (category language search : option string) (limit : Z)
  : M (list ImageResult) :=
  try_except
    (get_connection (fun conn =>
       rows <- execute (query_images category language search limit (cdb conn)) ;;
       ret rows))
    (fun _ => ret []).

Definition select_image_labels (image_id : string) (d : DB) : list LabelRow :=
  Sql.order_by (fun a b => l_added_at b <=? l_added_at a)
    (List.filter (fun l => Sql.streq (l_image_id l) image_id) (labels d)).

Definition get_image_labels (image_id : string) : M (list LabelRow) :=
  try_except
    (get_connection (fun conn => ret (select_image_labels image_id (cdb conn))))
    (fun _ => ret []).

(** Values of the statistics dictionaries.  [PRatio n d] is the quotient
    [n / d] of [AVG]; its rounding to two decimals is floating-point
    presentation and is not modelled. *)
Inductive pyval : Type :=
| PInt (z : Z)
| PRatio (num den : Z).

Definition day : Z := 86400.

Definition statistics (now : Z) (d : DB) : list (string * pyval) :=
  let counted := List.filter (fun i => 0 <? i_label_count i) (images d) in
  let week_ago := now - 7 * day in
  [("total_images", PInt (Z.of_nat (List.length (images d))));
   ("total_labels", PInt (Z.of_nat (List.length (labels d))));
   ("total_users", PInt (Sql.count u_is_active (users d)));
   ("languages_used",
      PInt (Z.of_nat (List.length (Sql.distinct (map l_language (labels d))))));
   ("avg_labels_per_image",
      match counted with
      | [] => PInt 0
      | _ => PRatio (Sql.sum (map i_label_count counted)) (Z.of_nat (List.length counted))
      end);
   ("recent_images", PInt (Sql.count (fun i => week_ago <? i_uploaded_at i) (images d)));
   ("recent_labels", PInt (Sql.count (fun l => week_ago <? l_added_at l) (labels d)))].

Definition get_statistics (now : Z) : M (list (string * pyval)) :=
  try_except
    (get_connection (fun conn => ret (statistics now (cdb conn))))
    (fun _ => ret []).

(** [SELECT COALESCE(SUM(points_earned), 0) FROM user_activities WHERE
    user_id = ?] *)
Definition points_of (acts : list ActivityRow) (username : string) : Z :=
  Sql.sum (map act_points_earned
             (List.filter (fun a => Sql.streq (act_user_id a) username) acts)).

(** [SELECT user_id, SUM(points_earned) as total_points FROM
    user_activities GROUP BY user_id] *)
Definition points_by_user (acts : list ActivityRow) : list (string * Z) :=
  map (fun u => (u, points_of acts u)) (Sql.distinct (map act_user_id acts)).

(** [SELECT COUNT( * ) + 1 FROM (... HAVING total_points > (...))] *)
Definition rank_of (acts : list ActivityRow) (username : string) : Z :=
  Z.of_nat (List.length
              (List.filter (fun g => points_of acts username <? snd g)
                           (points_by_user acts))) + 1.

Definition user_stats (username : string) (d : DB) : list (string * Z) :=
  let mine := List.filter (fun i => Sql.streq (i_uploaded_by i) username) (images d) in
  let my_labels := List.filter (fun l => Sql.streq (l_added_by l) username) (labels d) in
  [("images_uploaded", Z.of_nat (List.length mine));
   ("labels_added", Z.of_nat (List.length my_labels));
   ("languages_contributed",
      Z.of_nat (List.length (Sql.distinct (map l_language my_labels))));
   ("categories_contributed",
      Z.of_nat (List.length (Sql.distinct (map i_category mine))));
   ("total_points", points_of (user_activities d) username);
   ("user_rank", rank_of (user_activities d) username)].

Definition get_user_stats (username : string) : M (list (string * Z)) :=
  try_except
    (get_connection (fun conn => ret (user_stats username (cdb conn))))
    (fun _ => ret []).

(** [dict[key]] on a dictionary kept as an association list. *)
Fixpoint dict_get {V : Type} (key : string) (d : list (string * V)) : option V :=
  match d with
  | [] => None
  | (k, v) :: d' => if Sql.streq k key then Some v else dict_get key d'
  end.

Definition by_count_desc (a b : string * Z) : bool := snd b <=? snd a.

Definition get_category_statistics : M (list (string * Z)) :=
  try_except
    (get_connection (fun conn =>
       ret (Sql.order_by by_count_desc
              (Sql.group_count (map i_category (images (cdb conn)))))))
    (fun _ => ret []).

Definition get_language_statistics : M (list (string * Z)) :=
  try_except
    (get_connection (fun conn =>
       ret (Sql.order_by by_count_desc
              (Sql.group_count (map l_language (labels (cdb conn)))))))
    (fun _ => ret []).

(** [DATE(t)]: the day a timestamp falls on. *)
Definition date_of (t : Z) : Z := t / day.

(** The first and the last second of [datetime]: 0001-01-01 00:00:00 and
    9999-12-31 23:59:59, counted from 1970-01-01 00:00:00. *)
Definition datetime_min : Z := -62135596800.

Definition datetime_max : Z := 253402300799.

(** [now - timedelta(days=days)] for an [int] number of days. *)
Definition days_before (now days : Z) : result Z :=
  if (days <? -999999999) || (999999999 <? days) then
    Raise (OverflowError "days must have magnitude <= 999999999")
  else if (now - days * day <? datetime_min) || (datetime_max <? now - days * day) then
    Raise (OverflowError "date value out of range")
  else Ok (now - days * day).

Definition activity_timeline (now days : Z) (d : DB) : list (Z * Z) :=
  let start_date := now - days * day in
  let dates := map (fun i => date_of (i_uploaded_at i))
                   (List.filter (fun i => start_date <? i_uploaded_at i) (images d)) in
  Sql.order_by (fun a b => fst a <=? fst b)
    (map (fun dt => (dt, Sql.count (Z.eqb dt) dates)) (Sql.distinctZ dates)).

(** Each entry is a dictionary [{'date': .., 'uploads': ..}]. *)
Definition get_activity_timeline (now days : Z) : M (list (Z * Z)) :=
  try_except
    (get_connection (fun conn =>
       _ <- evaluate (days_before now days) ;;
       ret (activity_timeline now days (cdb conn))))
    (fun _ => ret []).

(** The workbook of [export_to_excel], by its content: one list of rows
    per sheet. *)
Record UsersSheetRow : Type := mkUsersSheetRow {
  xu_username : string;
  xu_preferred_language : option string;
  xu_full_name : option string;
  xu_email : option string;
  xu_created_at : Z;
  xu_last_login : option Z;
  xu_is_active : bool
}.

Record Workbook : Type := mkWorkbook {
  sheet_users : list UsersSheetRow;
  sheet_images : list ImageRow;
  sheet_labels : list (LabelRow * string);
  sheet_statistics : list (string * pyval)
}.

(** [SELECT l.*, i.title as image_title FROM labels l JOIN images i ON
    l.image_id = i.id] *)
Definition labels_with_title (d : DB) : list (LabelRow * string) :=
  flat_map (fun l =>
              map (fun i => (l, i_title i))
                  (List.filter (fun i => Sql.streq (l_image_id l) (i_id i)) (images d)))
           (labels d).

(** What the Excel writer (pandas with openpyxl) is given, step by step:
    it is created, each frame is written to its sheet, and it is closed,
    which saves the workbook. *)
Inductive writer_step : Type :=
| OpenWriter
| UsersSheet (rows : list UsersSheetRow)
| ImagesSheet (rows : list ImageRow)
| LabelsSheet (rows : list (LabelRow * string))
| StatisticsSheet (stats : list (string * pyval))
| CloseWriter (book : Workbook).

(** One step of the writer.  The library is not part of the program:
    [excel_raises] tells on which steps it raises (a cell text with a
    control character, a sheet with too many rows, a missing engine). *)
Definition write (excel_raises : writer_step -> bool) (step : writer_step) : M unit :=
  if excel_raises step then raise (WriterError "the Excel writer raised")
  else ret tt.

(** The Images sheet lists every column of the row except [image_path]
    and [location_method]. *)
Definition export_to_excel (excel_raises : writer_step -> bool) (now : Z)
  : M (option Workbook) :=
  try_except
    (get_connection (fun conn =>
       let d := cdb conn in
       write excel_raises OpenWriter ;;
       let users_df :=
         map (fun u => mkUsersSheetRow (u_username u) (u_preferred_language u)
                         (u_full_name u) (u_email u) (u_created_at u)
                         (u_last_login u) (u_is_active u))
             (users d) in
       write excel_raises (UsersSheet users_df) ;;
       let images_df := images d in
       write excel_raises (ImagesSheet images_df) ;;
       let labels_df := labels_with_title d in
       write excel_raises (LabelsSheet labels_df) ;;
       stats <- get_statistics now ;;
       write excel_raises (StatisticsSheet stats) ;;
       let book := mkWorkbook users_df images_df labels_df stats in
       write excel_raises (CloseWriter book) ;;
       ret (Some book)))
    (fun _ => ret None).

(** [os.path.exists(path)] and what the path names.  The disk lists the
    paths that name something, as the operating system resolves them; the
    empty path and a path with a NUL name nothing. *)
Definition path_exists (w : World) (path : string) : bool :=
  negb (Sql.streq path "")
  && Sql.streq (Sql.until_nul path) path
  && existsb (fun f => Sql.streq path (fst f)) (disk w).

Definition file_at (w : World) (path : string) : option file_kind :=
  option_map snd (find (fun f => Sql.streq path (fst f)) (disk w)).

(** [path.split('/')] *)
Fixpoint split_slash (path : string) : list string :=
  match path with
  | EmptyString => [EmptyString]
  | String c path' =>
      if Ascii.eqb c "/" then EmptyString :: split_slash path'
      else match split_slash path' with
           | comp :: comps => String c comp :: comps
           | [] => [String c EmptyString]
           end
  end.

(** ['/'.join(comps)] *)
Fixpoint join_slash (comps : list string) : string :=
  match comps with
  | [] => EmptyString
  | [comp] => comp
  | comp :: comps' => (comp ++ "/" ++ join_slash comps')%string
  end.

Definition starts_with (prefix s : string) : bool := String.prefix prefix s.

(** The loop of [posixpath.normpath] over the components; [new_comps] is
    kept with its last component first. *)
Definition normpath_step (initial_slashes : nat) (new_comps : list string)
    (comp : string) : list string :=
  if Sql.streq comp "" || Sql.streq comp "." then new_comps
  else if negb (Sql.streq comp "..")
          || (Nat.eqb initial_slashes 0 && match new_comps with [] => true | _ => false end)
          || match new_comps with
             | last :: _ => Sql.streq last ".."
             | [] => false
             end
  then comp :: new_comps
  else match new_comps with
       | _ :: popped => popped
       | [] => []
       end.

(** [os.path.normpath(path)] (POSIX). *)
Definition normpath (path : string) : string :=
  if Sql.streq path "" then "."
  else
    let initial_slashes :=
      if starts_with "/" path then
        if starts_with "//" path && negb (starts_with "///" path) then 2%nat else 1%nat
      else 0%nat in
    let comps := rev (fold_left (normpath_step initial_slashes) (split_slash path) []) in
    let path := (Py.join (repeat "/" initial_slashes) ++ join_slash comps)%string in
    if Sql.streq path "" then "." else path.

(** [while arcname[0] in (os.sep, os.altsep): arcname = arcname[1:]] *)
Fixpoint strip_leading_slashes (arcname : string) : result string :=
  match arcname with
  | EmptyString => Raise (IndexError "string index out of range")
  | String c arcname' =>
      if Ascii.eqb c "/" then strip_leading_slashes arcname' else Ok arcname
  end.

(** The name [zipfile] gives to the entry of [zip_file.write(filename,
    arcname)] ([ZipInfo.from_file] and [ZipInfo.__init__]): the
    normalised [arcname] without leading slashes, with a slash at the end
    for a directory and cut at the first NUL.  An empty name has no last
    character for [is_dir] to look at, and a name of more than 65535
    bytes does not fit the entry's header. *)
Definition zip_name (arcname : string) (isdir : bool) : result string :=
  match strip_leading_slashes (normpath arcname) with
  | Raise e => Raise e
  | Ok arcname =>
      let filename :=
        Sql.until_nul (if isdir then arcname ++ "/" else arcname)%string in
      if Sql.streq filename "" then Raise (IndexError "string index out of range")
      else if 65535 <? Z.of_nat (String.length filename) then
        Raise (StructError "'H' format requires 0 <= number <= 65535")
      else Ok filename
  end.

(** [ZipInfo.is_dir]: the name ends with a slash. *)
Fixpoint ends_with_slash (filename : string) : bool :=
  match filename with
  | EmptyString => false
  | String c EmptyString => Ascii.eqb c "/"
  | String _ filename' => ends_with_slash filename'
  end.

(** The [archive_path] that [create_images_zip] builds for one image. *)
Definition archive_path (image : ImageRow) : string :=
  let folder_name := (i_category image ++ "/" ++ i_uploaded_by image)%string in
  let file_extension := snd (Py.splitext (i_image_path image)) in
  (folder_name ++ "/" ++ Py.take 50 (i_title image) ++ file_extension)%string.

(** An entry of the archive: its name, and the path of the file whose
    content it holds; the entry of a directory holds none. *)
Record ZipEntry : Type := mkEntry {
  e_name : string;
  e_content : option string
}.

(** [zip_file.write(image_path, archive_path)]: the entry it adds.  An
    entry whose name ends with a slash is written as a directory, without
    content; otherwise the file is opened and copied, which a directory
    refuses. *)
Definition zip_write (w : World) (image : ImageRow) : result ZipEntry :=
  match file_at w (i_image_path image) with
  | Some RegularFile =>
      match zip_name (archive_path image) false with
      | Ok name =>
          if ends_with_slash name then Ok (mkEntry name None)
          else Ok (mkEntry name (Some (i_image_path image)))
      | Raise e => Raise e
      end
  | Some Directory =>
      match zip_name (archive_path image) true with
      | Ok name =>
          if ends_with_slash name then Ok (mkEntry name None)
          else Raise (OSError "Is a directory")
      | Raise e => Raise e
      end
  | _ => Raise (OSError "the file cannot be archived")
  end.

(** The loop over the images: the first [write] that raises ends it. *)
Fixpoint zip_entries (w : World) (rows : list ImageRow) : result (list ZipEntry) :=
  match rows with
  | [] => Ok []
  | image :: rows' =>
      if path_exists w (i_image_path image) then
        match zip_write w image with
        | Raise e => Raise e
        | Ok entry =>
            match zip_entries w rows' with
            | Raise e => Raise e
            | Ok entries => Ok (entry :: entries)
            end
        end
      else zip_entries w rows'
  end.

(** The archive of [create_images_zip], by its content: the entries in
    order, each with the file it holds. *)
Definition create_images_zip : M (option (list ZipEntry)) :=
  try_except
    (get_connection (fun conn => fun w =>
       (entries <- evaluate (zip_entries w (images (cdb conn))) ;;
        ret (Some entries)) w))
    (fun _ => ret None).

(** ** The translation lookup ([src/translations.py]) *)

Module Translations.

(** [key in d] and [d[key]] on the table of one language. *)
Definition has_key (d : gmap string string) (key : string) : bool :=
  bool_decide (is_Some (d !! key)).

Definition item (d : gmap string string) (key : string) : string :=
  default "" (d !! key).

(** [get_translation(key, language, default)] over the current content of
    the mutable table [TRANSLATIONS]. *)
Definition get_translation (TRANSLATIONS : gmap string (gmap string string))
    (key language : string) (default_ : option string) : string :=
  if match TRANSLATIONS !! language with
     | Some d => has_key d key
     | None => false
     end
  then item (default ∅ (TRANSLATIONS !! language)) key
  else if has_key (default ∅ (TRANSLATIONS !! "en")) key
  then item (default ∅ (TRANSLATIONS !! "en")) key
  else Py.or_else default_ (Py.title (Py.replace "_" " " key)).

End Translations.

(** ** Runs of the service *)

(** One call of the service from the presentation layer, with the values
    the environment supplies to it. *)
Inductive call : Type :=
| CreateUser (now : Z) (username password : string) (kwargs : UserKwargs)
| AuthenticateUser (now : Z) (username password : string)
| AddImage (now : Z) (image_id title description category image_path uploaded_by : string)
           (kwargs : ImageKwargs)
| AddLabel (now : Z) (image_id text language added_by : string)
| GetImages (category language search : option string) (limit : Z)
| GetImageLabels (image_id : string)
| GetStatistics (now : Z)
| GetUserStats (username : string)
| GetCategoryStatistics
| GetLanguageStatistics
| GetActivityTimeline (now days : Z)
| ExportToExcel (excel_raises : writer_step -> bool) (now : Z)
| CreateImagesZip.

(** The world after a call; the value returned is dropped. *)
Definition after (c : call) (w : World) : World :=
  match c with
  | CreateUser now u p kw => snd (create_user now u p kw w)
  | AuthenticateUser now u p => snd (authenticate_user now u p w)
  | AddImage now id t d c p u kw => snd (add_image now id t d c p u kw w)
  | AddLabel now i t l u => snd (add_label now i t l u w)
  | GetImages c l s n => snd (get_images c l s n w)
  | GetImageLabels i => snd (get_image_labels i w)
  | GetStatistics now => snd (get_statistics now w)
  | GetUserStats u => snd (get_user_stats u w)
  | GetCategoryStatistics => snd (get_category_statistics w)
  | GetLanguageStatistics => snd (get_language_statistics w)
  | GetActivityTimeline now days => snd (get_activity_timeline now days w)
  | ExportToExcel x now => snd (export_to_excel x now w)
  | CreateImagesZip => snd (create_images_zip w)
  end.

Definition run (calls : list call) (w : World) : World :=
  fold_left (fun w c => after c w) calls w.

(** The world in which the service starts: a database that
    [init_database] has just created, any files on disk, any storage
    failures to come. *)
Definition initial_world (fs : list (option string)) (files : list (string * file_kind))
  : World :=
  mkWorld empty_db fs files.

(** The states the service can reach through its operations. *)
Definition reachable (w : World) : Prop :=
  exists fs files calls, w = run calls (initial_world fs files).

Definition is_add_label (c : call) : bool :=
  match c with AddLabel _ _ _ _ _ => true | _ => false end.

(** ** The properties of the specification, as predicates on the database *)

(** [images.label_count] equals [COUNT( * )] of the labels of the image. *)
Definition label_count_consistent (d : DB) : Prop :=
  Forall (fun i => i_label_count i = Sql.count_labels (labels d) (i_id i)) (images d).

Definition label_key (l : LabelRow) : string * string * string :=
  (l_image_id l, l_text l, l_language l).

(** No two rows of [labels] hold the same (image_id, text, language). *)
Definition unique_label_keys (d : DB) : Prop :=
  List.NoDup (map label_key (labels d)).

(** Every label references an existing image and an existing user. *)
Definition references_hold (d : DB) : Prop :=
  Forall (fun l => Sql.image_exists d (l_image_id l) = true
                   /\ Sql.user_exists d (l_added_by l) = true)
         (labels d).

(** The ledger holds no negative score. *)
Definition ledger_nonnegative (d : DB) : Prop :=
  Forall (fun a => 0 <= act_points_earned a) (user_activities d).

(** The ledger [acts'] is the ledger [acts] with at most one more entry,
    of [points] points. *)
Definition credited (points : Z) (acts acts' : list ActivityRow) : Prop :=
  acts' = acts
  \/ exists user_id activity_type description,
       acts' = (acts ++ [mkActivity user_id activity_type description points])%list.

(** The tables other than the two logs. *)
Definition same_core (d d' : DB) : Prop :=
  users d' = users d /\ images d' = images d /\ labels d' = labels d
  /\ users_seq d' = users_seq d /\ labels_seq d' = labels_seq d.

(** The row [add_label] writes and the database after its two statements
    on a connection without foreign-key checks. *)
Definition new_label (d : DB) (now : Z) (image_id text language added_by : string)
  : LabelRow :=
  mkLabel (Sql.next_rowid (labels_seq d) (map l_id (labels d)))
          image_id text language added_by now.

Definition labelled (d : DB) (now : Z) (image_id text language added_by : string) : DB :=
  match Sql.insert_or_replace_label (mkConn d false) image_id text language added_by now with
  | Ok conn => cdb (Sql.update_label_count conn image_id)
  | Raise _ => d
  end.

(** The character has a code point. *)
Definition has_ord (ch : string) : bool :=
  match Py.ord ch with Some _ => true | None => false end.

(** Lists of characters as [Py.chars] gives them: each is a byte followed
    by continuation bytes, and only the first may start with a
    continuation byte. *)
Definition is_piece (ch : string) : bool :=
  match ch with
  | String _ t => Py.all_chars Py.is_cont t
  | EmptyString => false
  end.

Fixpoint proper (l : list string) : bool :=
  match l with
  | [] => true
  | ch :: l' =>
      is_piece ch
      && match l' with
         | next :: _ => negb (Py.starts_cont next)
         | [] => true
         end
      && proper l'
  end.

(** The four checks [create_user] makes on the stripped arguments. *)
Definition passes_validation (username password : string) : bool :=
  negb (is_empty username || is_empty password)
  && negb (Py.len username <? 3)%nat
  && negb (Py.len password <? 3)%nat
  && Py.isalnum (Py.replace "-" "" (Py.replace "_" "" username)).


(** The error of the keyword arguments, the first that [create_user]
    meets. *)
Definition kwargs_error (kwargs : UserKwargs) : option exn :=
  match stripped_or_none (kw_full_name kwargs) with
  | Raise e => Some e
  | Ok _ =>
      match stripped_or_none (kw_email kwargs) with
      | Raise e => Some e
      | Ok _ =>
          match age_or_none (kw_age kwargs) with
          | Raise e => Some e
          | Ok (Some a) =>
              if Sql.fits_int64 a then None
              else Some (OverflowError "Python int too large to convert to SQLite INTEGER")
          | Ok None => None
          end
      end
  end.

(** The rows a read operation returns: none after an error. *)
Definition or_empty {A : Type} (r : result (list A)) : list A :=
  match r with
  | Ok rows => rows
  | Raise _ => []
  end.

Definition value_of {A : Type} (r : result (option A)) : option A :=
  match r with
  | Ok v => v
  | Raise _ => None
  end.

(** The row [create_user] inserts. *)
Definition new_user (d : DB) (now : Z) (username password : string) (kwargs : UserKwargs)
  : UserRow :=
  mkUser (Sql.next_rowid (users_seq d) (map u_id (users d))) username password
         (kwargs_get (kw_preferred_language kwargs) (Some "en"))
         (value_of (stripped_or_none (kw_full_name kwargs)))
         (value_of (stripped_or_none (kw_email kwargs)))
         (value_of (age_or_none (kw_age kwargs)))
         now None true.

(** The outcomes of [create_user] on the stripped arguments [username]
    and [password], one case per exit of the function. *)
Inductive register_outcome (now : Z) (username password : string) (kwargs : UserKwargs)
    (w : World) : result (bool * string) * World -> Prop :=
| reg_required :
    is_empty username || is_empty password = true ->
    register_outcome now username password kwargs w
      (Ok (false, "Username and password are required"), w)
| reg_short_username :
    is_empty username || is_empty password = false ->
    (Py.len username <? 3)%nat = true ->
    register_outcome now username password kwargs w
      (Ok (false, "Username must be at least 3 characters"), w)
| reg_short_password :
    is_empty username || is_empty password = false ->
    (Py.len username <? 3)%nat = false ->
    (Py.len password <? 3)%nat = true ->
    register_outcome now username password kwargs w
      (Ok (false, "Password must be at least 3 characters"), w)
| reg_bad_characters :
    is_empty username || is_empty password = false ->
    (Py.len username <? 3)%nat = false ->
    (Py.len password <? 3)%nat = false ->
    Py.isalnum (Py.replace "-" "" (Py.replace "_" "" username)) = false ->
    register_outcome now username password kwargs w
      (Ok (false, "Username can only contain letters, numbers, underscore, and hyphen"), w)
| reg_storage_failed (msg : string) :
    passes_validation username password = true ->
    storage_fails w = Some msg ->
    register_outcome now username password kwargs w
      (Ok (false, "Error creating user: " ++ msg)%string, next w)
| reg_bad_kwargs (e : exn) :
    passes_validation username password = true ->
    storage_fails w = None ->
    kwargs_error kwargs = Some e ->
    register_outcome now username password kwargs w
      (Ok (false, "Error creating user: " ++ exn_message e)%string, next w)
| reg_duplicate :
    passes_validation username password = true ->
    storage_fails w = None ->
    kwargs_error kwargs = None ->
    Sql.user_exists (db w) username = true ->
    register_outcome now username password kwargs w
      (Ok (false, "Username already exists"), next w)
| reg_created (w' : World) :
    passes_validation username password = true ->
    storage_fails w = None ->
    kwargs_error kwargs = None ->
    Sql.user_exists (db w) username = false ->
    users (db w') = (users (db w) ++ [new_user (db w) now username password kwargs])%list ->
    images (db w') = images (db w) ->
    labels (db w') = labels (db w) ->
    user_activities (db w') = user_activities (db w) ->
    disk w' = disk w ->
    register_outcome now username password kwargs w
      (Ok (true, "User created successfully"), w').

(** The conditions of Register, on a username and a password. *)
Definition special_char (ch : string) : bool := String.eqb ch "_" || String.eqb ch "-".

(** A letter or a digit ([str.isalnum]), an underscore or a hyphen. *)
Definition allowed_char (ch : string) : bool := Py.is_alnum ch || special_char ch.

(** Only letters, digits, underscore and hyphen. *)
Definition chars_allowed (s : string) : bool := forallb allowed_char (Py.chars s).

(** At least one letter or digit. *)
Definition has_letter_or_digit (s : string) : bool := existsb Py.is_alnum (Py.chars s).


Definition succeeded (r : result (bool * string)) : bool :=
  match r with
  | Ok (true, _) => true
  | _ => false
  end.

(** Whether a call leaves the service by an exception. *)
Definition raised {A : Type} (r : result A * World) : bool :=
  match fst r with
  | Raise _ => true
  | Ok _ => false
  end.

Definition call_raises (c : call) (w : World) : bool :=
  match c with
  | CreateUser now u p kw => raised (create_user now u p kw w)
  | AuthenticateUser now u p => raised (authenticate_user now u p w)
  | AddImage now id t d c p u kw => raised (add_image now id t d c p u kw w)
  | AddLabel now i t l u => raised (add_label now i t l u w)
  | GetImages c l s n => raised (get_images c l s n w)
  | GetImageLabels i => raised (get_image_labels i w)
  | GetStatistics now => raised (get_statistics now w)
  | GetUserStats u => raised (get_user_stats u w)
  | GetCategoryStatistics => raised (get_category_statistics w)
  | GetLanguageStatistics => raised (get_language_statistics w)
  | GetActivityTimeline now days => raised (get_activity_timeline now days w)
  | ExportToExcel x now => raised (export_to_excel x now w)
  | CreateImagesZip => raised (create_images_zip w)
  end.

Definition is_add_image (c : call) : bool :=
  match c with AddImage _ _ _ _ _ _ _ _ => true | _ => false end.

(** The filters of QueryImages.  A filter that is absent or empty holds of
    everything. *)
Definition no_filter (o : option string) : bool :=
  match Py.truthy o with
  | None => true
  | Some _ => false
  end.

Definition category_ok (category : option string) (i : ImageRow) : bool :=
  match Py.truthy category with
  | Some c => Sql.streq (i_category i) c
  | None => true
  end.

Definition language_ok (language : option string) (l : LabelRow) : bool :=
  match Py.truthy language with
  | Some lang => Sql.streq (l_language l) lang
  | None => true
  end.

(** The search text, as the pattern [%text%], matches the title or the
    description of the image. *)
Definition image_text_ok (search : option string) (i : ImageRow) : bool :=
  match Py.truthy search with
  | Some s => Sql.like ("%" ++ s ++ "%") (i_title i)
              || Sql.like ("%" ++ s ++ "%") (i_description i)
  | None => true
  end.

(** The search text matches the text of the label. *)
Definition label_text_ok (search : option string) (l : LabelRow) : bool :=
  match Py.truthy search with
  | Some s => Sql.like ("%" ++ s ++ "%") (l_text l)
  | None => true
  end.

Definition owns (i : ImageRow) (l : LabelRow) : bool := Sql.streq (i_id i) (l_image_id l).

(** The image has the category, and either no language is asked for and
    the search matches its title or description, or one of its labels is
    in the language and the search matches the title, the description or
    the text of that label. *)
Definition selected (category language search : option string) (ls : list LabelRow)
    (i : ImageRow) : bool :=
  category_ok category i
  && ((no_filter language && image_text_ok search i)
      || existsb (fun l => owns i l && language_ok language l
                           && (image_text_ok search i || label_text_ok search l))
                 ls).

(** The text contains the search text (Python's [needle in text]): the
    characters of the one occur in a row among those of the other. *)
Fixpoint begins_with (needle text : list string) : bool :=
  match needle, text with
  | [], _ => true
  | x :: needle', y :: text' => String.eqb x y && begins_with needle' text'
  | _ :: _, [] => false
  end.

Fixpoint occurs_in (needle text : list string) : bool :=
  begins_with needle text
  || match text with
     | [] => false
     | _ :: text' => occurs_in needle text'
     end.

Definition contains (needle text : string) : bool :=
  occurs_in (Py.chars needle) (Py.chars text).


(** The statement of [get_images] is one the engine accepts: the limit is
    an integer it can store and the pattern made of the search text is not
    longer than it allows. *)
Definition query_accepted (search : option string) (limit : Z) : bool :=
  Sql.fits_int64 limit
  && match Py.truthy search with
     | Some s => negb (Sql.like_pattern_too_long ("%" ++ s ++ "%"))
     | None => true
     end.


(** The string stored for a key in the table of a language. *)
Definition stored (TRANSLATIONS : gmap string (gmap string string))
    (language key : string) : option string :=
  match TRANSLATIONS !! language with
  | Some d => d !! key
  | None => None
  end.

(** The humanized form of a key: underscores become spaces and every word
    is capitalised. *)
Definition humanized (key : string) : string := Py.title (Py.replace "_" " " key).

(** The byte occurs in the string. *)
Fixpoint has_byte (c : ascii) (s : string) : bool :=
  match s with
  | EmptyString => false
  | String x s' => Ascii.eqb x c || has_byte c s'
  end.



(** ** Sample data *)

Definition no_user_kwargs : UserKwargs := mkUserKwargs None None None None.


(** Two times e with an acute accent (U+00E9), and the Hindi name Amar,
    in UTF-8. *)
Definition e_acute_twice : string :=
  String "195" (String "169" (String "195" (String "169" EmptyString))).

(** The no-break space (U+00A0) and the ideographic space (U+3000). *)
Definition nbsp : string := String "194" (String "160" EmptyString).


Definition amar : string :=
  String "224" (String "164" (String "133"
  (String "224" (String "164" (String "174"
  (String "224" (String "164" (String "176" EmptyString)))))))).

Definition no_image_kwargs : ImageKwargs :=
  mkImageKwargs None None None None None None None None.

(** An Excel writer that raises on no step. *)
Definition writer_works : writer_step -> bool := fun _ => false.

(** An Excel writer that raises when it is given the Labels sheet. *)
Definition labels_sheet_refused : writer_step -> bool :=
  fun step => match step with LabelsSheet _ => true | _ => false end.

(** A new database, no failure ahead, the file of one image on disk. *)
Definition blank_world : World := initial_world [] [("uploads/cat.png", RegularFile)].

(** The same with a storage failure awaiting the next connection. *)
Definition locked_world : World :=
  initial_world [Some "database is locked"] [("uploads/cat.png", RegularFile)].

(** The scenario of the specification: alice123 registers and uploads a
    cat, then labels it in English and in Hindi. *)
Definition onboarding : list call :=
  [CreateUser 1 "alice123" "pass123" no_user_kwargs;
   AddImage 2 "img-1" "Cat" "A cat on a mat" "Animals" "uploads/cat.png" "alice123"
            no_image_kwargs].

Definition labelling : list call :=
  [AddLabel 3 "img-1" "cat" "en" "alice123";
   AddLabel 4 "img-1" "billi" "hi" "alice123"].

Definition scenario : list call := (onboarding ++ labelling)%list.

Definition scenario_world : World := run scenario blank_world.

(** A translation table with an English and a Hindi part. *)
Definition sample_translations : gmap string (gmap string string) :=
  {[ "en" := {[ "login" := "Login"; "logout" := "Logout" ]};
     "hi" := {[ "login" := "Pravesh" ]} ]}.

(** A second user with an image whose title has 60 characters and whose
    file is missing. *)
Definition long_title : string :=
  "A very long title that goes on and on well past fifty chars.".

Definition gallery : list call :=
  (scenario ++
   [CreateUser 5 "bob" "secret" no_user_kwargs;
    AddImage 6 "img-2" long_title "" "Nature" "uploads/2024/hill.v2.jpeg" "bob"
             no_image_kwargs;
    AddImage 7 "img-3" long_title "" "Animals" "uploads/cat.png" "alice123"
             no_image_kwargs])%list.

Definition gallery_world : World := run gallery blank_world.

(** An image whose title climbs out of its folder. *)
Definition climbing : list call :=
  (onboarding ++
   [AddImage 5 "img-4" "../../etc/x" "" "Animals" "uploads/cat.png" "alice123"
             no_image_kwargs])%list.

Definition climbing_world : World := run climbing blank_world.

(** The scenario with the file of the cat on disk but not readable. *)
Definition unreadable_world : World :=
  run scenario (initial_world [] [("uploads/cat.png", Unarchivable)]).

(** ** Further properties of the service *)

(** A row of [users] as [create_user] writes it: the username and the
    password are stripped, they pass the checks, and the user is active. *)
Definition stored_user_ok (u : UserRow) : Prop :=
  Py.strip (u_username u) = u_username u
  /\ Py.strip (u_password u) = u_password u
  /\ passes_validation (u_username u) (u_password u) = true
  /\ u_is_active u = true.

Definition users_wellformed (d : DB) : Prop :=
  List.NoDup (map u_username (users d)) /\ Forall stored_user_ok (users d).

(** The rows of [users] agree on everything but [last_login]. *)
Definition same_account (u u' : UserRow) : Prop :=
  u_id u' = u_id u /\ u_username u' = u_username u /\ u_password u' = u_password u
  /\ u_preferred_language u' = u_preferred_language u /\ u_full_name u' = u_full_name u
  /\ u_email u' = u_email u /\ u_age u' = u_age u /\ u_created_at u' = u_created_at u
  /\ u_is_active u' = u_is_active u.

(** The rowids of [labels]: increasing along the table, positive, and
    not above the AUTOINCREMENT counter. *)
Definition rowids_fresh (d : DB) : Prop :=
  StronglySorted Z.lt (map l_id (labels d))
  /\ Forall (fun l => 0 < l_id l <= labels_seq d) (labels d)
  /\ 0 <= labels_seq d.

(** Newest first, for labels. *)
Definition not_older_label (a b : LabelRow) : Prop := l_added_at b <= l_added_at a.

(** The image rows agree on everything but [label_count]. *)
Definition same_image (i i' : ImageRow) : Prop :=
  Sql.set_label_count i' 0 = Sql.set_label_count i 0.

(** [labels_added] of UserStatistics. *)
Definition labels_added (d : DB) (username : string) : Z :=
  Z.of_nat (List.length (List.filter (fun l => Sql.streq (l_added_by l) username)
                                     (labels d))).

(** The rows of a [GROUP BY key] query with [COUNT( * )] over the column
    [keys]: one row per distinct key, holding the number of its
    occurrences, which is positive; the counts add up to the number of
    rows grouped. *)
Definition grouped {K : Type} (eqb : K -> K -> bool) (keys : list K)
    (rows : list (K * Z)) : Prop :=
  List.NoDup (map fst rows)
  /\ (forall k n, In (k, n) rows <-> In k keys /\ n = Sql.count (eqb k) keys)
  /\ Forall (fun r => 0 < snd r) rows
  /\ Sql.sum (map snd rows) = Z.of_nat (List.length keys).

(** The workbook [export_to_excel] hands to the Excel writer, and the
    steps in which it does so; the figures come from a nested call of
    [get_statistics], which opens a connection of its own. *)
Definition exported_book (now : Z) (w : World) : Workbook :=
  mkWorkbook
    (map (fun u => mkUsersSheetRow (u_username u) (u_preferred_language u)
                     (u_full_name u) (u_email u) (u_created_at u)
                     (u_last_login u) (u_is_active u))
         (users (db w)))
    (images (db w))
    (labels_with_title (db w))
    match storage_fails (next w) with
    | Some _ => []
    | None => statistics now (db w)
    end.

Definition writer_steps (now : Z) (w : World) : list writer_step :=
  let book := exported_book now w in
  [OpenWriter; UsersSheet (sheet_users book); ImagesSheet (sheet_images book);
   LabelsSheet (sheet_labels book); StatisticsSheet (sheet_statistics book);
   CloseWriter book].

(** The start date of [get_activity_timeline] exists: the number of days
    is one a [timedelta] can hold, and the date that many days before now
    is one a [datetime] can hold (years 1 to 9999). *)
Definition start_date_exists (now days : Z) : Prop :=
  -999999999 <= days <= 999999999
  /\ datetime_min <= now - days * day <= datetime_max.

(** [WHERE uploaded_at > start_date] of [get_activity_timeline]. *)
Definition uploaded_since (now days : Z) (i : ImageRow) : bool :=
  now - days * day <? i_uploaded_at i.

(** Uploads on three different days. *)
Definition calendar : list call :=
  [AddImage 5 "day0" "Dawn" "" "Nature" "uploads/dawn.png" "alice123" no_image_kwargs;
   AddImage (3 * day + 1) "day3" "Dusk" "" "Nature" "uploads/dusk.png" "alice123"
     no_image_kwargs;
   AddImage (day + 7) "day1a" "Noon" "" "Nature" "uploads/noon.png" "bob" no_image_kwargs;
   AddImage (day + 9) "day1b" "Rain" "" "Nature" "uploads/rain.png" "bob" no_image_kwargs].

Definition calendar_world : World := run calendar blank_world.

(** The scenario followed by a label for an image that was never
    uploaded. *)
Definition orphaned_world : World :=
  run [AddLabel 9 "no-such-image" "cat" "en" "ghost"] scenario_world.

(** The table [rows'] holds the rows of [rows], in order and each up to
    [same], followed by further rows. *)
Definition kept {A : Type} (same : A -> A -> Prop) (rows rows' : list A) : Prop :=
  exists old more, rows' = (old ++ more)%list /\ Forall2 same rows old.

(** The database [d'] has every user and image of [d], and its ledger
    extends the ledger of [d] by entries of positive score. *)
Definition grows_from (d d' : DB) : Prop :=
  kept same_account (users d) (users d')
  /\ kept same_image (images d) (images d')
  /\ exists more, user_activities d' = (user_activities d ++ more)%list
                  /\ Forall (fun a => 0 < act_points_earned a) more.

(** ** The translation table ([translations.py]) *)

(** [add_translation(language, key, value)]: the content of the mutable
    table [TRANSLATIONS] after the call. *)
Definition add_translation (TRANSLATIONS : gmap string (gmap string string))
    (language key value : string) : gmap string (gmap string string) :=
  let TRANSLATIONS :=
    match TRANSLATIONS !! language with
    | None => <[language := ∅]> TRANSLATIONS
    | Some _ => TRANSLATIONS
    end in
  <[language := <[key := value]> (default ∅ (TRANSLATIONS !! language))]> TRANSLATIONS.

(** [get_all_translations(language)], by the content of the dictionary it
    returns.  [TRANSLATIONS.get(language, TRANSLATIONS['en'])] evaluates
    its second argument first: [None] is the [KeyError] of a table without
    an English part. *)
Definition get_all_translations (TRANSLATIONS : gmap string (gmap string string))
    (language : string) : option (gmap string string) :=
  match TRANSLATIONS !! "en" with
  | None => None
  | Some en => Some (default en (TRANSLATIONS !! language))
  end.

(** ** The image feed ([app.py]) *)

Definition IMAGES_PER_PAGE : Z := 8.

(** [l[start:stop]]: an index below zero counts from the end, and both
    indices are brought into the range of the list. *)
Definition slice_index (len i : Z) : Z :=
  if i <? 0 then Z.max 0 (i + len) else Z.min i len.

Definition slice {A : Type} (l : list A) (start stop : Z) : list A :=
  let len := Z.of_nat (List.length l) in
  let a := slice_index len start in
  let b := slice_index len stop in
  firstn (Z.to_nat (b - a)) (skipn (Z.to_nat a) l).

(** [(len(images) + IMAGES_PER_PAGE - 1) // IMAGES_PER_PAGE] *)
Definition total_pages {A : Type} (images : list A) : Z :=
  (Z.of_nat (List.length images) + IMAGES_PER_PAGE - 1) / IMAGES_PER_PAGE.

(** The images the feed shows on a page. *)
Definition page_images {A : Type} (images : list A) (page : Z) : list A :=
  let start_idx := (page - 1) * IMAGES_PER_PAGE in
  let end_idx := start_idx + IMAGES_PER_PAGE in
  slice images start_idx end_idx.

(** [list(range(1, total_pages + 1))], the pages of the slider. *)
Definition page_options {A : Type} (images : list A) : list Z :=
  map Z.of_nat (seq 1 (Z.to_nat (total_pages images))).

(** * Proofs *)

(** ** The effect layer *)

Lemma streq_eq (a b : string) : Sql.streq a b = true <-> a = b.
Proof. unfold Sql.streq. apply String.eqb_eq. Qed.

Lemma streq_neq (a b : string) : Sql.streq a b = false <-> a <> b.
Proof. unfold Sql.streq. apply String.eqb_neq. Qed.

Lemma streq_refl (a : string) : Sql.streq a a = true.
Proof. apply streq_eq. reflexivity. Qed.

Lemma get_connection_fails {A : Type} (body : Conn -> M A) (w : World) (msg : string) :
  storage_fails w = Some msg ->
  get_connection body w = (Raise (OperationalError msg), next w).
Proof. intros H. unfold get_connection. rewrite H. reflexivity. Qed.

Lemma get_connection_works {A : Type} (body : Conn -> M A) (w : World) :
  storage_fails w = None ->
  get_connection body w = body (mkConn (db w) false) (next w).
Proof. intros H. unfold get_connection. rewrite H. reflexivity. Qed.

Lemma bind_ok {A B : Type} (m : M A) (k : A -> M B) (w : World) (a : A) (w' : World) :
  m w = (Ok a, w') -> bind m k w = k a w'.
Proof. intros H. unfold bind. rewrite H. reflexivity. Qed.

Lemma bind_raise {A B : Type} (m : M A) (k : A -> M B) (w : World) (e : exn) (w' : World) :
  m w = (Raise e, w') -> bind m k w = (Raise e, w').
Proof. intros H. unfold bind. rewrite H. reflexivity. Qed.

Lemma same_core_refl (d : DB) : same_core d d.
Proof. repeat split. Qed.

Lemma same_core_trans (d1 d2 d3 : DB) :
  same_core d1 d2 -> same_core d2 d3 -> same_core d1 d3.
Proof.
  unfold same_core. intros (a1 & a2 & a3 & a4 & a5) (b1 & b2 & b3 & b4 & b5).
  repeat split; congruence.
Qed.

(** [log_event] never raises and touches only the [analytics] table. *)
Lemma log_event_frame (event_type : string) (user_id : option string)
    (metadata : option (list (string * jval))) (w : World) :
  exists w', log_event event_type user_id metadata w = (Ok tt, w')
             /\ same_core (db w) (db w')
             /\ user_activities (db w') = user_activities (db w)
             /\ disk w' = disk w.
Proof.
  unfold log_event, try_except, get_connection.
  destruct (storage_fails w); simpl; eexists; split; try reflexivity;
    repeat split; reflexivity.
Qed.

(** [_record_user_activity] never raises and touches only the ledger. *)
Lemma record_user_activity_frame (user_id activity_type description : string)
    (points : Z) (w : World) :
  exists w', _record_user_activity user_id activity_type description points w = (Ok tt, w')
             /\ same_core (db w) (db w')
             /\ analytics (db w') = analytics (db w)
             /\ disk w' = disk w
             /\ credited points (user_activities (db w)) (user_activities (db w')).
Proof.
  unfold _record_user_activity, try_except, get_connection.
  destruct (storage_fails w); simpl; eexists; split; try reflexivity;
    repeat split; try reflexivity.
  - left. reflexivity.
  - right. eexists _, _, _. reflexivity.
Qed.

(** ** [add_label] *)

Lemma labelled_labels (d : DB) (now : Z) (image_id text language added_by : string) :
  labels (labelled d now image_id text language added_by)
  = (List.filter (fun l => negb (Sql.same_key image_id text language l)) (labels d)
     ++ [new_label d now image_id text language added_by])%list.
Proof. reflexivity. Qed.

Lemma labelled_images (d : DB) (now : Z) (image_id text language added_by : string) :
  images (labelled d now image_id text language added_by)
  = map (fun i => if Sql.streq (i_id i) image_id
                  then Sql.set_label_count i
                         (Sql.count_labels
                            (labels (labelled d now image_id text language added_by))
                            image_id)
                  else i)
        (images d).
Proof. reflexivity. Qed.

Lemma labelled_users (d : DB) (now : Z) (image_id text language added_by : string) :
  users (labelled d now image_id text language added_by) = users d.
Proof. reflexivity. Qed.

(** The two outcomes of [add_label]: the storage fails and nothing is
    written, or the label is committed and the two logs are attempted. *)
Lemma add_label_cases (now : Z) (image_id text language added_by : string) (w : World) :
  (exists msg, storage_fails w = Some msg
               /\ add_label now image_id text language added_by w = (Ok false, next w))
  \/
  (storage_fails w = None
   /\ exists w', add_label now image_id text language added_by w = (Ok true, w')
                 /\ same_core (labelled (db w) now image_id text language added_by) (db w')
                 /\ disk w' = disk w
                 /\ credited 5 (user_activities (db w)) (user_activities (db w'))).
Proof.
  destruct (storage_fails w) as [msg|] eqn:F.
  - left. exists msg. split; [reflexivity|].
    unfold add_label, try_except. rewrite (get_connection_fails _ _ msg F). reflexivity.
  - right. split; [reflexivity|].
    unfold add_label, try_except. rewrite (get_connection_works _ _ F).
    unfold bind at 1. unfold execute at 1. cbn [Sql.insert_or_replace_label foreign_keys andb].
    unfold bind at 1. unfold commit at 1.
    match goal with
    | |- context [bind (log_event ?e ?u ?m) ?k ?w0] =>
        destruct (log_event_frame e u m w0) as (w1 & E1 & C1 & A1 & D1);
        rewrite (bind_ok _ k w0 tt w1 E1)
    end.
    match goal with
    | |- context [bind (_record_user_activity ?a ?b ?c ?p) ?k ?w0] =>
        destruct (record_user_activity_frame a b c p w0) as (w2 & E2 & C2 & _ & D2 & P2);
        rewrite (bind_ok _ k w0 tt w2 E2)
    end.
    unfold ret.
    exists w2. split; [reflexivity|]. split; [|split].
    + eapply same_core_trans; [|exact C2].
      eapply same_core_trans; [|exact C1]. apply same_core_refl.
    + rewrite D2, D1. reflexivity.
    + rewrite A1 in P2. exact P2.
Qed.

Lemma same_key_image (image_id text language : string) (l : LabelRow) :
  Sql.same_key image_id text language l = true -> l_image_id l = image_id.
Proof.
  unfold Sql.same_key. intros H.
  apply andb_true_iff in H as [H _]. apply andb_true_iff in H as [H _].
  apply streq_eq. exact H.
Qed.

(** Replacing a label of one image leaves the labels of the others alone. *)
Lemma count_labels_other (d : DB) (now : Z) (image_id text language added_by x : string) :
  x <> image_id ->
  Sql.count_labels (labels (labelled d now image_id text language added_by)) x
  = Sql.count_labels (labels d) x.
Proof.
  intros Hx. rewrite labelled_labels. unfold Sql.count_labels, Sql.count.
  f_equal. f_equal. rewrite List.filter_app. cbn [List.filter new_label l_image_id].
  assert (Sql.streq image_id x = false) as -> by (apply streq_neq; congruence).
  rewrite app_nil_r.
  induction (labels d) as [|l ls IH]; [reflexivity|].
  cbn [List.filter].
  destruct (Sql.same_key image_id text language l) eqn:K; cbn [negb List.filter].
  - apply same_key_image in K.
    assert (Sql.streq (l_image_id l) x = false) as -> by (apply streq_neq; congruence).
    exact IH.
  - destruct (Sql.streq (l_image_id l) x); [f_equal|]; exact IH.
Qed.

Lemma labelled_consistent (d : DB) (now : Z) (image_id text language added_by : string) :
  label_count_consistent d ->
  label_count_consistent (labelled d now image_id text language added_by).
Proof.
  unfold label_count_consistent. intros H.
  rewrite labelled_images. apply List.Forall_map.
  eapply List.Forall_impl; [|exact H]. intros i Hi. cbn beta.
  destruct (Sql.streq (i_id i) image_id) eqn:E.
  - apply streq_eq in E. cbn [Sql.set_label_count i_label_count i_id]. rewrite E. reflexivity.
  - apply streq_neq in E. rewrite Hi. symmetry. apply count_labels_other. exact E.
Qed.

Lemma consistent_same_core (d d' : DB) :
  same_core d d' -> label_count_consistent d -> label_count_consistent d'.
Proof.
  unfold same_core, label_count_consistent. intros (_ & Hi & Hl & _) H.
  rewrite Hi, Hl. exact H.
Qed.

Lemma add_label_consistent (now : Z) (image_id text language added_by : string) (w : World) :
  label_count_consistent (db w) ->
  label_count_consistent (db (snd (add_label now image_id text language added_by w))).
Proof.
  intros H.
  destruct (add_label_cases now image_id text language added_by w)
    as [(msg & _ & E) | (_ & w' & E & C & _)]; rewrite E; cbn [snd].
  - exact H.
  - eapply consistent_same_core; [exact C|]. apply labelled_consistent. exact H.
Qed.

(** C1: after any sequence of AddLabel operations that starts in a state
    where every image's stored [label_count] equals the number of [labels]
    rows referencing it, the same holds for every image. *)
Theorem label_count_matches_labels (calls : list call) (w : World) :
  forallb is_add_label calls = true ->
  label_count_consistent (db w) ->
  label_count_consistent (db (run calls w)).
Proof.
  revert w. induction calls as [|c calls IH]; intros w Hc Hw; [exact Hw|].
  cbn [forallb] in Hc. apply andb_true_iff in Hc as [Hc1 Hc2].
  cbn [run fold_left]. apply IH; [exact Hc2|].
  destruct c; try discriminate Hc1. cbn [after].
  apply add_label_consistent. exact Hw.
Qed.

(** ** [create_user] *)

Lemma stripped_or_none_raise (o : option (option string)) (e : exn) :
  stripped_or_none o = Raise e ->
  e = AttributeError "'NoneType' object has no attribute 'strip'".
Proof. destruct o as [[s|]|]; cbn; congruence. Qed.

Lemma age_or_none_raise (o : option (option Z)) (e : exn) :
  age_or_none o = Raise e ->
  e = TypeError "'>' not supported between instances of 'NoneType' and 'int'".
Proof. destruct o as [[a|]|]; cbn; congruence. Qed.

Lemma create_user_outcome (now : Z) (username password : string) (kwargs : UserKwargs)
    (w : World) :
  register_outcome now (Py.strip username) (Py.strip password) kwargs w
    (create_user now username password kwargs w).
Proof.
  unfold create_user, try_except.
  set (u := Py.strip username). set (p := Py.strip password).
  destruct (is_empty u || is_empty p) eqn:E1; [apply reg_required; exact E1|].
  destruct (Py.len u <? 3)%nat eqn:E2; [apply reg_short_username; assumption|].
  destruct (Py.len p <? 3)%nat eqn:E3; [apply reg_short_password; assumption|].
  destruct (Py.isalnum (Py.replace "-" "" (Py.replace "_" "" u))) eqn:E4;
    cbn [negb]; [|apply reg_bad_characters; assumption].
  assert (passes_validation u p = true) as V
    by (unfold passes_validation; rewrite E1, E2, E3, E4; reflexivity).
  destruct (storage_fails w) as [msg|] eqn:F.
  - rewrite (get_connection_fails _ _ msg F). cbn [exn_message].
    apply reg_storage_failed; assumption.
  - rewrite (get_connection_works _ _ F).
    unfold bind at 1. unfold evaluate at 1.
    destruct (stripped_or_none (kw_full_name kwargs)) as [full_name|e1] eqn:K1;
      [|pose proof (stripped_or_none_raise _ _ K1) as E; rewrite E in *;
        apply (reg_bad_kwargs _ _ _ _ _ _ V F);
        unfold kwargs_error; rewrite K1; reflexivity].
    unfold bind at 1. unfold evaluate at 1.
    destruct (stripped_or_none (kw_email kwargs)) as [email|e2] eqn:K2;
      [|pose proof (stripped_or_none_raise _ _ K2) as E; rewrite E in *;
        apply (reg_bad_kwargs _ _ _ _ _ _ V F);
        unfold kwargs_error; rewrite K1, K2; reflexivity].
    unfold bind at 1. unfold evaluate at 1.
    destruct (age_or_none (kw_age kwargs)) as [age|e3] eqn:K3;
      [|pose proof (age_or_none_raise _ _ K3) as E; rewrite E in *;
        apply (reg_bad_kwargs _ _ _ _ _ _ V F);
        unfold kwargs_error; rewrite K1, K2, K3; reflexivity].
    unfold bind at 1. unfold execute at 1. unfold Sql.insert_user. cbn [cdb].
    destruct (match age with Some a => negb (Sql.fits_int64 a) | None => false end) eqn:K4.
    { apply (reg_bad_kwargs _ _ _ _ _
               (OverflowError "Python int too large to convert to SQLite INTEGER"));
        try assumption.
      unfold kwargs_error. rewrite K1, K2, K3.
      destruct age as [a|]; [|discriminate K4].
      apply negb_true_iff in K4. rewrite K4. reflexivity. }
    assert (kwargs_error kwargs = None) as KE.
    { unfold kwargs_error. rewrite K1, K2, K3. destruct age as [a|]; [|reflexivity].
      apply negb_false_iff in K4. rewrite K4. reflexivity. }
    destruct (Sql.user_exists (db w) u) eqn:X.
    + apply reg_duplicate; assumption.
    + unfold bind at 1. unfold commit at 1.
      match goal with
      | |- context [bind (log_event ?e ?a ?m) ?k ?w0] =>
          destruct (log_event_frame e a m w0) as (w1 & L1 & (C1 & C2 & C3 & _) & A1 & D1);
          rewrite (bind_ok _ k w0 tt w1 L1)
      end.
      unfold ret. apply reg_created; try assumption.
      rewrite C1. unfold new_user. rewrite K1, K2, K3. reflexivity.
Qed.

(** ** Strings *)

Lemma append_cons (c : ascii) (a b : string) :
  (String c a ++ b)%string = String c (a ++ b)%string.
Proof. reflexivity. Qed.

Lemma append_nil (b : string) : (EmptyString ++ b)%string = b.
Proof. reflexivity. Qed.

Lemma append_nil_r (a : string) : (a ++ EmptyString)%string = a.
Proof. induction a as [|c a IH]; [reflexivity|]. rewrite append_cons, IH. reflexivity. Qed.

Lemma append_assoc (a b c : string) : ((a ++ b) ++ c)%string = (a ++ (b ++ c))%string.
Proof.
  induction a as [|x a IH]; [reflexivity|]. rewrite !append_cons, IH. reflexivity.
Qed.

Lemma join_app (l1 l2 : list string) :
  Py.join (l1 ++ l2) = (Py.join l1 ++ Py.join l2)%string.
Proof.
  induction l1 as [|x l1 IH]; [reflexivity|].
  cbn [app Py.join fold_right]. fold (Py.join (l1 ++ l2)) (Py.join l1).
  rewrite IH, append_assoc. reflexivity.
Qed.

Lemma join_cons (x : string) (l : list string) :
  Py.join (x :: l) = (x ++ Py.join l)%string.
Proof. reflexivity. Qed.

(** *** The characters of a string *)

Lemma chars_cons (c : ascii) (s : string) :
  Py.chars (String c s)
  = match Py.chars s with
    | ch :: rest =>
        if Py.starts_cont ch then String c ch :: rest
        else String c EmptyString :: ch :: rest
    | [] => [String c EmptyString]
    end.
Proof. reflexivity. Qed.

Lemma join_chars (s : string) : Py.join (Py.chars s) = s.
Proof.
  induction s as [|c s IH]; [reflexivity|]. rewrite chars_cons.
  destruct (Py.chars s) as [|ch rest]; [cbn in IH; subst s; reflexivity|].
  rewrite join_cons in IH.
  destruct (Py.starts_cont ch); rewrite !join_cons, ?append_cons, ?append_nil, ?IH;
    reflexivity.
Qed.

Lemma chars_empty (s : string) : Py.chars s = [] <-> s = "".
Proof.
  split; [|intros ->; reflexivity].
  destruct s as [|c s]; [reflexivity|]. rewrite chars_cons.
  destruct (Py.chars s) as [|ch rest]; [discriminate|].
  destruct (Py.starts_cont ch); discriminate.
Qed.

Lemma chars_proper (s : string) : proper (Py.chars s) = true.
Proof.
  induction s as [|c s IH]; [reflexivity|]. rewrite chars_cons.
  destruct (Py.chars s) as [|ch rest]; [reflexivity|].
  cbn [proper] in IH. apply andb_true_iff in IH as [IH1 IH3].
  apply andb_true_iff in IH1 as [IH1 IH2].
  destruct (Py.starts_cont ch) eqn:E; cbn [proper is_piece Py.all_chars].
  - destruct ch as [|d t]; [discriminate E|]. cbn [Py.starts_cont] in E.
    cbn [Py.all_chars is_piece] in *. rewrite E, IH1, IH2, IH3. reflexivity.
  - rewrite E, IH1, IH2, IH3. reflexivity.
Qed.

Lemma proper_app (l1 l2 : list string) :
  proper (l1 ++ l2) = true -> proper l1 = true /\ proper l2 = true.
Proof.
  induction l1 as [|x l1 IH]; [auto|]. cbn [app proper]. intros H.
  apply andb_true_iff in H as [H H3]. apply andb_true_iff in H as [H1 H2].
  destruct (IH H3) as [P1 P2]. split; [|exact P2].
  rewrite H1, P1. destruct l1 as [|y l1]; [reflexivity|].
  cbn [app] in H2. rewrite H2. reflexivity.
Qed.

(** A run of continuation bytes in front of a string makes a character
    of its own when the string starts a character. *)
Lemma chars_cont_run (t s : string) :
  Py.all_chars Py.is_cont t = true ->
  match Py.chars s with
  | ch :: _ => Py.starts_cont ch = false
  | [] => True
  end ->
  Py.chars (t ++ s) = match t with
                      | EmptyString => Py.chars s
                      | _ => t :: Py.chars s
                      end.
Proof.
  intros Ht Hs. induction t as [|d t IH]; [reflexivity|].
  cbn [Py.all_chars] in Ht. apply andb_true_iff in Ht as [Hd Ht].
  rewrite append_cons, chars_cons, (IH Ht).
  destruct t as [|e t].
  - destruct (Py.chars s) as [|ch rest]; [reflexivity|].
    rewrite Hs. reflexivity.
  - cbn [Py.all_chars] in Ht. apply andb_true_iff in Ht as [He _].
    cbn [Py.starts_cont]. rewrite He. reflexivity.
Qed.

Lemma chars_join (l : list string) : proper l = true -> Py.chars (Py.join l) = l.
Proof.
  induction l as [|x l IH]; [reflexivity|]. cbn [proper]. intros H.
  apply andb_true_iff in H as [H H3]. apply andb_true_iff in H as [H1 H2].
  specialize (IH H3). rewrite join_cons.
  destruct x as [|c t]; [discriminate H1|]. cbn [is_piece] in H1.
  rewrite append_cons, chars_cons, (chars_cont_run t (Py.join l) H1).
  - destruct t as [|e t].
    + rewrite IH. destruct l as [|y l]; [reflexivity|].
      apply negb_true_iff in H2. rewrite H2. reflexivity.
    + cbn [Py.all_chars] in H1. apply andb_true_iff in H1 as [He _].
      cbn [Py.starts_cont]. rewrite He, IH. reflexivity.
  - rewrite IH. destruct l as [|y l]; [exact I|]. apply negb_true_iff. exact H2.
Qed.

Lemma drop_while_suffix {A : Type} (p : A -> bool) (l : list A) :
  exists l1, l = (l1 ++ Py.drop_while p l)%list.
Proof.
  induction l as [|x l (l1 & IH)]; [exists []; reflexivity|].
  cbn [Py.drop_while]. destruct (p x); [|exists []; reflexivity].
  exists (x :: l1). cbn [app]. rewrite <- IH. reflexivity.
Qed.

Lemma drop_while_head {A : Type} (p : A -> bool) (l : list A) :
  match Py.drop_while p l with
  | x :: _ => p x = false
  | [] => True
  end.
Proof.
  induction l as [|x l IH]; [exact I|]. cbn [Py.drop_while].
  destruct (p x) eqn:E; [exact IH|exact E].
Qed.

Lemma drop_while_id {A : Type} (p : A -> bool) (l : list A) :
  match l with
  | x :: _ => p x = false
  | [] => True
  end ->
  Py.drop_while p l = l.
Proof. destruct l as [|x l]; [reflexivity|]. cbn [Py.drop_while]. intros ->. reflexivity. Qed.


(** The characters of [s.strip()] are a run of the characters of [s]. *)
Lemma strip_chars_run (l : list string) :
  exists l1 l2, l = (l1 ++ Py.strip_chars l ++ l2)%list.
Proof.
  unfold Py.strip_chars.
  destruct (drop_while_suffix Py.is_space l) as (l1 & E1).
  destruct (drop_while_suffix Py.is_space (rev (Py.drop_while Py.is_space l))) as (r & E2).
  exists l1, (rev r). rewrite E1 at 1. f_equal.
  rewrite <- (rev_involutive (Py.drop_while Py.is_space l)) at 1.
  rewrite E2 at 1. rewrite rev_app_distr. reflexivity.
Qed.

Lemma strip_chars_proper (l : list string) :
  proper l = true -> proper (Py.strip_chars l) = true.
Proof.
  intros H. destruct (strip_chars_run l) as (l1 & l2 & E). rewrite E in H.
  apply proper_app in H as [_ H]. apply proper_app in H as [H _]. exact H.
Qed.

Lemma strip_chars_idempotent (l : list string) :
  Py.strip_chars (Py.strip_chars l) = Py.strip_chars l.
Proof.
  unfold Py.strip_chars.
  set (m := Py.drop_while Py.is_space l).
  set (n := Py.drop_while Py.is_space (rev m)).
  assert (Py.drop_while Py.is_space (rev n) = rev n) as ->.
  { apply drop_while_id.
    destruct (drop_while_suffix Py.is_space (rev m)) as (r & E). fold n in E.
    assert (m = (rev n ++ rev r)%list) as Em
      by (rewrite <- (rev_involutive m), E, rev_app_distr; reflexivity).
    pose proof (drop_while_head Py.is_space l) as Hm. fold m in Hm.
    destruct (rev n) as [|x t]; [exact I|]. rewrite Em in Hm. exact Hm. }
  rewrite rev_involutive.
  rewrite (drop_while_id Py.is_space n); [reflexivity|].
  apply (drop_while_head Py.is_space (rev m)).
Qed.

Lemma chars_strip (s : string) : Py.chars (Py.strip s) = Py.strip_chars (Py.chars s).
Proof. apply chars_join, strip_chars_proper, chars_proper. Qed.

Lemma strip_idempotent (s : string) : Py.strip (Py.strip s) = Py.strip s.
Proof.
  unfold Py.strip at 1. rewrite chars_strip, strip_chars_idempotent. reflexivity.
Qed.


(** A stripped string neither begins nor ends with whitespace. *)
Lemma strip_ends (s : string) :
  match Py.chars (Py.strip s) with
  | ch :: _ => Py.is_space ch = false
  | [] => True
  end
  /\ match rev (Py.chars (Py.strip s)) with
     | ch :: _ => Py.is_space ch = false
     | [] => True
     end.
Proof.
  rewrite chars_strip. split.
  - rewrite <- strip_chars_idempotent. unfold Py.strip_chars at 1.
    set (n := Py.drop_while Py.is_space (rev (Py.drop_while Py.is_space _))).
    assert (Py.drop_while Py.is_space (Py.strip_chars (Py.chars s))
            = Py.strip_chars (Py.chars s)) as E.
    { unfold Py.strip_chars.
      set (m := Py.drop_while Py.is_space (Py.chars s)).
      set (k := Py.drop_while Py.is_space (rev m)).
      apply drop_while_id.
      destruct (drop_while_suffix Py.is_space (rev m)) as (r & E). fold k in E.
      assert (m = (rev k ++ rev r)%list) as Em
        by (rewrite <- (rev_involutive m), E, rev_app_distr; reflexivity).
      pose proof (drop_while_head Py.is_space (Py.chars s)) as Hm. fold m in Hm.
      destruct (rev k) as [|x t]; [exact I|]. rewrite Em in Hm. exact Hm. }
    subst n. fold (Py.strip_chars (Py.strip_chars (Py.chars s))).
    rewrite strip_chars_idempotent. rewrite <- E.
    apply drop_while_head.
  - unfold Py.strip_chars. rewrite rev_involutive. apply drop_while_head.
Qed.




Lemma is_empty_iff (s : string) : is_empty s = true <-> s = "".
Proof. destruct s; cbn; split; intros; congruence. Qed.

Lemma not_empty_iff (s : string) : is_empty s = false <-> s <> "".
Proof. destruct s; cbn; split; intros; congruence. Qed.

Lemma is_empty_length (s : string) : is_empty s = true <-> Py.len s = 0%nat.
Proof.
  rewrite is_empty_iff, <- chars_empty. unfold Py.len.
  destruct (Py.chars s); cbn; split; intros; congruence.
Qed.

Lemma long_not_empty (n : nat) (s : string) : (S n <= Py.len s)%nat -> s <> "".
Proof. intros H ->. cbn in H. lia. Qed.

(** *** Strings that encode a [str] *)

Lemma byte_eq (a b : ascii) : Py.byte a = Py.byte b -> a = b.
Proof.
  unfold Py.byte. intros H. apply Nat2Z.inj in H.
  rewrite <- (ascii_nat_embedding a), <- (ascii_nat_embedding b), H. reflexivity.
Qed.

Lemma is_cont_byte (c : ascii) : Py.is_cont c = true -> 128 <= Py.byte c.
Proof. unfold Py.is_cont. intros H. apply andb_true_iff in H as [H _]. lia. Qed.

(** A character with a code point is one ASCII byte, or made of bytes
    that are not ASCII; it does not start with a continuation byte. *)
Lemma ord_shape (ch : string) (cp : Z) :
  Py.ord ch = Some cp ->
  is_piece ch = true
  /\ Py.starts_cont ch = false
  /\ ((exists a, ch = String a EmptyString /\ Py.byte a < 128)
      \/ Py.all_chars (fun c => 128 <=? Py.byte c) ch = true).
Proof.
  unfold Py.ord.
  destruct ch as [|a [|b [|c [|d [|e t]]]]]; try discriminate.
  - destruct (Py.byte a <? 128) eqn:E; [|discriminate]. intros _.
    apply Z.ltb_lt in E. split; [reflexivity|]. split.
    + unfold Py.starts_cont, Py.is_cont. apply andb_false_iff. left. lia.
    + left. exists a. auto.
  - destruct ((194 <=? Py.byte a) && (Py.byte a <? 224) && Py.is_cont b) eqn:E;
      [|discriminate]. intros _.
    apply andb_true_iff in E as [E Hb]. apply andb_true_iff in E as [E1 E2].
    pose proof (is_cont_byte b Hb). cbn [is_piece Py.all_chars]. rewrite Hb.
    split; [reflexivity|]. split.
    + unfold Py.starts_cont, Py.is_cont. apply andb_false_iff. right. lia.
    + right. rewrite !andb_true_iff. repeat split; lia.
  - match goal with |- context [if ?c then _ else _] => destruct c eqn:E end;
      [|discriminate]. intros _.
    repeat (apply andb_true_iff in E as [E ?]).
    pose proof (is_cont_byte b ltac:(assumption)).
    pose proof (is_cont_byte c ltac:(assumption)).
    cbn [is_piece Py.all_chars].
    repeat match goal with H : Py.is_cont _ = true |- _ => rewrite H; clear H end.
    split; [reflexivity|]. split.
    + unfold Py.starts_cont, Py.is_cont. apply andb_false_iff. right. lia.
    + right. rewrite !andb_true_iff. repeat split; lia.
  - match goal with |- context [if ?c then _ else _] => destruct c eqn:E end;
      [|discriminate]. intros _.
    repeat (apply andb_true_iff in E as [E ?]).
    pose proof (is_cont_byte b ltac:(assumption)).
    pose proof (is_cont_byte c ltac:(assumption)).
    pose proof (is_cont_byte d ltac:(assumption)).
    cbn [is_piece Py.all_chars].
    repeat match goal with H : Py.is_cont _ = true |- _ => rewrite H; clear H end.
    split; [reflexivity|]. split.
    + unfold Py.starts_cont, Py.is_cont. apply andb_false_iff. right. lia.
    + right. rewrite !andb_true_iff. repeat split; lia.
Qed.

Lemma has_ord_shape (ch : string) :
  has_ord ch = true ->
  is_piece ch = true
  /\ Py.starts_cont ch = false
  /\ ((exists a, ch = String a EmptyString /\ Py.byte a < 128)
      \/ Py.all_chars (fun c => 128 <=? Py.byte c) ch = true).
Proof.
  unfold has_ord. destruct (Py.ord ch) as [cp|] eqn:E; [|discriminate].
  intros _. exact (ord_shape ch cp E).
Qed.

Lemma valid_proper (l : list string) : forallb has_ord l = true -> proper l = true.
Proof.
  induction l as [|x l IH]; [reflexivity|]. cbn [forallb proper]. intros H.
  apply andb_true_iff in H as [Hx Hl]. rewrite (IH Hl).
  destruct (has_ord_shape x Hx) as (-> & _ & _).
  destruct l as [|y l]; [reflexivity|]. cbn [forallb] in Hl.
  apply andb_true_iff in Hl as [Hy _].
  destruct (has_ord_shape y Hy) as (_ & -> & _). reflexivity.
Qed.

Lemma replace_app (c : ascii) (a b : string) :
  Py.replace c "" (a ++ b) = (Py.replace c "" a ++ Py.replace c "" b)%string.
Proof.
  induction a as [|x a IH]; [reflexivity|]. rewrite append_cons. cbn [Py.replace].
  destruct (Ascii.eqb x c); rewrite ?append_nil, ?append_cons, IH; reflexivity.
Qed.

Lemma replace_high (c : ascii) (s : string) :
  Py.byte c < 128 ->
  Py.all_chars (fun x => 128 <=? Py.byte x) s = true ->
  Py.replace c "" s = s.
Proof.
  intros Hc. induction s as [|x s IH]; [reflexivity|]. cbn [Py.all_chars Py.replace].
  intros H. apply andb_true_iff in H as [Hx Hs].
  destruct (Ascii.eqb x c) eqn:E; [apply Ascii.eqb_eq in E; subst x; lia|].
  rewrite (IH Hs). reflexivity.
Qed.

(** Removing an ASCII character from a [str] removes it from its
    characters. *)
Lemma chars_replace (c : ascii) (s : string) :
  Py.byte c < 128 ->
  Py.is_str s = true ->
  Py.chars (Py.replace c "" s)
  = List.filter (fun ch => negb (String.eqb ch (String c EmptyString))) (Py.chars s).
Proof.
  intros Hc V. fold has_ord in V. change (forallb has_ord (Py.chars s) = true) in V.
  rewrite <- (join_chars s) at 1.
  assert (forall l, forallb has_ord l = true ->
            Py.replace c "" (Py.join l)
            = Py.join (List.filter (fun ch => negb (String.eqb ch (String c EmptyString))) l)
            /\ forallb has_ord
                 (List.filter (fun ch => negb (String.eqb ch (String c EmptyString))) l)
               = true) as R.
  { induction l as [|x l IH]; [auto|]. cbn [forallb List.filter]. intros H.
    apply andb_true_iff in H as [Hx Hl]. destruct (IH Hl) as [IH1 IH2].
    rewrite join_cons, replace_app, IH1.
    destruct (String.eqb x (String c EmptyString)) eqn:E; cbn [negb].
    - apply String.eqb_eq in E. subst x. cbn [Py.replace]. rewrite Ascii.eqb_refl.
      rewrite !append_nil. auto.
    - cbn [forallb]. rewrite Hx, IH2, join_cons. split; [|reflexivity]. f_equal.
      destruct (has_ord_shape x Hx) as (_ & _ & [(a & -> & Ha)|Hh]).
      + cbn [Py.replace]. destruct (Ascii.eqb a c) eqn:Eac; [|reflexivity].
        apply Ascii.eqb_eq in Eac. subst a. rewrite String.eqb_refl in E. discriminate E.
      + apply replace_high; assumption. }
  destruct (R (Py.chars s) V) as [R1 R2]. rewrite R1. apply chars_join, valid_proper, R2.
Qed.

Lemma is_str_replace (c : ascii) (s : string) :
  Py.byte c < 128 -> Py.is_str s = true -> Py.is_str (Py.replace c "" s) = true.
Proof.
  intros Hc V. unfold Py.is_str. rewrite (chars_replace c s Hc V).
  unfold Py.is_str in V. apply forallb_forall. intros ch Hch.
  apply filter_In in Hch as [Hch _]. exact (proj1 (forallb_forall _ _) V ch Hch).
Qed.


Lemma special_not_alnum (ch : string) : special_char ch = true -> Py.is_alnum ch = false.
Proof.
  unfold special_char. intros H. apply orb_true_iff in H as [H|H];
    apply String.eqb_eq in H; subst ch; vm_compute; reflexivity.
Qed.

Lemma filter_specials (l : list string) :
  List.filter (fun ch => negb (String.eqb ch "-"))
    (List.filter (fun ch => negb (String.eqb ch "_")) l)
  = List.filter (fun ch => negb (special_char ch)) l.
Proof.
  induction l as [|ch l IH]; [reflexivity|]. cbn [List.filter]. unfold special_char at 1.
  destruct (String.eqb ch "_"); cbn [negb orb List.filter]; [exact IH|].
  destruct (String.eqb ch "-"); cbn [negb]; rewrite IH; reflexivity.
Qed.

Lemma alnum_without_specials (l : list string) :
  forallb Py.is_alnum (List.filter (fun ch => negb (special_char ch)) l)
  = forallb allowed_char l.
Proof.
  induction l as [|ch l IH]; [reflexivity|]. cbn [List.filter forallb]. unfold allowed_char at 1.
  destruct (special_char ch) eqn:Sp; cbn [negb].
  - rewrite orb_true_r. exact IH.
  - rewrite orb_false_r. cbn [forallb]. rewrite IH. reflexivity.
Qed.

Lemma nothing_but_specials (l : list string) :
  forallb allowed_char l = true ->
  match List.filter (fun ch => negb (special_char ch)) l with
  | [] => false
  | _ => true
  end = existsb Py.is_alnum l.
Proof.
  induction l as [|ch l IH]; [reflexivity|]. cbn [List.filter forallb existsb].
  intros H. apply andb_true_iff in H as [Hc Hl]. unfold allowed_char in Hc.
  destruct (special_char ch) eqn:Sp; cbn [negb].
  - rewrite (special_not_alnum ch Sp). exact (IH Hl).
  - rewrite orb_false_r in Hc. rewrite Hc. reflexivity.
Qed.

(** Dropping the underscores and hyphens and asking for [isalnum] is asking
    for the allowed characters only and at least one letter or digit. *)
Lemma isalnum_replace (s : string) :
  Py.is_str s = true ->
  Py.isalnum (Py.replace "-" "" (Py.replace "_" "" s))
  = chars_allowed s && has_letter_or_digit s.
Proof.
  intros V. unfold Py.isalnum.
  rewrite (chars_replace "-" _ ltac:(vm_compute; reflexivity)
             (is_str_replace "_" s ltac:(vm_compute; reflexivity) V)).
  rewrite (chars_replace "_" s ltac:(vm_compute; reflexivity) V).
  rewrite filter_specials. unfold chars_allowed, has_letter_or_digit.
  pose proof (alnum_without_specials (Py.chars s)) as A.
  pose proof (nothing_but_specials (Py.chars s)) as B.
  destruct (forallb allowed_char (Py.chars s)).
  - specialize (B eq_refl). cbn [andb]. rewrite <- B.
    destruct (List.filter _ (Py.chars s)); [reflexivity|exact A].
  - cbn [andb]. destruct (List.filter _ (Py.chars s)); [reflexivity|exact A].
Qed.

Lemma passes_validation_iff (u p : string) :
  Py.is_str u = true ->
  (passes_validation u p = true
   <-> (3 <= Py.len u)%nat /\ (3 <= Py.len p)%nat
       /\ chars_allowed u = true /\ has_letter_or_digit u = true).
Proof.
  intros V. unfold passes_validation. rewrite (isalnum_replace u V).
  rewrite !andb_true_iff, !negb_true_iff, orb_false_iff, !Nat.ltb_ge.
  split.
  - intros (((_ & Hu) & Hp) & Ha & Hl). auto.
  - intros (Hu & Hp & Ha & Hl). repeat split; try assumption.
    + apply not_empty_iff. apply (long_not_empty 2). exact Hu.
    + apply not_empty_iff. apply (long_not_empty 2). exact Hp.
Qed.




(** ** What the other operations leave alone *)

Ltac run_service :=
  cbv beta iota delta [bind execute commit ret raise try_except].

Ltac step_log_event :=
  match goal with
  | |- context [log_event ?e ?a ?m ?w0] =>
      let w1 := fresh "w" in
      let L := fresh "L" in
      let C := fresh "C" in
      let A := fresh "A" in
      let D := fresh "D" in
      destruct (log_event_frame e a m w0) as (w1 & L & C & A & D);
      rewrite L; cbv beta iota
  end.

Ltac step_record_user_activity :=
  match goal with
  | |- context [_record_user_activity ?u ?t ?d ?p ?w0] =>
      let w1 := fresh "w" in
      let L := fresh "L" in
      let C := fresh "C" in
      let A := fresh "A" in
      let D := fresh "D" in
      destruct (record_user_activity_frame u t d p w0) as (w1 & L & C & A & D & _);
      rewrite L; cbv beta iota
  end.

(** The shape shared by the read operations. *)
Lemma read_operation {A : Type} (f : DB -> A) (dflt : A) (w : World) :
  try_except (get_connection (fun conn => ret (f (cdb conn)))) (fun _ => ret dflt) w
  = (Ok (match storage_fails w with Some _ => dflt | None => f (db w) end), next w).
Proof.
  unfold try_except, get_connection. destruct (storage_fails w); reflexivity.
Qed.

Lemma authenticate_user_frame (now : Z) (username password : string) (w : World) :
  exists b w', authenticate_user now username password w = (Ok b, w')
               /\ images (db w') = images (db w)
               /\ labels (db w') = labels (db w)
               /\ disk w' = disk w
               /\ user_activities (db w') = user_activities (db w).
Proof.
  unfold authenticate_user, try_except, get_connection.
  destruct (storage_fails w); [eexists _, _; repeat split; reflexivity|].
  cbn [cdb]. destruct (find _ (users (db w))).
  - unfold bind at 1. unfold commit at 1.
    match goal with
    | |- context [bind (log_event ?e ?a ?m) ?k ?w0] =>
        destruct (log_event_frame e a m w0) as (w1 & L1 & (C1 & C2 & C3 & _) & A1 & D1);
        rewrite (bind_ok _ k w0 tt w1 L1)
    end.
    unfold ret. eexists _, _. repeat split; assumption.
  - eexists _, _. repeat split; reflexivity.
Qed.

(** [add_image] either raises and writes nothing, or appends one image. *)
Lemma add_image_cases (now : Z) (image_id title description category image_path
    uploaded_by : string) (kwargs : ImageKwargs) (w : World) :
  let row := mkImage image_id title description category image_path uploaded_by now
               (kw_latitude kwargs) (kw_longitude kwargs) (kw_city kwargs)
               (kw_country kwargs) (kw_location_method kwargs) (kw_file_size kwargs)
               (kw_image_width kwargs) (kw_image_height kwargs) 0 in
  let res := add_image now image_id title description category image_path uploaded_by
               kwargs w in
  (exists e, res = (Raise e, next w)
             /\ (storage_fails w = None -> Sql.image_exists (db w) image_id = true))
  \/
  (storage_fails w = None /\ Sql.image_exists (db w) image_id = false
   /\ exists w', res = (Ok image_id, w')
                 /\ images (db w') = (images (db w) ++ [row])%list
                 /\ users (db w') = users (db w)
                 /\ labels (db w') = labels (db w)
                 /\ disk w' = disk w
                 /\ credited 10 (user_activities (db w)) (user_activities (db w'))).
Proof.
  intros row res. subst res. unfold add_image, try_except, get_connection.
  destruct (storage_fails w) eqn:F.
  - left. eexists. split; [reflexivity|discriminate].
  - run_service. unfold Sql.insert_image. cbn [cdb foreign_keys i_id andb].
    destruct (Sql.image_exists (db w) image_id) eqn:X.
    + left. eexists. split; [reflexivity|reflexivity].
    + right. split; [reflexivity|]. split; [reflexivity|].
      step_log_event.
      match goal with
      | |- context [_record_user_activity ?u ?t ?d ?p ?w0] =>
          destruct (record_user_activity_frame u t d p w0) as (w2 & L0 & C0 & _ & D0 & P0);
          rewrite L0; cbv beta iota
      end.
      eexists. split; [reflexivity|].
      destruct C as (C1 & C2 & C3 & _), C0 as (B1 & B2 & B3 & _).
      rewrite A in P0.
      rewrite B1, B2, B3, D0, C1, C2, C3, D. repeat split; try reflexivity. exact P0.
Qed.

Lemma get_images_run (category language search : option string) (limit : Z) (w : World) :
  get_images category language search limit w
  = (Ok (match storage_fails w with
         | Some _ => []
         | None => or_empty (query_images category language search limit (db w))
         end), next w).
Proof.
  unfold get_images, try_except, get_connection.
  destruct (storage_fails w); [reflexivity|].
  unfold bind, execute. cbn [cdb].
  destruct (query_images category language search limit (db w)); reflexivity.
Qed.

Lemma get_image_labels_run (image_id : string) (w : World) :
  get_image_labels image_id w
  = (Ok (match storage_fails w with
         | Some _ => []
         | None => select_image_labels image_id (db w)
         end), next w).
Proof. apply (read_operation (select_image_labels image_id)). Qed.

Lemma get_statistics_run (now : Z) (w : World) :
  get_statistics now w
  = (Ok (match storage_fails w with Some _ => [] | None => statistics now (db w) end),
     next w).
Proof. apply (read_operation (statistics now)). Qed.

Lemma get_user_stats_run (username : string) (w : World) :
  get_user_stats username w
  = (Ok (match storage_fails w with Some _ => [] | None => user_stats username (db w) end),
     next w).
Proof. apply (read_operation (user_stats username)). Qed.

Lemma get_category_statistics_run (w : World) :
  get_category_statistics w
  = (Ok (match storage_fails w with
         | Some _ => []
         | None => Sql.order_by by_count_desc (Sql.group_count (map i_category (images (db w))))
         end), next w).
Proof.
  apply (read_operation
           (fun d => Sql.order_by by_count_desc (Sql.group_count (map i_category (images d))))).
Qed.

Lemma get_language_statistics_run (w : World) :
  get_language_statistics w
  = (Ok (match storage_fails w with
         | Some _ => []
         | None => Sql.order_by by_count_desc (Sql.group_count (map l_language (labels (db w))))
         end), next w).
Proof.
  apply (read_operation
           (fun d => Sql.order_by by_count_desc (Sql.group_count (map l_language (labels d))))).
Qed.

Lemma get_activity_timeline_run (now days : Z) (w : World) :
  get_activity_timeline now days w
  = (Ok (match storage_fails w with
         | Some _ => []
         | None => match days_before now days with
                   | Ok _ => activity_timeline now days (db w)
                   | Raise _ => []
                   end
         end), next w).
Proof.
  unfold get_activity_timeline, try_except, get_connection.
  destruct (storage_fails w); [reflexivity|].
  unfold bind, evaluate. destruct (days_before now days); reflexivity.
Qed.

Lemma write_cases (excel_raises : writer_step -> bool) (step : writer_step) (w : World) :
  write excel_raises step w
  = if excel_raises step then (Raise (WriterError "the Excel writer raised"), w)
    else (Ok tt, w).
Proof. unfold write. destruct (excel_raises step); reflexivity. Qed.

Lemma export_to_excel_frame (excel_raises : writer_step -> bool) (now : Z) (w : World) :
  exists x w', export_to_excel excel_raises now w = (Ok x, w')
               /\ db w' = db w /\ disk w' = disk w.
Proof.
  unfold export_to_excel, try_except, get_connection.
  destruct (storage_fails w); [eexists _, _; repeat split; reflexivity|].
  unfold bind at 1. rewrite write_cases.
  destruct (excel_raises OpenWriter); [eexists _, _; repeat split; reflexivity|].
  unfold bind at 1. rewrite write_cases.
  destruct (excel_raises (UsersSheet _)); [eexists _, _; repeat split; reflexivity|].
  unfold bind at 1. rewrite write_cases.
  destruct (excel_raises (ImagesSheet _)); [eexists _, _; repeat split; reflexivity|].
  unfold bind at 1. rewrite write_cases.
  destruct (excel_raises (LabelsSheet _)); [eexists _, _; repeat split; reflexivity|].
  rewrite (bind_ok _ _ _ _ _ (get_statistics_run now (next w))).
  unfold bind at 1. rewrite write_cases.
  destruct (excel_raises (StatisticsSheet _)); [eexists _, _; repeat split; reflexivity|].
  unfold bind at 1. rewrite write_cases.
  destruct (excel_raises (CloseWriter _)); [eexists _, _; repeat split; reflexivity|].
  unfold ret. eexists _, _. repeat split; reflexivity.
Qed.

Lemma create_images_zip_frame (w : World) :
  exists x, create_images_zip w = (Ok x, next w).
Proof.
  unfold create_images_zip, try_except, get_connection.
  destruct (storage_fails w); [eexists; reflexivity|].
  unfold bind, evaluate. cbn [cdb].
  destruct (zip_entries (next w) (images (db w))); eexists; reflexivity.
Qed.

(** Only [add_label] writes to the [labels] table. *)
Lemma after_labels (c : call) (w : World) :
  is_add_label c = false -> labels (db (after c w)) = labels (db w).
Proof.
  destruct c; cbn [is_add_label after]; intros H; try discriminate H.
  - pose proof (create_user_outcome now username password kwargs w) as O.
    remember (create_user now username password kwargs w) as res eqn:R. clear R.
    destruct O; cbn [snd]; try reflexivity. assumption.
  - destruct (authenticate_user_frame now username password w) as (b & w' & E & _ & L & _).
    rewrite E. exact L.
  - destruct (add_image_cases now image_id title description category image_path
                uploaded_by kwargs w) as [(e & E & _) | (_ & _ & w' & E & _ & _ & L & _)];
      rewrite E; [reflexivity|exact L].
  - rewrite get_images_run. reflexivity.
  - rewrite get_image_labels_run. reflexivity.
  - rewrite get_statistics_run. reflexivity.
  - rewrite get_user_stats_run. reflexivity.
  - rewrite get_category_statistics_run. reflexivity.
  - rewrite get_language_statistics_run. reflexivity.
  - rewrite get_activity_timeline_run. reflexivity.
  - destruct (export_to_excel_frame excel_raises now w) as (x & w' & E & D & _). rewrite E.
    cbn [snd]. rewrite D. reflexivity.
  - destruct (create_images_zip_frame w) as (x & E). rewrite E. reflexivity.
Qed.

(** Every call leaves the ledger alone or credits 5 or 10 points. *)
Lemma after_ledger (c : call) (w : World) :
  credited 5 (user_activities (db w)) (user_activities (db (after c w)))
  \/ credited 10 (user_activities (db w)) (user_activities (db (after c w))).
Proof.
  assert (forall d : DB, credited 5 (user_activities d) (user_activities d)) as Same
    by (intros d; left; reflexivity).
  destruct c; cbn [after].
  - pose proof (create_user_outcome now username password kwargs w) as O.
    remember (create_user now username password kwargs w) as res eqn:R. clear R.
    left. destruct O; cbn [snd]; try apply Same. left. assumption.
  - destruct (authenticate_user_frame now username password w)
      as (b & w' & E & _ & _ & _ & A).
    rewrite E. left. left. exact A.
  - destruct (add_image_cases now image_id title description category image_path
                uploaded_by kwargs w)
      as [(e & E & _) | (_ & _ & w' & E & _ & _ & _ & _ & P)]; rewrite E.
    + left. apply Same.
    + right. exact P.
  - destruct (add_label_cases now image_id text language added_by w)
      as [(msg & _ & E) | (_ & w' & E & _ & _ & P)]; rewrite E.
    + left. apply Same.
    + left. exact P.
  - rewrite get_images_run. left. apply Same.
  - rewrite get_image_labels_run. left. apply Same.
  - rewrite get_statistics_run. left. apply Same.
  - rewrite get_user_stats_run. left. apply Same.
  - rewrite get_category_statistics_run. left. apply Same.
  - rewrite get_language_statistics_run. left. apply Same.
  - rewrite get_activity_timeline_run. left. apply Same.
  - destruct (export_to_excel_frame excel_raises now w) as (x & w' & E & D & _). rewrite E.
    cbn [snd]. rewrite D. left. apply Same.
  - destruct (create_images_zip_frame w) as (x & E). rewrite E. left. apply Same.
Qed.

Lemma credited_nonnegative (points : Z) (acts acts' : list ActivityRow) :
  0 <= points -> credited points acts acts' ->
  Forall (fun a => 0 <= act_points_earned a) acts ->
  Forall (fun a => 0 <= act_points_earned a) acts'.
Proof.
  intros Hp [->|(u & t & d & ->)] H; [exact H|].
  apply Forall_app. split; [exact H|]. constructor; [exact Hp|constructor].
Qed.

(** ** The unique key of [labels] *)

Lemma same_key_iff (image_id text language : string) (l : LabelRow) :
  Sql.same_key image_id text language l = true <-> label_key l = (image_id, text, language).
Proof.
  unfold Sql.same_key, label_key. rewrite !andb_true_iff, !streq_eq.
  split; [intros [[-> ->] ->]; reflexivity|].
  intros H. inversion H. auto.
Qed.

Lemma NoDup_map_filter {A B : Type} (f : A -> B) (p : A -> bool) (l : list A) :
  List.NoDup (map f l) -> List.NoDup (map f (List.filter p l)).
Proof.
  induction l as [|a l IH]; cbn [map List.filter]; intros H; [constructor|].
  inversion H as [|x xs Hin Hnd]; subst.
  destruct (p a); [|apply IH; exact Hnd].
  cbn [map]. constructor; [|apply IH; exact Hnd].
  intros Hc. apply Hin. apply in_map_iff in Hc as (b & Eb & Hb).
  apply filter_In in Hb as [Hb _]. apply in_map_iff. exists b. auto.
Qed.

Lemma labelled_unique (d : DB) (now : Z) (image_id text language added_by : string) :
  unique_label_keys d ->
  unique_label_keys (labelled d now image_id text language added_by).
Proof.
  unfold unique_label_keys. intros H. rewrite labelled_labels, map_app.
  apply List.NoDup_app.
  - apply NoDup_map_filter. exact H.
  - cbn [map]. constructor; [intros []|constructor].
  - intros k Hk [Hn|[]]. unfold new_label, label_key in Hn.
    cbn [l_image_id l_text l_language] in Hn.
    apply in_map_iff in Hk as (l & El & Hl). apply filter_In in Hl as [_ Hl].
    apply negb_true_iff in Hl.
    assert (Sql.same_key image_id text language l = true) as Ht
      by (apply same_key_iff; congruence).
    congruence.
Qed.

(** After the two statements of [add_label] exactly one row holds the key,
    and it is the row just written. *)
Lemma labelled_replaces (d : DB) (now : Z) (image_id text language added_by : string) :
  List.filter (Sql.same_key image_id text language)
              (labels (labelled d now image_id text language added_by))
  = [new_label d now image_id text language added_by].
Proof.
  rewrite labelled_labels, List.filter_app.
  assert (Sql.same_key image_id text language
            (new_label d now image_id text language added_by) = true) as K0
    by (apply same_key_iff; reflexivity).
  cbn [List.filter]. rewrite K0.
  replace (List.filter _ (List.filter _ (labels d))) with (@nil LabelRow); [reflexivity|].
  induction (labels d) as [|l ls IH]; [reflexivity|].
  cbn [List.filter]. destruct (Sql.same_key image_id text language l) eqn:K;
    cbn [negb List.filter]; [exact IH|]. rewrite K. exact IH.
Qed.

Lemma maximum_bound (ids : list Z) (x : Z) : In x ids -> x <= Sql.maximum ids.
Proof.
  induction ids as [|y ids IH]; [intros []|].
  cbn [Sql.maximum fold_right]. fold (Sql.maximum ids).
  intros [->|H]; [lia|]. specialize (IH H). lia.
Qed.

(** The rowid of the new row is larger than every rowid of the table. *)
Lemma new_label_id (d : DB) (now : Z) (image_id text language added_by : string)
    (l : LabelRow) :
  In l (labels d) -> l_id l < l_id (new_label d now image_id text language added_by).
Proof.
  intros H. cbn [new_label l_id]. unfold Sql.next_rowid.
  pose proof (maximum_bound (map l_id (labels d)) (l_id l) (in_map l_id _ _ H)). lia.
Qed.

Lemma labelled_others (d : DB) (now : Z) (image_id text language added_by : string)
    (l : LabelRow) :
  Sql.same_key image_id text language l = false ->
  (In l (labels (labelled d now image_id text language added_by)) <-> In l (labels d)).
Proof.
  intros K. rewrite labelled_labels, in_app_iff, filter_In, K. cbn [negb In].
  split.
  - intros [[H _]|[H|[]]]; [exact H|].
    subst l.
    assert (Sql.same_key image_id text language
              (new_label d now image_id text language added_by) = true) as K0
      by (apply same_key_iff; reflexivity).
    congruence.
  - intros H. left. auto.
Qed.

(** An invariant of the database that every call preserves holds along
    every run. *)
Lemma run_invariant (P : DB -> Prop) :
  (forall c w, P (db w) -> P (db (after c w))) ->
  forall calls w, P (db w) -> P (db (run calls w)).
Proof.
  intros Hstep calls. induction calls as [|c calls IH]; intros w Hw; [exact Hw|].
  cbn [run fold_left]. apply IH. apply Hstep. exact Hw.
Qed.

Lemma after_unique (c : call) (w : World) :
  unique_label_keys (db w) -> unique_label_keys (db (after c w)).
Proof.
  intros H. destruct (is_add_label c) eqn:E.
  - destruct c; try discriminate E. cbn [after].
    destruct (add_label_cases now image_id text language added_by w)
      as [(msg & _ & R) | (_ & w' & R & (_ & _ & L & _) & _)]; rewrite R; cbn [snd].
    + exact H.
    + unfold unique_label_keys. rewrite L. apply labelled_unique. exact H.
  - unfold unique_label_keys. rewrite (after_labels c w E). exact H.
Qed.

Lemma reachable_unique (w : World) : reachable w -> unique_label_keys (db w).
Proof.
  intros (fs & files & calls & ->).
  apply (run_invariant unique_label_keys after_unique). constructor.
Qed.

Lemma reachable_nonnegative (w : World) : reachable w -> ledger_nonnegative (db w).
Proof.
  intros (fs & files & calls & ->).
  apply (run_invariant ledger_nonnegative); [|constructor].
  intros c w H. unfold ledger_nonnegative in *.
  destruct (after_ledger c w) as [P|P];
    [apply (credited_nonnegative 5 _ _ ltac:(lia) P H)
    |apply (credited_nonnegative 10 _ _ ltac:(lia) P H)].
Qed.

Lemma reachable_after (c : call) (w : World) : reachable w -> reachable (after c w).
Proof.
  intros (fs & files & calls & ->). exists fs, files, (calls ++ [c])%list.
  unfold run. rewrite fold_left_app. reflexivity.
Qed.

(** C2: in every reachable state no two rows of [labels] hold the same
    (image_id, text, language), before and after a further AddLabel; and an
    AddLabel that succeeds leaves exactly one row with its triple, the row
    it has just written, newer than every row the table held: a row that
    held the triple before is gone, and every row with another triple is
    kept. *)
Theorem label_keys_stay_unique (now : Z) (image_id text language added_by : string)
    (w : World) :
  reachable w ->
  let res := add_label now image_id text language added_by w in
  unique_label_keys (db w)
  /\ unique_label_keys (db (snd res))
  /\ (fst res = Ok true ->
      List.filter (Sql.same_key image_id text language) (labels (db (snd res)))
      = [new_label (db w) now image_id text language added_by]
      /\ (forall l, In l (labels (db w)) ->
                    l_id l < l_id (new_label (db w) now image_id text language added_by))
      /\ (forall l, In l (labels (db w)) ->
                    Sql.same_key image_id text language l = true ->
                    ~ In l (labels (db (snd res))))
      /\ (forall l, Sql.same_key image_id text language l = false ->
                    (In l (labels (db (snd res))) <-> In l (labels (db w))))).
Proof.
  intros R res. split; [apply reachable_unique; exact R|]. split.
  - apply reachable_unique. apply (reachable_after (AddLabel now image_id text language added_by)).
    exact R.
  - subst res.
    destruct (add_label_cases now image_id text language added_by w)
      as [(msg & _ & E) | (_ & w' & E & (_ & _ & L & _) & _)]; rewrite E; cbn [fst snd].
    + discriminate.
    + intros _. rewrite L. split; [apply labelled_replaces|]. split; [|split].
      * intros l. apply new_label_id.
      * intros l Hl K Hin.
        assert (In l (List.filter (Sql.same_key image_id text language)
                        (labels (labelled (db w) now image_id text language added_by))))
          as H by (apply filter_In; auto).
        rewrite labelled_replaces in H. destruct H as [<-|[]].
        pose proof (new_label_id (db w) now image_id text language added_by _ Hl). lia.
      * intros l. apply labelled_others.
Qed.

(** ** Sample runs *)

Example strip_example : Py.strip "  bob " = "bob".
Proof. reflexivity. Qed.

Example title_example :
  Py.title (Py.replace "_" " " "total_images") = "Total Images".
Proof. reflexivity. Qed.

Example splitext_example :
  Py.splitext "uploads/a.b/.hidden" = ("uploads/a.b/.hidden", "")
  /\ Py.splitext "uploads/cat.v2.png" = ("uploads/cat.v2", ".png").
Proof. split; reflexivity. Qed.

Example like_example :
  Sql.like "%cat%" "A Cat on a mat" = true
  /\ Sql.like "%c_t%" "A cut" = true
  /\ Sql.like "%dog%" "A Cat on a mat" = false.
Proof. repeat split; reflexivity. Qed.

(** The scenario of the specification ends with one user, one image whose
    [label_count] is 2, and two labels. *)
Example scenario_example :
  map u_username (users (db scenario_world)) = ["alice123"]
  /\ map (fun i => (i_id i, i_label_count i)) (images (db scenario_world)) = [("img-1", 2)]
  /\ map (fun l => (l_id l, l_text l, l_language l)) (labels (db scenario_world))
     = [(1, "cat", "en"); (2, "billi", "hi")]
  /\ map act_points_earned (user_activities (db scenario_world)) = [10; 5; 5].
Proof. repeat split; reflexivity. Qed.

(** ** Referential integrity *)

(** C5 fails on the code.  The schema declares the foreign keys and
    [init_database] switches their enforcement on, but only for its own
    connection; [get_connection] opens every later connection with the
    pragma at its default, so [add_label] on a new database stores a label
    for an image and a contributor that do not exist - and reports
    success. *)
Theorem add_label_orphan :
  let res := add_label 1 "no-such-image" "cat" "en" "ghost" blank_world in
  reachable blank_world
  /\ fst res = Ok true
  /\ labels (db (snd res)) = [mkLabel 1 "no-such-image" "cat" "en" "ghost" 1]
  /\ images (db (snd res)) = []
  /\ users (db (snd res)) = []
  /\ reachable (snd res)
  /\ ~ references_hold (db (snd res)).
Proof.
  assert (reachable blank_world) as R by (exists [], [("uploads/cat.png", RegularFile)], []; reflexivity).
  cbv zeta. repeat split; try reflexivity; try exact R.
  - apply (reachable_after (AddLabel 1 "no-such-image" "cat" "en" "ghost")). exact R.
  - intros H. inversion H as [|l ls [Hi _] _]; subst. discriminate Hi.
Qed.

(** With the pragma on, the same statement is refused: the constraint is
    declared, it is the per-connection switch that is missing. *)
Lemma insert_label_with_foreign_keys :
  Sql.insert_or_replace_label (Sql.pragma_foreign_keys_on (mkConn empty_db false))
    "no-such-image" "cat" "en" "ghost" 1
  = Raise (IntegrityError "FOREIGN KEY constraint failed").
Proof. reflexivity. Qed.

(** ** Storage failures *)

Lemma add_image_storage_failure (now : Z) (image_id title description category
    image_path uploaded_by : string) (kwargs : ImageKwargs) (w : World) (msg : string) :
  storage_fails w = Some msg ->
  add_image now image_id title description category image_path uploaded_by kwargs w
  = (Raise (OperationalError msg), next w).
Proof.
  intros F. unfold add_image, try_except. rewrite (get_connection_fails _ _ msg F).
  reflexivity.
Qed.

(** No operation but [add_image] ever raises. *)
Lemma only_add_image_raises (c : call) (w : World) :
  call_raises c w = true -> is_add_image c = true.
Proof.
  destruct c; cbn [call_raises is_add_image]; unfold raised; try reflexivity.
  - pose proof (create_user_outcome now username password kwargs w) as O.
    remember (create_user now username password kwargs w) as res eqn:R. clear R.
    destruct O; cbn [fst]; discriminate.
  - destruct (authenticate_user_frame now username password w) as (b & w' & E & _).
    rewrite E. discriminate.
  - destruct (add_label_cases now image_id text language added_by w)
      as [(msg & _ & E) | (_ & w' & E & _)]; rewrite E; discriminate.
  - rewrite get_images_run. discriminate.
  - rewrite get_image_labels_run. discriminate.
  - rewrite get_statistics_run. discriminate.
  - rewrite get_user_stats_run. discriminate.
  - rewrite get_category_statistics_run. discriminate.
  - rewrite get_language_statistics_run. discriminate.
  - rewrite get_activity_timeline_run. discriminate.
  - destruct (export_to_excel_frame excel_raises now w) as (x & w' & E & _). rewrite E. discriminate.
  - destruct (create_images_zip_frame w) as (x & E). rewrite E. discriminate.
Qed.

(** C6: when the storage fails under an operation, the image, label and
    timeline queries return the empty list, the statistics the empty
    dictionary, the exports null and AddLabel false, none of them raising;
    AddImage passes the error on to its caller, and it is the only
    operation that ever raises. *)
Theorem storage_failure_policy (w : World) (msg : string) :
  storage_fails w = Some msg ->
  (forall category language search limit,
      get_images category language search limit w = (Ok [], next w))
  /\ (forall image_id, get_image_labels image_id w = (Ok [], next w))
  /\ (forall now days, get_activity_timeline now days w = (Ok [], next w))
  /\ (forall now, get_statistics now w = (Ok [], next w))
  /\ (forall username, get_user_stats username w = (Ok [], next w))
  /\ get_category_statistics w = (Ok [], next w)
  /\ get_language_statistics w = (Ok [], next w)
  /\ (forall excel_raises now, export_to_excel excel_raises now w = (Ok None, next w))
  /\ create_images_zip w = (Ok None, next w)
  /\ (forall now image_id text language added_by,
         add_label now image_id text language added_by w = (Ok false, next w))
  /\ (forall now image_id title description category image_path uploaded_by kwargs,
         add_image now image_id title description category image_path uploaded_by kwargs w
         = (Raise (OperationalError msg), next w))
  /\ (forall c w0, call_raises c w0 = true -> is_add_image c = true).
Proof.
  intros F. repeat split; intros.
  - rewrite get_images_run, F. reflexivity.
  - rewrite get_image_labels_run, F. reflexivity.
  - rewrite get_activity_timeline_run, F. reflexivity.
  - rewrite get_statistics_run, F. reflexivity.
  - rewrite get_user_stats_run, F. reflexivity.
  - rewrite get_category_statistics_run, F. reflexivity.
  - rewrite get_language_statistics_run, F. reflexivity.
  - unfold export_to_excel, try_except. rewrite (get_connection_fails _ _ msg F). reflexivity.
  - unfold create_images_zip, try_except. rewrite (get_connection_fails _ _ msg F).
    reflexivity.
  - destruct (add_label_cases now image_id text language added_by w)
      as [(m & _ & E) | (F' & _)]; [exact E|congruence].
  - apply add_image_storage_failure. exact F.
  - eapply only_add_image_raises. eassumption.
Qed.

(** ** Points and rank *)

Lemma distinct_In (l : list string) (x : string) : In x (Sql.distinct l) <-> In x l.
Proof.
  induction l as [|y l IH]; [reflexivity|].
  cbn [Sql.distinct In]. rewrite filter_In, IH, negb_true_iff, streq_neq.
  destruct (string_dec y x) as [E|E]; [tauto|].
  split; [tauto|]. intros [H|H]; [tauto|]. right. split; [exact H|]. congruence.
Qed.

Lemma filter_NoDup {A : Type} (p : A -> bool) (l : list A) :
  List.NoDup l -> List.NoDup (List.filter p l).
Proof.
  intros H. rewrite <- (map_id (List.filter p l)). apply NoDup_map_filter.
  rewrite map_id. exact H.
Qed.

Lemma distinct_NoDup (l : list string) : List.NoDup (Sql.distinct l).
Proof.
  induction l as [|y l IH]; [constructor|].
  cbn [Sql.distinct]. constructor; [|apply filter_NoDup; exact IH].
  rewrite filter_In, negb_true_iff, streq_neq. tauto.
Qed.

Lemma filter_map_commute {A B : Type} (f : A -> B) (p : B -> bool) (l : list A) :
  List.filter p (map f l) = map f (List.filter (fun a => p (f a)) l).
Proof.
  induction l as [|a l IH]; [reflexivity|].
  cbn [map List.filter]. destruct (p (f a)); cbn [map]; rewrite IH; reflexivity.
Qed.

(** The users the subquery of the rank counts. *)
Lemma rank_of_counts (acts : list ActivityRow) (username : string) :
  rank_of acts username
  = 1 + Z.of_nat (List.length
                    (List.filter (fun u => points_of acts username <? points_of acts u)
                                 (Sql.distinct (map act_user_id acts)))).
Proof.
  unfold rank_of, points_by_user. rewrite filter_map_commute, length_map.
  cbn [snd]. lia.
Qed.

Lemma points_of_none (acts : list ActivityRow) (username : string) :
  (forall a, In a acts -> act_user_id a <> username) -> points_of acts username = 0.
Proof.
  intros Hnone. unfold points_of.
  replace (List.filter _ acts) with (@nil ActivityRow); [reflexivity|].
  symmetry. induction acts as [|a l IH]; [reflexivity|].
  cbn [List.filter].
  assert (Sql.streq (act_user_id a) username = false) as ->
    by (apply streq_neq; apply Hnone; left; reflexivity).
  apply IH. intros b Hb. apply Hnone. right. exact Hb.
Qed.

Lemma points_of_nonnegative (acts : list ActivityRow) (username : string) :
  Forall (fun a => 0 <= act_points_earned a) acts -> 0 <= points_of acts username.
Proof.
  unfold points_of. induction 1 as [|a l Ha _ IH]; [cbn; lia|].
  cbn [List.filter]. destruct (Sql.streq (act_user_id a) username); [|exact IH].
  cbn [map Sql.sum fold_right]. fold (Sql.sum (map act_points_earned
    (List.filter (fun a => Sql.streq (act_user_id a) username) l))). lia.
Qed.

(** A user whose points sum to more than a non-negative total has
    recorded activity. *)
Lemma more_points_has_activity (acts : list ActivityRow) (u : string) (total : Z) :
  0 <= total -> total < points_of acts u -> exists a, In a acts /\ act_user_id a = u.
Proof.
  intros H0 Hlt. induction acts as [|a l IH]; [cbn in Hlt; lia|].
  destruct (string_dec (act_user_id a) u) as [E|E]; [exists a; split; [left|]; auto|].
  unfold points_of in Hlt. cbn [List.filter] in Hlt.
  apply streq_neq in E. rewrite E in Hlt.
  destruct (IH Hlt) as (b & Hb & Eb). exists b. split; [right|]; assumption.
Qed.

(** C7: UserStatistics returns as [total_points] the sum of the points
    recorded for the user, 0 when there are none, and as [user_rank] one
    plus the number of other users whose points sum to strictly more:
    counted among the users with recorded activity in any state of the
    database, and among all users in every reachable state. *)
Theorem user_points_and_rank (username : string) (w : World) :
  storage_fails w = None ->
  let acts := user_activities (db w) in
  exists stats,
    fst (get_user_stats username w) = Ok stats
    /\ dict_get "total_points" stats
       = Some (Sql.sum (map act_points_earned
                          (List.filter (fun a => Sql.streq (act_user_id a) username) acts)))
    /\ ((forall a, In a acts -> act_user_id a <> username) ->
        dict_get "total_points" stats = Some 0)
    /\ (forall others : list string,
           List.NoDup others ->
           (forall u, In u others <->
                      u <> username
                      /\ (exists a, In a acts /\ act_user_id a = u)
                      /\ points_of acts username < points_of acts u) ->
           dict_get "user_rank" stats = Some (1 + Z.of_nat (List.length others)))
    /\ (reachable w ->
        forall others : list string,
          List.NoDup others ->
          (forall u, In u others <->
                     u <> username /\ points_of acts username < points_of acts u) ->
          dict_get "user_rank" stats = Some (1 + Z.of_nat (List.length others))).
Proof.
  intros F acts. rewrite get_user_stats_run, F. cbn [fst].
  assert (forall others : list string,
             List.NoDup others ->
             (forall u, In u others <->
                        u <> username
                        /\ (exists a, In a acts /\ act_user_id a = u)
                        /\ points_of acts username < points_of acts u) ->
             dict_get "user_rank" (user_stats username (db w))
             = Some (1 + Z.of_nat (List.length others))) as Rank.
  { intros others Hnd Hothers.
    change (dict_get "user_rank" (user_stats username (db w)))
      with (Some (rank_of acts username)).
    rewrite rank_of_counts. do 3 f_equal.
    apply Permutation.Permutation_length. apply Permutation.NoDup_Permutation.
    + apply filter_NoDup. apply distinct_NoDup.
    + exact Hnd.
    + intros u. rewrite filter_In, distinct_In, in_map_iff, Hothers, Z.ltb_lt.
      split.
      * intros ((a & Ea & Ha) & Hlt). split; [|split].
        -- intros ->. lia.
        -- exists a. auto.
        -- exact Hlt.
      * intros (_ & (a & Ha & Ea) & Hlt). split; [exists a; auto|exact Hlt]. }
  eexists. split; [reflexivity|]. split; [reflexivity|]. split; [|split].
  - intros Hnone.
    change (dict_get "total_points" (user_stats username (db w)))
      with (Some (points_of acts username)).
    rewrite (points_of_none acts username Hnone). reflexivity.
  - exact Rank.
  - intros R others Hnd Hothers. apply Rank; [exact Hnd|].
    intros u. rewrite Hothers.
    pose proof (points_of_nonnegative acts username (reachable_nonnegative w R)) as H0.
    split; [|tauto]. intros [Hu Hlt]. split; [exact Hu|]. split; [|exact Hlt].
    apply (more_points_has_activity acts u (points_of acts username) H0 Hlt).
Qed.

(** ** The archive *)




Lemma has_byte_app (c : ascii) (a b : string) :
  has_byte c (a ++ b) = has_byte c a || has_byte c b.
Proof.
  induction a as [|x a IH]; [reflexivity|].
  rewrite append_cons. cbn [has_byte]. rewrite IH, orb_assoc. reflexivity.
Qed.



Lemma until_nul_plain (s : string) : has_byte "000" s = false -> Sql.until_nul s = s.
Proof.
  induction s as [|x s IH]; [reflexivity|].
  cbn [has_byte Sql.until_nul]. intros H. apply orb_false_iff in H as [Hx H].
  replace (Py.byte x =? 0) with false.
  - rewrite (IH H). reflexivity.
  - symmetry. apply Z.eqb_neq. intros E. apply Ascii.eqb_neq in Hx. apply Hx.
    unfold Py.byte in E. rewrite <- (ascii_nat_embedding x).
    replace (nat_of_ascii x) with 0%nat by lia. reflexivity.
Qed.










(** ** Translations *)

(** C9, as amended: the translation lookup returns the string stored for
    the key in the table of the language when there is one; otherwise the
    string stored for the key in the English table when there is one;
    otherwise the default the caller supplied when it is given and not
    empty, and otherwise the humanized key. *)
Theorem translation_fallbacks (TRANSLATIONS : gmap string (gmap string string))
    (key language : string) (default_ : option string) :
  let result := Translations.get_translation TRANSLATIONS key language default_ in
  (forall s, stored TRANSLATIONS language key = Some s -> result = s)
  /\ (stored TRANSLATIONS language key = None ->
      forall s, stored TRANSLATIONS "en" key = Some s -> result = s)
  /\ (stored TRANSLATIONS language key = None ->
      stored TRANSLATIONS "en" key = None ->
      (forall d, default_ = Some d -> d <> "" -> result = d)
      /\ (default_ = None \/ default_ = Some "" -> result = humanized key)).
Proof.
  intros result. subst result.
  unfold Translations.get_translation, Translations.has_key, Translations.item, stored.
  destruct (TRANSLATIONS !! language) as [d|] eqn:L;
    [destruct (d !! key) as [s|] eqn:K|].
  - (* the language has the key *)
    rewrite bool_decide_eq_true_2 by eauto. cbn [from_option id]. rewrite K. cbn [from_option id].
    repeat split; intros; congruence.
  - rewrite bool_decide_eq_false_2 by (intros [x Hx]; congruence).
    destruct (TRANSLATIONS !! "en") as [e|] eqn:E; cbn [from_option id];
      [destruct (e !! key) as [s|] eqn:Ke|].
    + rewrite bool_decide_eq_true_2 by eauto. cbn [from_option id].
      repeat split; intros; congruence.
    + rewrite bool_decide_eq_false_2 by (intros [x Hx]; congruence).
      split; [discriminate|]. split; [discriminate|]. intros _ _. split.
      * intros x -> Hx. destruct x; [contradiction|reflexivity].
      * intros [->| ->]; reflexivity.
    + rewrite lookup_empty.
      rewrite bool_decide_eq_false_2 by (intros [x Hx]; congruence).
      split; [discriminate|]. split; [discriminate|]. intros _ _. split.
      * intros x -> Hx. destruct x; [contradiction|reflexivity].
      * intros [->| ->]; reflexivity.
  - destruct (TRANSLATIONS !! "en") as [e|] eqn:E; cbn [from_option id];
      [destruct (e !! key) as [s|] eqn:Ke|].
    + rewrite bool_decide_eq_true_2 by eauto. cbn [from_option id].
      repeat split; intros; congruence.
    + rewrite bool_decide_eq_false_2 by (intros [x Hx]; congruence).
      split; [discriminate|]. split; [discriminate|]. intros _ _. split.
      * intros x -> Hx. destruct x; [contradiction|reflexivity].
      * intros [->| ->]; reflexivity.
    + rewrite lookup_empty.
      rewrite bool_decide_eq_false_2 by (intros [x Hx]; congruence).
      split; [discriminate|]. split; [discriminate|]. intros _ _. split.
      * intros x -> Hx. destruct x; [contradiction|reflexivity].
      * intros [->| ->]; reflexivity.
Qed.

(** ** Sorting and limiting *)

Lemma insert_by_perm {A : Type} (le : A -> A -> bool) (x : A) (l : list A) :
  Permutation (Sql.insert_by le x l) (x :: l).
Proof.
  induction l as [|y l IH]; [reflexivity|].
  cbn [Sql.insert_by]. destruct (le x y); [reflexivity|].
  rewrite IH. apply perm_swap.
Qed.

Lemma order_by_perm {A : Type} (le : A -> A -> bool) (l : list A) :
  Permutation (Sql.order_by le l) l.
Proof.
  induction l as [|x l IH]; [reflexivity|].
  unfold Sql.order_by in *. cbn [fold_right]. rewrite insert_by_perm.
  apply perm_skip. exact IH.
Qed.

Section Sorting.

Context {A : Type} (le : A -> A -> bool) (R : A -> A -> Prop).
Hypothesis le_R : forall a b, le a b = true -> R a b.
Hypothesis le_total : forall a b, le a b = false -> R b a.
Hypothesis R_trans : forall a b c, R a b -> R b c -> R a c.

Lemma insert_by_sorted (x : A) (l : list A) :
  StronglySorted R l -> StronglySorted R (Sql.insert_by le x l).
Proof using le_R le_total R_trans.
  induction l as [|y l IH]; intros H.
  - repeat constructor.
  - inversion H as [|? ? Hs Hf]; subst. cbn [Sql.insert_by].
    destruct (le x y) eqn:E.
    + constructor; [exact H|]. constructor; [apply le_R; exact E|].
      eapply List.Forall_impl; [|exact Hf]. intros z Hz.
      eapply R_trans; [apply le_R; exact E|exact Hz].
    + constructor; [apply IH; exact Hs|].
      apply (Permutation_Forall (Permutation_sym (insert_by_perm le x l))).
      constructor; [apply le_total; exact E|exact Hf].
Qed.

Lemma order_by_sorted (l : list A) : StronglySorted R (Sql.order_by le l).
Proof using le_R le_total R_trans.
  induction l as [|x l IH]; [constructor|].
  unfold Sql.order_by in *. cbn [fold_right]. apply insert_by_sorted. exact IH.
Qed.

End Sorting.

Lemma limit_split {A : Type} (n : Z) (l : list A) :
  exists rest, (Sql.limit n l ++ rest)%list = l
               /\ (n < 0 -> rest = [])
               /\ (0 <= n -> List.length (Sql.limit n l)
                             = Nat.min (Z.to_nat n) (List.length l)).
Proof.
  unfold Sql.limit. destruct (n <? 0) eqn:E.
  - exists []. rewrite app_nil_r. apply Z.ltb_lt in E.
    split; [reflexivity|]. split; intros; [reflexivity|lia].
  - exists (skipn (Z.to_nat (Z.min n (Z.of_nat (List.length l)))) l).
    apply Z.ltb_ge in E. split; [apply firstn_skipn|].
    split; [lia|]. intros _. rewrite length_firstn. lia.
Qed.

(** ** [get_images] *)

Lemma where_clause_null (category language search : option string) (i : ImageRow) :
  where_clause category language search i None
  = category_ok category i && no_filter language && image_text_ok search i.
Proof.
  unfold where_clause, category_ok, no_filter, image_text_ok.
  destruct (Py.truthy category), (Py.truthy language), (Py.truthy search);
    rewrite ?orb_false_r; reflexivity.
Qed.

Lemma where_clause_label (category language search : option string) (i : ImageRow)
    (l : LabelRow) :
  where_clause category language search i (Some l)
  = category_ok category i && language_ok language l
    && (image_text_ok search i || label_text_ok search l).
Proof.
  unfold where_clause, category_ok, language_ok, image_text_ok, label_text_ok.
  destruct (Py.truthy category), (Py.truthy language), (Py.truthy search); reflexivity.
Qed.

Lemma no_filter_language (language : option string) (l : LabelRow) :
  no_filter language = true -> language_ok language l = true.
Proof. unfold no_filter, language_ok. destruct (Py.truthy language); [discriminate|reflexivity]. Qed.


Lemma owned_In (i : ImageRow) (ls : list LabelRow) (l : LabelRow) :
  In l (Sql.order_by Sql.index_le (List.filter (owns i) ls))
  <-> In l ls /\ owns i l = true.
Proof.
  rewrite <- filter_In. split; apply Permutation_in.
  - apply order_by_perm.
  - apply Permutation_sym, order_by_perm.
Qed.

Lemma owned_nil (i : ImageRow) (ls : list LabelRow) :
  Sql.order_by Sql.index_le (List.filter (owns i) ls) = []
  <-> List.filter (owns i) ls = [].
Proof.
  split; intros H.
  - apply Permutation_nil. rewrite <- H. apply order_by_perm.
  - rewrite H. reflexivity.
Qed.

Lemma left_join_In (i : ImageRow) (ls : list LabelRow) (row : option LabelRow) :
  In row (left_join i ls)
  <-> (row = None /\ List.filter (owns i) ls = [])
      \/ (exists l, row = Some l /\ In l ls /\ owns i l = true).
Proof.
  unfold left_join. change (fun l => Sql.streq (i_id i) (l_image_id l)) with (owns i).
  rewrite <- owned_nil.
  destruct (Sql.order_by Sql.index_le (List.filter (owns i) ls)) as [|l0 m] eqn:E.
  - cbn [In]. split.
    + intros [<-|[]]. left. auto.
    + intros [[-> _]|(l & -> & Hl & Ho)]; [left; reflexivity|].
      assert (In l (Sql.order_by Sql.index_le (List.filter (owns i) ls))) as H
        by (apply owned_In; auto).
      rewrite E in H. destruct H.
  - rewrite in_map_iff. rewrite <- E. split.
    + intros (l & <- & H). apply owned_In in H. right. exists l. tauto.
    + intros [[_ H]|(l & -> & Hl & Ho)]; [rewrite E in H; discriminate H|].
      exists l. split; [reflexivity|]. apply owned_In. auto.
Qed.

Lemma selected_iff (category language search : option string) (ls : list LabelRow)
    (i : ImageRow) :
  existsb (where_clause category language search i) (left_join i ls)
  = selected category language search ls i.
Proof.
  apply eq_true_iff_eq. unfold selected.
  rewrite existsb_exists, andb_true_iff, orb_true_iff, andb_true_iff, existsb_exists.
  split.
  - intros (row & Hin & Hw). apply left_join_In in Hin as [[-> _]|(l & -> & Hl & Ho)].
    + rewrite where_clause_null, !andb_true_iff in Hw. tauto.
    + rewrite where_clause_label, !andb_true_iff in Hw. split; [tauto|].
      right. exists l. rewrite !andb_true_iff. tauto.
  - intros (Hc & [[Hn Ht]|(l & Hl & H)]).
    + destruct (List.filter (owns i) ls) as [|l0 m] eqn:E.
      * exists None. split; [apply left_join_In; left; auto|].
        rewrite where_clause_null, Hc, Hn, Ht. reflexivity.
      * assert (In l0 (List.filter (owns i) ls)) as H0 by (rewrite E; left; reflexivity).
        apply filter_In in H0 as [H0 Ho].
        exists (Some l0). split; [apply left_join_In; right; exists l0; auto|].
        rewrite where_clause_label, Hc, Ht, (no_filter_language language l0 Hn).
        reflexivity.
    + rewrite !andb_true_iff in H. destruct H as [[Ho Hlg] Ht].
      exists (Some l). split; [apply left_join_In; right; exists l; auto|].
      rewrite where_clause_label, Hc, Hlg, Ht. reflexivity.
Qed.

Lemma filter_nil_existsb {A : Type} (p : A -> bool) (l : list A) :
  List.filter p l = [] <-> existsb p l = false.
Proof.
  induction l as [|a l IH]; [cbn; tauto|].
  cbn [List.filter existsb]. destruct (p a); cbn [orb]; [split; discriminate|exact IH].
Qed.

(** A group is made for the selected images and for no other. *)
Lemma image_group_selected (category language search : option string)
    (ls : list LabelRow) (i : ImageRow) :
  match image_group category language search ls i with
  | Some r => r_image r = i /\ selected category language search ls i = true
  | None => selected category language search ls i = false
  end.
Proof.
  rewrite <- selected_iff. unfold image_group.
  destruct (List.filter (where_clause category language search i) (left_join i ls))
    as [|row rows] eqn:E.
  - apply filter_nil_existsb. exact E.
  - cbn [r_image]. split; [reflexivity|].
    destruct (existsb (where_clause category language search i) (left_join i ls)) eqn:X;
      [reflexivity|].
    apply filter_nil_existsb in X. rewrite X in E. discriminate E.
Qed.

Lemma groups_are_selected (category language search : option string)
    (ls : list LabelRow) (imgs : list ImageRow) :
  map r_image (somes (map (image_group category language search ls) imgs))
  = List.filter (selected category language search ls) imgs.
Proof.
  induction imgs as [|i imgs IH]; [reflexivity|].
  cbn [map somes List.filter].
  pose proof (image_group_selected category language search ls i) as H.
  destruct (image_group category language search ls i) as [r|].
  - destruct H as [Hr Hs]. rewrite Hs. cbn [somes map]. rewrite Hr, IH. reflexivity.
  - rewrite H. cbn [somes]. exact IH.
Qed.


Lemma filter_all {A : Type} (p : A -> bool) (l : list A) :
  (forall a, In a l -> p a = true) -> List.filter p l = l.
Proof.
  induction l as [|a l IH]; intros H; [reflexivity|].
  cbn [List.filter]. rewrite (H a (or_introl eq_refl)). f_equal.
  apply IH. intros b Hb. apply H. right. exact Hb.
Qed.


Lemma streq_sym (a b : string) : Sql.streq a b = Sql.streq b a.
Proof. unfold Sql.streq. apply String.eqb_sym. Qed.




(** *** [LIKE] and substrings *)

Lemma like_chars_percent (pattern text : list string) :
  Sql.like_chars ("%"%string :: pattern) text
  = Sql.like_chars pattern text
    || match text with
       | [] => false
       | _ :: text' => Sql.like_chars ("%"%string :: pattern) text'
       end.
Proof. destruct text; reflexivity. Qed.

Lemma like_chars_cons (p : string) (pattern : list string) (c : string)
    (text : list string) :
  Sql.like_chars (p :: pattern) (c :: text)
  = if String.eqb p "%" then Sql.like_chars (p :: pattern) (c :: text)
    else if String.eqb p "_" then Sql.like_chars pattern text
    else Sql.same_char p c && Sql.like_chars pattern text.
Proof.
  cbn [Sql.like_chars]. destruct (String.eqb p "%"); [|destruct (String.eqb p "_")];
    reflexivity.
Qed.

Lemma like_chars_any (text : list string) : Sql.like_chars ["%"%string] text = true.
Proof.
  induction text as [|c text IH]; [reflexivity|].
  rewrite like_chars_percent, IH. apply orb_true_r.
Qed.

(** A pattern matches itself, whatever wildcards it holds, and what follows
    it is matched by what follows the text. *)
Lemma like_chars_literal (s q text : list string) :
  Sql.like_chars q text = true -> Sql.like_chars (s ++ q) (s ++ text) = true.
Proof.
  intros H. induction s as [|c s IH]; [exact H|].
  cbn [app]. rewrite like_chars_cons.
  destruct (String.eqb c "%") eqn:E1.
  - apply String.eqb_eq in E1. subst c.
    rewrite like_chars_percent, like_chars_percent, IH.
    rewrite orb_true_l. apply orb_true_r.
  - destruct (String.eqb c "_"); [exact IH|].
    rewrite IH. unfold Sql.same_char. rewrite String.eqb_refl. reflexivity.
Qed.

Lemma begins_with_split (s text : list string) :
  begins_with s text = true -> exists rest, text = (s ++ rest)%list.
Proof.
  revert text. induction s as [|c s IH]; intros text H.
  - exists text. reflexivity.
  - destruct text as [|d text]; [discriminate H|]. cbn [begins_with] in H.
    apply andb_true_iff in H as [E H]. apply String.eqb_eq in E. subst d.
    destruct (IH text H) as (rest & ->). exists rest. reflexivity.
Qed.

Lemma like_chars_begins (s text : list string) :
  begins_with s text = true
  -> Sql.like_chars ("%"%string :: s ++ ["%"%string]) text = true.
Proof.
  intros H. apply begins_with_split in H as (rest & E). subst text.
  rewrite like_chars_percent, (like_chars_literal s _ rest (like_chars_any rest)).
  reflexivity.
Qed.

Lemma like_chars_occurs (s text : list string) :
  occurs_in s text = true
  -> Sql.like_chars ("%"%string :: s ++ ["%"%string]) text = true.
Proof.
  induction text as [|c text IH]; cbn [occurs_in]; intros H;
    apply orb_true_iff in H as [H|H].
  - apply like_chars_begins. exact H.
  - discriminate H.
  - apply like_chars_begins. exact H.
  - rewrite like_chars_percent, (IH H). apply orb_true_r.
Qed.

Lemma chars_head (s : string) :
  match Py.chars s with
  | ch :: _ => Py.starts_cont ch = Py.starts_cont s
  | [] => True
  end.
Proof.
  destruct s as [|c s]; [exact I|]. rewrite chars_cons.
  destruct (Py.chars s) as [|ch rest]; [reflexivity|].
  destruct (Py.starts_cont ch); reflexivity.
Qed.

Lemma proper_join (l1 l2 : list string) :
  proper l1 = true -> proper l2 = true ->
  match l2 with
  | ch :: _ => Py.starts_cont ch = false
  | [] => True
  end ->
  proper (l1 ++ l2) = true.
Proof.
  intros H1 H2 H. induction l1 as [|x l1 IH]; [exact H2|].
  cbn [app proper] in *. apply andb_true_iff in H1 as [H1 H3].
  apply andb_true_iff in H1 as [H1 H1'].
  rewrite H1, (IH H3), andb_true_r. cbn [andb].
  destruct l1 as [|y l1]; [|exact H1'].
  cbn [app]. destruct l2 as [|ch l2]; [reflexivity|]. rewrite H. reflexivity.
Qed.

Lemma chars_app (a b : string) :
  Py.starts_cont b = false -> Py.chars (a ++ b) = (Py.chars a ++ Py.chars b)%list.
Proof.
  intros H. rewrite <- (join_chars a) at 1. rewrite <- (join_chars b) at 1.
  rewrite <- join_app. apply chars_join.
  apply proper_join; [apply chars_proper|apply chars_proper|].
  pose proof (chars_head b) as Hb. destruct (Py.chars b); [exact I|].
  rewrite Hb. exact H.
Qed.

Lemma is_str_starts (s : string) : Py.is_str s = true -> Py.starts_cont s = false.
Proof.
  unfold Py.is_str. intros V. pose proof (chars_head s) as H.
  destruct (Py.chars s) as [|ch rest] eqn:E.
  - apply chars_empty in E. subst s. reflexivity.
  - cbn [forallb] in V. apply andb_true_iff in V as [V _].
    rewrite <- H. apply (has_ord_shape ch V).
Qed.

(** Every text that contains the search text is matched by the pattern
    [%search%]; the engine reads both up to their first NUL. *)
Lemma like_contains (s text : string) :
  Py.is_str s = true ->
  has_byte "000" s = false ->
  has_byte "000" text = false ->
  contains s text = true -> Sql.like ("%" ++ s ++ "%") text = true.
Proof.
  intros V Ns Nt H. unfold Sql.like.
  rewrite (until_nul_plain text Nt), until_nul_plain
    by (rewrite !has_byte_app, Ns; reflexivity).
  assert (Py.starts_cont (s ++ "%") = false) as C.
  { destruct s as [|c s]; [reflexivity|]. apply (is_str_starts _ V). }
  rewrite (chars_app "%" (s ++ "%") C), (chars_app s "%" eq_refl).
  apply like_chars_occurs. exact H.
Qed.


(** An image in whose title or description the search text occurs, or
    that has a label in the language in whose text it occurs, is selected. *)
Lemma substring_match_selected (category language search : option string)
    (ls : list LabelRow) (i : ImageRow) (s : string) :
  Py.truthy search = Some s ->
  Py.is_str s = true ->
  has_byte "000" s = false ->
  category_ok category i = true ->
  (no_filter language = true
   /\ ((contains s (i_title i) = true /\ has_byte "000" (i_title i) = false)
       \/ (contains s (i_description i) = true
           /\ has_byte "000" (i_description i) = false)))
  \/ (exists l, In l ls /\ owns i l = true /\ language_ok language l = true
                 /\ contains s (l_text l) = true /\ has_byte "000" (l_text l) = false) ->
  selected category language search ls i = true.
Proof.
  intros Hs V N Hc H. unfold selected. rewrite Hc. cbn [andb].
  apply orb_true_iff. destruct H as [[Hn Ht]|(l & Hl & Ho & Hg & Ht & Nt)].
  - left. rewrite Hn. unfold image_text_ok. rewrite Hs.
    destruct Ht as [[Ht Nt]|[Ht Nt]]; rewrite (like_contains s _ V N Nt Ht);
      [reflexivity|apply orb_true_r].
  - right. apply existsb_exists. exists l. split; [exact Hl|].
    rewrite Ho, Hg. unfold label_text_ok. rewrite Hs, (like_contains s _ V N Nt Ht).
    apply orb_true_r.
Qed.


Lemma query_images_accepted (category language search : option string) (limit : Z)
    (d : DB) :
  query_images category language search limit d
  = if query_accepted search limit
    then Ok (select_images category language search limit d)
    else query_images category language search limit d.
Proof.
  unfold query_images, query_accepted.
  destruct (Sql.fits_int64 limit); [|reflexivity]. cbn [negb andb].
  destruct (Py.truthy search) as [s|]; [|reflexivity].
  destruct (Sql.like_pattern_too_long ("%" ++ s ++ "%")); reflexivity.
Qed.

Lemma query_images_refused (category language search : option string) (limit : Z)
    (d : DB) :
  query_accepted search limit = false ->
  or_empty (query_images category language search limit d) = [].
Proof.
  unfold query_images, query_accepted.
  destruct (Sql.fits_int64 limit); [|reflexivity]. cbn [negb andb].
  destruct (Py.truthy search) as [s|]; [|discriminate].
  destruct (Sql.like_pattern_too_long ("%" ++ s ++ "%")); [reflexivity|discriminate].
Qed.


(** ** The claims on the sample data *)

Lemma blank_world_reachable : reachable blank_world.
Proof. exists [], [("uploads/cat.png", RegularFile)], []. reflexivity. Qed.

Lemma scenario_world_reachable : reachable scenario_world.
Proof. exists [], [("uploads/cat.png", RegularFile)], scenario. reflexivity. Qed.

Lemma label_count_matches_labels_witness :
  forallb is_add_label labelling = true
  /\ label_count_consistent (db (run onboarding blank_world))
  /\ label_count_consistent (db (run labelling (run onboarding blank_world))).
Proof.
  assert (label_count_consistent (db (run onboarding blank_world))) as H
    by (repeat constructor).
  split; [reflexivity|]. split; [exact H|].
  apply (label_count_matches_labels labelling (run onboarding blank_world));
    [reflexivity|exact H].
Defined.

(** bob labels the cat "cat" in English, as alice123 did before: the row
    of alice123 is replaced by a row of bob with a new rowid. *)
Lemma label_keys_stay_unique_witness :
  reachable scenario_world
  /\ unique_label_keys (db (snd (add_label 5 "img-1" "cat" "en" "bob" scenario_world)))
  /\ List.filter (Sql.same_key "img-1" "cat" "en")
                 (labels (db (snd (add_label 5 "img-1" "cat" "en" "bob" scenario_world))))
     = [mkLabel 3 "img-1" "cat" "en" "bob" 5].
Proof.
  split; [exact scenario_world_reachable|].
  destruct (label_keys_stay_unique 5 "img-1" "cat" "en" "bob" scenario_world
              scenario_world_reachable) as (_ & H2 & H3).
  split; [exact H2|].
  assert (fst (add_label 5 "img-1" "cat" "en" "bob" scenario_world) = Ok true) as S
    by (vm_compute; reflexivity).
  destruct (H3 S) as (K & _). vm_compute in K. vm_compute. exact K.
Defined.


(** A username of underscores and hyphens only is refused, with a reason
    that lists underscore and hyphen as allowed. *)
Example underscore_username_refused :
  fst (create_user 1 "___" "abc" no_user_kwargs blank_world)
  = Ok (false, "Username can only contain letters, numbers, underscore, and hyphen").
Proof. vm_compute. reflexivity. Qed.

(** Lengths count characters and letters are those of Unicode: a password
    of two accented letters is too short although it takes four bytes, and
    a username of three Devanagari letters is registered. *)
Example register_unicode :
  fst (create_user 1 "alice123" e_acute_twice no_user_kwargs blank_world)
  = Ok (false, "Password must be at least 3 characters")
  /\ String.length e_acute_twice = 4%nat
  /\ fst (create_user 1 amar "pass123" no_user_kwargs blank_world)
     = Ok (true, "User created successfully")
  /\ Py.len amar = 3%nat.
Proof. repeat split; vm_compute; reflexivity. Qed.

(** An age that SQLite cannot hold is refused when it is bound. *)
Example register_huge_age :
  fst (create_user 1 "alice123" "pass123"
         (mkUserKwargs None None None (Some (Some (2 ^ 63)))) blank_world)
  = Ok (false, "Error creating user: Python int too large to convert to SQLite INTEGER").
Proof. vm_compute. reflexivity. Qed.




(** The other ways in which the query departs from the wording of C4: the
    search text is a LIKE pattern, so "c_t" finds the cat although no
    title, description or label contains it; a negative limit does not
    bound the result; and a limit that is not a 64-bit integer returns no
    row at all. *)
Example image_query_like_and_limit :
  (map (fun r => i_id (r_image r))
       (select_images None None (Some "c_t") 50 (db scenario_world)) = ["img-1"]
   /\ existsb (contains "c_t")
              (map i_title (images (db scenario_world))
               ++ map i_description (images (db scenario_world))
               ++ map l_text (labels (db scenario_world)))%list = false)
  /\ List.length (select_images None None None (-1) (db gallery_world)) = 3%nat
  /\ fst (get_images None None None (2 ^ 63) gallery_world) = Ok [].
Proof. repeat split; vm_compute; reflexivity. Qed.

(** The languages come in the order in which the engine reads the labels
    of the image, which is the order of their texts: "billi" (hi) before
    "cat" (en), although the English label was added first. *)
Example image_query_languages :
  map r_languages (select_images None None None 50 (db scenario_world))
  = [Some "hi,en"].
Proof. vm_compute. reflexivity. Qed.

(** [_] stands for one character, not one byte: the pattern [%b_b%]
    matches b, e with an acute accent, b, e with an acute accent. *)
Example like_counts_characters :
  Sql.like "%b_b%" (String "b" (String "195" (String "169"
                   (String "b" (String "195" (String "169" EmptyString))))))
  = true.
Proof. vm_compute. reflexivity. Qed.


Lemma storage_failure_policy_witness :
  storage_fails locked_world = Some "database is locked"
  /\ get_images None None None 50 locked_world = (Ok [], next locked_world)
  /\ get_statistics 9 locked_world = (Ok [], next locked_world)
  /\ export_to_excel writer_works 9 locked_world = (Ok None, next locked_world)
  /\ add_label 9 "img-1" "cat" "en" "alice123" locked_world = (Ok false, next locked_world)
  /\ add_image 9 "img-9" "Dog" "" "Animals" "uploads/dog.png" "alice123" no_image_kwargs
       locked_world
     = (Raise (OperationalError "database is locked"), next locked_world).
Proof.
  destruct (storage_failure_policy locked_world "database is locked" eq_refl)
    as (H1 & _ & _ & H4 & _ & _ & _ & H8 & _ & H10 & H11 & _).
  split; [reflexivity|]. split; [apply H1|]. split; [apply H4|].
  split; [apply H8|]. split; [apply H10|apply H11].
Defined.

(** A failure inside the nested [get_statistics] is absorbed there: the
    workbook is produced, with an empty Statistics sheet. *)
Example export_with_failing_statistics :
  match fst (export_to_excel writer_works 9 (mkWorld (db scenario_world)
                                        [None; Some "disk I/O error"] [])) with
  | Ok (Some book) => (List.length (sheet_labels book), sheet_statistics book)
  | _ => (0%nat, [("no workbook", PInt 0)])
  end = (2%nat, []).
Proof. vm_compute. reflexivity. Qed.

Lemma user_points_and_rank_witness :
  exists stats,
    fst (get_user_stats "bob" gallery_world) = Ok stats
    /\ dict_get "total_points" stats = Some 10
    /\ dict_get "user_rank" stats = Some 2.
Proof.
  destruct (user_points_and_rank "bob" gallery_world eq_refl)
    as (stats & E & P & _ & R & _).
  exists stats. split; [exact E|]. split; [vm_compute in P; exact P|].
  apply (R ["alice123"]).
  - repeat constructor. intros [].
  - intros u. split.
    + intros [<-|[]]. split; [discriminate|]. split; [|vm_compute; reflexivity].
      exists (mkActivity "alice123" "image_upload" "Uploaded image: Cat" 10).
      split; [vm_compute; left; reflexivity|reflexivity].
    + intros (Hu & (a & Ha & <-) & Hlt). vm_compute in Ha.
      repeat (destruct Ha as [<-|Ha];
              [first [left; reflexivity | exfalso; apply Hu; reflexivity]|]).
      destruct Ha.
Defined.


(** The entry is named after the normal form of the path: a title that
    climbs out of its folder gives an entry outside the folder of the
    category and the uploader. *)
Example archive_title_climbs_out :
  fst (create_images_zip climbing_world)
  = Ok (Some [mkEntry "Animals/alice123/Cat.png" (Some "uploads/cat.png");
              mkEntry "etc/x.png" (Some "uploads/cat.png")]).
Proof. vm_compute. reflexivity. Qed.

(** A file that exists and cannot be read leaves no archive at all. *)
Example archive_unreadable_file :
  fst (create_images_zip unreadable_world) = Ok None.
Proof. vm_compute. reflexivity. Qed.

(** The title is cut by characters: a Hindi title of 27 characters, which
    takes 81 bytes, is kept whole. *)
Example archive_hindi_title :
  Py.take 50 (Py.join (repeat amar 9)) = Py.join (repeat amar 9)
  /\ Py.len (Py.join (repeat amar 9)) = 27%nat
  /\ String.length (Py.join (repeat amar 9)) = 81%nat.
Proof. repeat split; vm_compute; reflexivity. Qed.


(** The claim of C9 fails on the code: for a key that neither the Hindi
    nor the English table holds, a lookup with a default returns the
    default, not the humanized key. *)
Lemma translation_counterexample :
  stored sample_translations "hi" "zz_top" = None
  /\ stored sample_translations "en" "zz_top" = None
  /\ Translations.get_translation sample_translations "zz_top" "hi" (Some "Fallback")
     = "Fallback"
  /\ humanized "zz_top" = "Zz Top".
Proof. repeat split; vm_compute; reflexivity. Qed.

Lemma translation_fallbacks_witness :
  Translations.get_translation sample_translations "login" "hi" None = "Pravesh"
  /\ Translations.get_translation sample_translations "logout" "hi" None = "Logout"
  /\ Translations.get_translation sample_translations "total_images" "hi" None
     = "Total Images"
  /\ Translations.get_translation sample_translations "total_images" "hi" (Some "Images")
     = "Images".
Proof.
  pose proof (translation_fallbacks sample_translations "login" "hi" None) as H1.
  pose proof (translation_fallbacks sample_translations "logout" "hi" None) as H2.
  pose proof (translation_fallbacks sample_translations "total_images" "hi" None) as H3.
  pose proof (translation_fallbacks sample_translations "total_images" "hi" (Some "Images"))
    as H4.
  cbv zeta in H1, H2, H3, H4.
  destruct H1 as (H1 & _), H2 as (_ & H2 & _), H3 as (_ & _ & H3), H4 as (_ & _ & H4).
  split; [|split; [|split]].
  - apply H1. vm_compute. reflexivity.
  - apply H2; vm_compute; reflexivity.
  - destruct H3 as (_ & H3); [vm_compute; reflexivity ..|].
    rewrite H3; [vm_compute; reflexivity|]. left. reflexivity.
  - destruct H4 as (H4 & _); [vm_compute; reflexivity ..|].
    apply H4; [reflexivity|discriminate].
Defined.

(** * Further properties *)

(** ** [authenticate_user] *)

Lemma find_some_iff {A : Type} (p : A -> bool) (l : list A) :
  (exists a, find p l = Some a) <-> exists a, In a l /\ p a = true.
Proof.
  split.
  - intros (a & H). apply find_some in H. eauto.
  - intros (a & Hin & Hp). destruct (find p l) eqn:E; [eauto|].
    rewrite (find_none p l E a Hin) in Hp. discriminate Hp.
Qed.

(** [UPDATE users SET last_login = ? WHERE username = ?] row by row. *)
Lemma update_last_login_rows (d : DB) (now : Z) (username : string) :
  Forall2 (fun u u' =>
             same_account u u'
             /\ u_last_login u'
                = if Sql.streq (u_username u) username then Some now else u_last_login u)
          (users d)
          (users (cdb (Sql.update_last_login (mkConn d false) now username))).
Proof.
  cbn [Sql.update_last_login Sql.with_db cdb users].
  induction (users d) as [|u l IH]; cbn [map]; constructor; [|exact IH].
  destruct (Sql.streq (u_username u) username); repeat split.
Qed.

(** The three exits of [authenticate_user]. *)
Lemma authenticate_user_cases (now : Z) (username password : string) (w : World) :
  let matching := find (fun u => Sql.streq (u_username u) username
                                 && Sql.streq (u_password u) password
                                 && u_is_active u)
                       (users (db w)) in
  let res := authenticate_user now username password w in
  (res = (Ok false, next w) /\ (storage_fails w <> None \/ matching = None))
  \/ (storage_fails w = None /\ matching <> None
      /\ fst res = Ok true
      /\ users (db (snd res))
         = users (cdb (Sql.update_last_login (mkConn (db w) false) now username))
      /\ images (db (snd res)) = images (db w)
      /\ labels (db (snd res)) = labels (db w)
      /\ user_activities (db (snd res)) = user_activities (db w)
      /\ labels_seq (db (snd res)) = labels_seq (db w)
      /\ users_seq (db (snd res)) = users_seq (db w)).
Proof.
  intros matching res. subst res matching.
  unfold authenticate_user, try_except, get_connection.
  destruct (storage_fails w) eqn:F; [left; split; [reflexivity|left; discriminate]|].
  cbn [cdb]. destruct (find _ (users (db w))) eqn:E.
  - right. split; [reflexivity|]. split; [discriminate|].
    run_service. step_log_event. cbn [fst snd].
    destruct C as (C1 & C2 & C3 & C4 & C5). rewrite C1, C2, C3, C4, C5, A.
    repeat split; reflexivity.
  - left. split; [reflexivity|]. right. reflexivity.
Qed.

Lemma credentials_found (username password : string) (us : list UserRow) :
  find (fun u => Sql.streq (u_username u) username && Sql.streq (u_password u) password
                 && u_is_active u) us <> None
  <-> exists u, In u us /\ u_username u = username /\ u_password u = password
                /\ u_is_active u = true.
Proof.
  split.
  - intros H. destruct (find _ us) as [u|] eqn:E; [|contradiction].
    apply find_some in E as [Hin Hp]. rewrite !andb_true_iff, !streq_eq in Hp.
    exists u. tauto.
  - intros (u & Hin & Hu & Hp & Ha) E.
    pose proof (find_none _ us E u Hin) as H. cbn beta in H.
    rewrite Hu, Hp, Ha, !streq_refl in H. discriminate H.
Qed.

(** X1: Authenticate never raises.  It returns true exactly when the
    storage works and some active user row holds exactly the username and
    the password given; then only [last_login] changes, to [now], on the
    rows of that username.  When it returns false nothing is written. *)
Theorem login_contract (now : Z) (username password : string) (w : World) :
  let res := authenticate_user now username password w in
  (fst res = Ok true \/ fst res = Ok false)
  /\ (fst res = Ok true <->
      storage_fails w = None
      /\ exists u, In u (users (db w)) /\ u_username u = username
                   /\ u_password u = password /\ u_is_active u = true)
  /\ (fst res = Ok false -> db (snd res) = db w)
  /\ (fst res = Ok true ->
      Forall2 (fun u u' =>
                 same_account u u'
                 /\ u_last_login u'
                    = if Sql.streq (u_username u) username then Some now
                      else u_last_login u)
              (users (db w)) (users (db (snd res)))
      /\ images (db (snd res)) = images (db w)
      /\ labels (db (snd res)) = labels (db w)
      /\ user_activities (db (snd res)) = user_activities (db w)).
Proof.
  intros res. subst res.
  destruct (authenticate_user_cases now username password w)
    as [[E H] | (F & M & E & U & I & L & A & _)].
  - rewrite E. cbn [fst snd]. split; [right; reflexivity|]. split; [|split].
    + split; [discriminate|]. intros (F & Hu).
      apply credentials_found in Hu. destruct H as [H|H]; contradiction.
    + reflexivity.
    + discriminate.
  - split; [left; exact E|]. split; [|split].
    + split; [intros _|intros _; exact E]. split; [exact F|].
      apply credentials_found. exact M.
    + rewrite E. discriminate.
    + intros _. rewrite U, I, L, A. split; [apply update_last_login_rows|].
      repeat split; reflexivity.
Qed.

Lemma login_contract_witness :
  fst (authenticate_user 9 "alice123" "pass123" scenario_world) = Ok true
  /\ db (snd (authenticate_user 9 "alice123" "wrong" scenario_world)) = db scenario_world.
Proof.
  pose proof (login_contract 9 "alice123" "pass123" scenario_world) as H1.
  pose proof (login_contract 9 "alice123" "wrong" scenario_world) as H2.
  cbv zeta in H1, H2. destruct H1 as (_ & H1 & _), H2 as (_ & _ & H2 & _).
  split.
  - apply H1. split; [reflexivity|].
    exists (mkUser 1 "alice123" "pass123" (Some "en") None None None 1 None true).
    vm_compute. auto.
  - apply H2. vm_compute. reflexivity.
Defined.

(** ** The stored users *)

Lemma user_exists_iff (d : DB) (username : string) :
  Sql.user_exists d username = true <-> In username (map u_username (users d)).
Proof.
  unfold Sql.user_exists. rewrite existsb_exists, in_map_iff.
  split; intros (u & H1 & H2).
  - apply streq_eq in H2. eauto.
  - exists u. rewrite streq_eq. auto.
Qed.

Lemma same_account_names (us us' : list UserRow) (P : UserRow -> UserRow -> Prop) :
  Forall2 (fun u u' => same_account u u' /\ P u u') us us' ->
  map u_username us' = map u_username us
  /\ (Forall stored_user_ok us -> Forall stored_user_ok us').
Proof.
  induction 1 as [|u u' l l' [S _] _ [IH1 IH2]]; [split; [reflexivity|auto]|].
  destruct S as (_ & Sn & Sp & _ & _ & _ & _ & _ & Sa).
  cbn [map]. rewrite Sn, IH1. split; [reflexivity|].
  intros H. inversion H as [|? ? Hu Hl]; subst. constructor; [|apply IH2; exact Hl].
  unfold stored_user_ok in *. rewrite Sn, Sp, Sa. exact Hu.
Qed.

Lemma new_user_ok (d : DB) (now : Z) (username password : string) (kwargs : UserKwargs) :
  passes_validation (Py.strip username) (Py.strip password) = true ->
  stored_user_ok (new_user d now (Py.strip username) (Py.strip password) kwargs).
Proof.
  intros V. unfold stored_user_ok, new_user. cbn [u_username u_password u_is_active].
  rewrite !strip_idempotent. auto.
Qed.

(** Every call keeps the usernames distinct and the stored users as
    [create_user] writes them. *)
Lemma after_users (c : call) (w : World) :
  users_wellformed (db w) -> users_wellformed (db (after c w)).
Proof.
  intros [Hn Hf].
  assert (forall d : DB, users d = users (db w) -> users_wellformed d) as Same
    by (intros d E; unfold users_wellformed; rewrite E; auto).
  destruct c; cbn [after].
  - pose proof (create_user_outcome now username password kwargs w) as O.
    remember (create_user now username password kwargs w) as res eqn:R. clear R.
    destruct O as [| | | | | | | w' V F K X U]; cbn [snd]; try (apply Same; reflexivity).
    unfold users_wellformed. rewrite U, map_app. cbn [map new_user u_username]. split.
    + apply List.NoDup_app; [exact Hn|repeat constructor; intros []|].
      intros a Ha [<-|[]].
      apply user_exists_iff in Ha. congruence.
    + apply Forall_app. split; [exact Hf|]. constructor; [|constructor].
      apply new_user_ok. exact V.
  - destruct (authenticate_user_cases now username password w)
      as [[E _] | (_ & _ & _ & U & _)].
    + rewrite E. apply Same. reflexivity.
    + pose proof (update_last_login_rows (db w) now username) as R. rewrite <- U in R.
      apply same_account_names in R as [R1 R2].
      unfold users_wellformed. rewrite R1. auto.
  - destruct (add_image_cases now image_id title description category image_path
                uploaded_by kwargs w)
      as [(e & E & _) | (_ & _ & w' & E & _ & U & _)]; rewrite E; apply Same;
      [reflexivity|exact U].
  - destruct (add_label_cases now image_id text language added_by w)
      as [(msg & _ & E) | (_ & w' & E & (U & _) & _)]; rewrite E; apply Same;
      [reflexivity|exact U].
  - rewrite get_images_run. apply Same. reflexivity.
  - rewrite get_image_labels_run. apply Same. reflexivity.
  - rewrite get_statistics_run. apply Same. reflexivity.
  - rewrite get_user_stats_run. apply Same. reflexivity.
  - rewrite get_category_statistics_run. apply Same. reflexivity.
  - rewrite get_language_statistics_run. apply Same. reflexivity.
  - rewrite get_activity_timeline_run. apply Same. reflexivity.
  - destruct (export_to_excel_frame excel_raises now w) as (x & w' & E & D & _). rewrite E.
    cbn [snd]. rewrite D. apply Same. reflexivity.
  - destruct (create_images_zip_frame w) as (x & E). rewrite E. apply Same. reflexivity.
Qed.

Lemma reachable_users (w : World) : reachable w -> users_wellformed (db w).
Proof.
  intros (fs & files & calls & ->).
  apply (run_invariant users_wellformed after_users). split; constructor.
Qed.

(** X2: in every reachable state the usernames of the stored users are
    pairwise distinct, and every stored user has a stripped username and
    password of at least 3 characters each, a username that [str.isalnum]
    accepts once its underscores and hyphens are removed, which for a
    username that is a [str] means that it is made of letters, digits,
    underscores and hyphens and has a letter or a digit, and is active.
    Characters, letters and digits are those of Unicode. *)
Theorem stored_users_wellformed (w : World) :
  reachable w ->
  List.NoDup (map u_username (users (db w)))
  /\ (forall u, In u (users (db w)) ->
        Py.strip (u_username u) = u_username u
        /\ Py.strip (u_password u) = u_password u
        /\ (3 <= Py.len (u_username u))%nat
        /\ (3 <= Py.len (u_password u))%nat
        /\ Py.isalnum (Py.replace "-" "" (Py.replace "_" "" (u_username u))) = true
        /\ (Py.is_str (u_username u) = true ->
            chars_allowed (u_username u) = true
            /\ has_letter_or_digit (u_username u) = true)
        /\ u_is_active u = true).
Proof.
  intros R. destruct (reachable_users w R) as [Hn Hf]. split; [exact Hn|].
  intros u Hu. rewrite List.Forall_forall in Hf.
  destruct (Hf u Hu) as (S1 & S2 & V & A).
  split; [exact S1|]. split; [exact S2|].
  assert (Py.is_str (u_username u) = true ->
          chars_allowed (u_username u) = true
          /\ has_letter_or_digit (u_username u) = true) as C.
  { intros I. apply (passes_validation_iff _ _ I) in V. tauto. }
  unfold passes_validation in V.
  rewrite !andb_true_iff, !negb_true_iff, !Nat.ltb_ge in V.
  destruct V as (((_ & V1) & V2) & V3). auto 10.
Qed.

(** On the sample data, and on a user with a Hindi name. *)
Lemma stored_users_wellformed_witness :
  List.NoDup (map u_username (users (db gallery_world)))
  /\ map u_username (users (db gallery_world)) = ["alice123"; "bob"]
  /\ users (db (run [CreateUser 1 amar "pass123" no_user_kwargs] blank_world))
     = [mkUser 1 amar "pass123" (Some "en") None None None 1 None true]
  /\ chars_allowed amar = true.
Proof.
  assert (reachable gallery_world) as R
    by (exists [], [("uploads/cat.png", RegularFile)], gallery; reflexivity).
  assert (reachable (run [CreateUser 1 amar "pass123" no_user_kwargs] blank_world)) as R'
    by (exists [], [("uploads/cat.png", RegularFile)],
          [CreateUser 1 amar "pass123" no_user_kwargs]; reflexivity).
  split; [exact (proj1 (stored_users_wellformed gallery_world R))|].
  split; [vm_compute; reflexivity|].
  assert (users (db (run [CreateUser 1 amar "pass123" no_user_kwargs] blank_world))
          = [mkUser 1 amar "pass123" (Some "en") None None None 1 None true]) as U
    by (vm_compute; reflexivity).
  split; [exact U|].
  destruct (proj2 (stored_users_wellformed _ R')
              (mkUser 1 amar "pass123" (Some "en") None None None 1 None true))
    as (_ & _ & _ & _ & _ & C & _).
  - rewrite U. left. reflexivity.
  - apply C. vm_compute. reflexivity.
Defined.

Lemma login_found (now : Z) (username password : string) (w : World) :
  storage_fails w = None ->
  (exists u, In u (users (db w)) /\ u_username u = username /\ u_password u = password
             /\ u_is_active u = true) ->
  fst (authenticate_user now username password w) = Ok true.
Proof.
  intros F H. apply credentials_found in H.
  destruct (authenticate_user_cases now username password w)
    as [[_ [N|N]] | (_ & _ & E & _)]; [contradiction|contradiction|exact E].
Qed.

(** X3: a username and password that Register has just accepted log in:
    Authenticate succeeds on the stripped strings whenever the storage
    works; and, the state before the registration being reachable, it
    fails on that username with any other password. *)
Theorem register_then_login (now now' : Z) (username password other : string)
    (kwargs : UserKwargs) (w : World) :
  let w1 := snd (create_user now username password kwargs w) in
  succeeded (fst (create_user now username password kwargs w)) = true ->
  (storage_fails w1 = None ->
   fst (authenticate_user now' (Py.strip username) (Py.strip password) w1) = Ok true)
  /\ (reachable w -> other <> Py.strip password ->
      fst (authenticate_user now' (Py.strip username) other w1) = Ok false).
Proof.
  intros w1 S.
  assert (reachable w -> users_wellformed (db w1)) as W.
  { intros R. apply (reachable_users _ (reachable_after
                        (CreateUser now username password kwargs) w R)). }
  subst w1.
  pose proof (create_user_outcome now username password kwargs w) as O.
  remember (create_user now username password kwargs w) as res eqn:E. clear E.
  destruct O as [| | | | | | | w' V F K X U]; cbn [fst snd succeeded] in *;
    try discriminate S.
  split.
  - intros F'. apply login_found; [exact F'|].
    exists (new_user (db w) now (Py.strip username) (Py.strip password) kwargs).
    rewrite U, in_app_iff. cbn. auto.
  - intros R Hne.
    destruct (authenticate_user_cases now' (Py.strip username) other w')
      as [[E _] | (_ & M & _)]; [rewrite E; reflexivity|].
    exfalso. apply credentials_found in M as (u & Hu & Hn & Hp & _).
    destruct (W R) as [Hnd _]. rewrite U in Hu, Hnd.
    apply in_app_iff in Hu as [Hu|[<-|[]]].
    + rewrite map_app in Hnd. cbn [map new_user u_username] in Hnd.
      apply NoDup_remove_2 in Hnd. apply Hnd. rewrite app_nil_r.
      rewrite <- Hn. apply in_map. exact Hu.
    + cbn [new_user u_password] in Hp. congruence.
Qed.

(** The password is given with a no-break space (U+00A0) at its end,
    which [str.strip] removes. *)
Lemma register_then_login_witness :
  Py.strip ("pass123" ++ nbsp) = "pass123"
  /\ fst (authenticate_user 2 "alice123" (Py.strip ("pass123" ++ nbsp))
            (snd (create_user 1 " alice123 " ("pass123" ++ nbsp) no_user_kwargs
                    blank_world)))
     = Ok true
  /\ fst (authenticate_user 2 "alice123" "Pass123"
            (snd (create_user 1 " alice123 " ("pass123" ++ nbsp) no_user_kwargs
                    blank_world)))
     = Ok false.
Proof.
  assert (succeeded (fst (create_user 1 " alice123 " ("pass123" ++ nbsp) no_user_kwargs
                            blank_world))
          = true) as S by (vm_compute; reflexivity).
  destruct (register_then_login 1 2 " alice123 " ("pass123" ++ nbsp) "Pass123"
              no_user_kwargs blank_world S) as [H1 H2].
  split; [vm_compute; reflexivity|]. split.
  - apply H1. vm_compute. reflexivity.
  - apply H2; [exact blank_world_reachable|]. vm_compute. discriminate.
Defined.

(** X4: Authenticate compares the strings as they are given: in a
    reachable state a username or a password with leading or trailing
    whitespace never logs in, although Register accepts it (and stores it
    stripped). *)
Theorem login_does_not_strip (now : Z) (username password : string) (w : World) :
  reachable w ->
  Py.strip username <> username \/ Py.strip password <> password ->
  fst (authenticate_user now username password w) = Ok false.
Proof.
  intros R H.
  destruct (authenticate_user_cases now username password w)
    as [[E _] | (_ & M & _)]; [rewrite E; reflexivity|].
  exfalso. apply credentials_found in M as (u & Hu & Hn & Hp & _).
  destruct (reachable_users w R) as [_ Hf]. rewrite List.Forall_forall in Hf.
  destruct (Hf u Hu) as (S1 & S2 & _). rewrite Hn in S1. rewrite Hp in S2. tauto.
Qed.

Lemma login_does_not_strip_witness :
  succeeded (fst (create_user 9 "alice123 " "pass123" no_user_kwargs blank_world)) = true
  /\ fst (authenticate_user 9 "alice123 " "pass123" scenario_world) = Ok false.
Proof.
  split; [vm_compute; reflexivity|].
  apply (login_does_not_strip 9 "alice123 " "pass123" scenario_world
           scenario_world_reachable).
  left. vm_compute. discriminate.
Defined.

(** ** Keys of the tables *)

Lemma create_user_frame (now : Z) (username password : string) (kwargs : UserKwargs)
    (w : World) :
  let d' := db (snd (create_user now username password kwargs w)) in
  images d' = images (db w) /\ labels d' = labels (db w)
  /\ labels_seq d' = labels_seq (db w) /\ user_activities d' = user_activities (db w).
Proof.
  unfold create_user, try_except.
  destruct (is_empty _ || is_empty _); [repeat split|].
  destruct (Py.len (Py.strip username) <? 3)%nat; [repeat split|].
  destruct (Py.len (Py.strip password) <? 3)%nat; [repeat split|].
  destruct (negb _); [repeat split|].
  unfold get_connection. destruct (storage_fails w); [repeat split|].
  run_service. unfold evaluate.
  destruct (stripped_or_none (kw_full_name kwargs)) as [full_name|e];
    [|destruct e; repeat split].
  destruct (stripped_or_none (kw_email kwargs)) as [email|e];
    [|destruct e; repeat split].
  destruct (age_or_none (kw_age kwargs)) as [age|e]; [|destruct e; repeat split].
  unfold Sql.insert_user. cbn [cdb].
  destruct (match age with Some a => negb (Sql.fits_int64 a) | None => false end);
    [repeat split|].
  destruct (Sql.user_exists (db w) (Py.strip username)); [repeat split|].
  step_log_event. cbn [snd]. destruct C as (_ & C2 & C3 & _ & C5).
  rewrite C2, C3, C5, A. repeat split.
Qed.

Lemma add_image_frame (now : Z) (image_id title description category image_path
    uploaded_by : string) (kwargs : ImageKwargs) (w : World) :
  let d' := db (snd (add_image now image_id title description category image_path
                       uploaded_by kwargs w)) in
  labels d' = labels (db w) /\ labels_seq d' = labels_seq (db w)
  /\ users d' = users (db w).
Proof.
  unfold add_image, try_except, get_connection.
  destruct (storage_fails w); [repeat split|].
  run_service. unfold Sql.insert_image. cbn [cdb foreign_keys i_id andb].
  destruct (Sql.image_exists (db w) image_id); [repeat split|].
  step_log_event. step_record_user_activity. cbn [snd].
  destruct C as (C1 & _ & C3 & _ & C5), C0 as (B1 & _ & B3 & _ & B5).
  rewrite B1, B3, B5, C1, C3, C5. repeat split.
Qed.

(** Only [add_label] moves the counter of [labels]. *)
Lemma after_labels_seq (c : call) (w : World) :
  is_add_label c = false -> labels_seq (db (after c w)) = labels_seq (db w).
Proof.
  destruct c; cbn [is_add_label after]; intros H; try discriminate H.
  - apply (create_user_frame now username password kwargs w).
  - destruct (authenticate_user_cases now username password w)
      as [[E _] | (_ & _ & _ & _ & _ & _ & _ & S & _)]; [rewrite E; reflexivity|exact S].
  - apply (add_image_frame now image_id title description category image_path
             uploaded_by kwargs w).
  - rewrite get_images_run. reflexivity.
  - rewrite get_image_labels_run. reflexivity.
  - rewrite get_statistics_run. reflexivity.
  - rewrite get_user_stats_run. reflexivity.
  - rewrite get_category_statistics_run. reflexivity.
  - rewrite get_language_statistics_run. reflexivity.
  - rewrite get_activity_timeline_run. reflexivity.
  - destruct (export_to_excel_frame excel_raises now w) as (x & w' & E & D & _). rewrite E.
    cbn [snd]. rewrite D. reflexivity.
  - destruct (create_images_zip_frame w) as (x & E). rewrite E. reflexivity.
Qed.

Lemma maximum_nonnegative (ids : list Z) : 0 <= Sql.maximum ids.
Proof.
  induction ids as [|x l IH]; [cbn; lia|].
  cbn [Sql.maximum fold_right]. fold (Sql.maximum l). lia.
Qed.

Lemma maximum_le (ids : list Z) (bound : Z) :
  0 <= bound -> Forall (fun x => x <= bound) ids -> Sql.maximum ids <= bound.
Proof.
  intros H0. induction 1 as [|x l Hx _ IH]; [cbn; lia|].
  cbn [Sql.maximum fold_right]. fold (Sql.maximum l). lia.
Qed.

Lemma sorted_map_filter {A : Type} (f : A -> Z) (p : A -> bool) (l : list A) :
  StronglySorted Z.lt (map f l) -> StronglySorted Z.lt (map f (List.filter p l)).
Proof.
  induction l as [|a l IH]; cbn [map List.filter]; intros H; [constructor|].
  inversion H as [|? ? Hs Hf]; subst. destruct (p a); [|apply IH; exact Hs].
  cbn [map]. constructor; [apply IH; exact Hs|].
  rewrite List.Forall_forall in *. intros x Hx. apply Hf.
  apply in_map_iff in Hx as (b & <- & Hb). apply filter_In in Hb as [Hb _].
  apply in_map. exact Hb.
Qed.

Lemma sorted_snoc (l : list Z) (x : Z) :
  StronglySorted Z.lt l -> Forall (fun y => y < x) l -> StronglySorted Z.lt (l ++ [x]).
Proof.
  induction l as [|a l IH]; intros Hs Hf; [repeat constructor|].
  inversion Hs as [|? ? Hs' Ha]; subst. inversion Hf as [|? ? Hax Hf']; subst.
  cbn [app]. constructor; [apply IH; assumption|].
  apply Forall_app. split; [exact Ha|]. constructor; [exact Hax|constructor].
Qed.

Lemma labelled_seq (d : DB) (now : Z) (image_id text language added_by : string) :
  labels_seq (labelled d now image_id text language added_by)
  = l_id (new_label d now image_id text language added_by).
Proof. reflexivity. Qed.

Lemma new_label_rowid (d : DB) (now : Z) (image_id text language added_by : string) :
  rowids_fresh d ->
  l_id (new_label d now image_id text language added_by) = labels_seq d + 1.
Proof.
  intros (_ & Hf & H0). cbn [new_label l_id]. unfold Sql.next_rowid.
  assert (Sql.maximum (map l_id (labels d)) <= labels_seq d) as H.
  { apply maximum_le; [exact H0|]. rewrite List.Forall_map.
    eapply List.Forall_impl; [|exact Hf]. cbn beta. intros; lia. }
  lia.
Qed.

Lemma labelled_rowids (d : DB) (now : Z) (image_id text language added_by : string) :
  rowids_fresh d -> rowids_fresh (labelled d now image_id text language added_by).
Proof.
  intros Hd. pose proof (new_label_rowid d now image_id text language added_by Hd) as Hid.
  destruct Hd as (Hs & Hf & H0). unfold rowids_fresh.
  rewrite labelled_seq, labelled_labels, map_app, Hid. cbn [map]. rewrite Hid.
  rewrite List.Forall_forall in Hf. split; [|split; [|lia]].
  - apply sorted_snoc; [apply sorted_map_filter; exact Hs|].
    rewrite List.Forall_forall. intros y Hy.
    apply in_map_iff in Hy as (l & <- & Hl). apply filter_In in Hl as [Hl _].
    specialize (Hf l Hl). lia.
  - apply Forall_app. split.
    + rewrite List.Forall_forall. intros l Hl. apply filter_In in Hl as [Hl _].
      specialize (Hf l Hl). lia.
    + constructor; [lia|constructor].
Qed.

Lemma after_rowids (c : call) (w : World) :
  rowids_fresh (db w) -> rowids_fresh (db (after c w)).
Proof.
  intros H. destruct (is_add_label c) eqn:E.
  - destruct c; try discriminate E. cbn [after].
    destruct (add_label_cases now image_id text language added_by w)
      as [(msg & _ & R) | (_ & w' & R & (_ & _ & L & _ & S) & _)]; rewrite R; cbn [snd].
    + exact H.
    + unfold rowids_fresh. rewrite L, S. apply labelled_rowids. exact H.
  - unfold rowids_fresh. rewrite (after_labels c w E), (after_labels_seq c w E). exact H.
Qed.

Lemma reachable_rowids (w : World) : reachable w -> rowids_fresh (db w).
Proof.
  intros (fs & files & calls & ->).
  apply (run_invariant rowids_fresh after_rowids).
  repeat split; [constructor|constructor|cbn; lia].
Qed.

(** X5: the rowid of a label is never reused.  In every reachable state
    the rowids of [labels] are positive, strictly increasing along the
    table (hence distinct) and not above the table's counter; no call
    lowers the counter; and an AddLabel that succeeds gives its row the
    rowid counter + 1, also when it replaces a row. *)
Theorem label_rowids_never_reused (c : call) (w : World) :
  reachable w ->
  StronglySorted Z.lt (map l_id (labels (db w)))
  /\ List.NoDup (map l_id (labels (db w)))
  /\ (forall l, In l (labels (db w)) -> 0 < l_id l <= labels_seq (db w))
  /\ labels_seq (db w) <= labels_seq (db (after c w))
  /\ (forall now image_id text language added_by,
         c = AddLabel now image_id text language added_by ->
         fst (add_label now image_id text language added_by w) = Ok true ->
         labels_seq (db (after c w)) = labels_seq (db w) + 1
         /\ In (mkLabel (labels_seq (db w) + 1) image_id text language added_by now)
               (labels (db (after c w)))).
Proof.
  intros R. pose proof (reachable_rowids w R) as H.
  destruct H as (Hs & Hf & H0). split; [exact Hs|]. split; [|split; [|split]].
  - clear - Hs. induction Hs as [|x l Hs IH Hx]; constructor; [|exact IH].
    intros Hin. rewrite List.Forall_forall in Hx. specialize (Hx x Hin). lia.
  - rewrite List.Forall_forall in Hf. exact Hf.
  - destruct (is_add_label c) eqn:E; [|rewrite (after_labels_seq c w E); lia].
    destruct c; try discriminate E. cbn [after].
    destruct (add_label_cases now image_id text language added_by w)
      as [(msg & _ & Q) | (_ & w' & Q & (_ & _ & _ & _ & S) & _)]; rewrite Q; cbn [snd];
      [apply Z.le_refl|].
    rewrite S, labelled_seq, (new_label_rowid (db w)); [lia|]. repeat split; assumption.
  - intros now image_id text language added_by -> Hok. cbn [after].
    destruct (add_label_cases now image_id text language added_by w)
      as [(msg & _ & Q) | (_ & w' & Q & (_ & _ & L & _ & S) & _)]; rewrite Q in *;
      cbn [fst snd] in *; [discriminate Hok|].
    assert (rowids_fresh (db w)) as Hd by (repeat split; assumption).
    rewrite S, L, labelled_seq, (new_label_rowid (db w) _ _ _ _ _ Hd).
    split; [reflexivity|]. rewrite labelled_labels, in_app_iff. right. left.
    unfold new_label. fold (new_label (db w) now image_id text language added_by).
    pose proof (new_label_rowid (db w) now image_id text language added_by Hd) as Hid.
    cbn [new_label l_id] in Hid. rewrite <- Hid. reflexivity.
Qed.

Lemma label_rowids_never_reused_witness :
  map l_id (labels (db (after (AddLabel 5 "img-1" "cat" "en" "bob") scenario_world)))
  = [2; 3]
  /\ labels_seq (db (after (AddLabel 5 "img-1" "cat" "en" "bob") scenario_world)) = 3.
Proof.
  destruct (label_rowids_never_reused (AddLabel 5 "img-1" "cat" "en" "bob") scenario_world
              scenario_world_reachable) as (_ & _ & _ & _ & H).
  destruct (H 5 "img-1" "cat" "en" "bob" eq_refl) as [H1 _]; [vm_compute; reflexivity|].
  split; [vm_compute; reflexivity|]. rewrite H1. vm_compute. reflexivity.
Defined.

Lemma image_exists_iff (d : DB) (image_id : string) :
  Sql.image_exists d image_id = true <-> In image_id (map i_id (images d)).
Proof.
  unfold Sql.image_exists. rewrite existsb_exists, in_map_iff.
  split; intros (i & H1 & H2).
  - apply streq_eq in H2. eauto.
  - exists i. rewrite streq_eq. auto.
Qed.

Lemma labelled_image_ids (d : DB) (now : Z) (image_id text language added_by : string) :
  map i_id (images (labelled d now image_id text language added_by)) = map i_id (images d).
Proof.
  rewrite labelled_images, map_map. apply map_ext. intros i.
  destruct (Sql.streq (i_id i) image_id); reflexivity.
Qed.

Lemma after_image_ids (c : call) (w : World) :
  List.NoDup (map i_id (images (db w))) -> List.NoDup (map i_id (images (db (after c w)))).
Proof.
  intros H.
  assert (forall d : DB, images d = images (db w) -> List.NoDup (map i_id (images d)))
    as Same by (intros d E; rewrite E; exact H).
  destruct c; cbn [after].
  - apply Same. apply (create_user_frame now username password kwargs w).
  - destruct (authenticate_user_cases now username password w)
      as [[E _] | (_ & _ & _ & _ & I & _)]; [rewrite E|]; apply Same; auto.
  - destruct (add_image_cases now image_id title description category image_path
                uploaded_by kwargs w)
      as [(e & E & _) | (_ & X & w' & E & I & _)]; rewrite E; cbn [snd];
      [apply Same; reflexivity|].
    rewrite I, map_app. cbn [map i_id].
    apply List.NoDup_app; [exact H|repeat constructor; intros []|].
    intros a Ha [<-|[]]. apply image_exists_iff in Ha. congruence.
  - destruct (add_label_cases now image_id text language added_by w)
      as [(msg & _ & E) | (_ & w' & E & (_ & I & _) & _)]; rewrite E; cbn [snd];
      [apply Same; reflexivity|].
    rewrite I, labelled_image_ids. exact H.
  - rewrite get_images_run. apply Same. reflexivity.
  - rewrite get_image_labels_run. apply Same. reflexivity.
  - rewrite get_statistics_run. apply Same. reflexivity.
  - rewrite get_user_stats_run. apply Same. reflexivity.
  - rewrite get_category_statistics_run. apply Same. reflexivity.
  - rewrite get_language_statistics_run. apply Same. reflexivity.
  - rewrite get_activity_timeline_run. apply Same. reflexivity.
  - destruct (export_to_excel_frame excel_raises now w) as (x & w' & E & D & _). rewrite E.
    cbn [snd]. rewrite D. apply Same. reflexivity.
  - destruct (create_images_zip_frame w) as (x & E). rewrite E. apply Same. reflexivity.
Qed.

Lemma reachable_image_ids (w : World) :
  reachable w -> List.NoDup (map i_id (images (db w))).
Proof.
  intros (fs & files & calls & ->).
  apply (run_invariant (fun d => List.NoDup (map i_id (images d))) after_image_ids).
  constructor.
Qed.

Lemma NoDup_map_prefix {A B : Type} (f : A -> B) (l1 l2 : list A) :
  List.NoDup (map f (l1 ++ l2)) -> List.NoDup (map f l1).
Proof. rewrite map_app. apply NoDup_app_remove_r. Qed.

(** X6: the identifiers of the stored images are pairwise distinct in
    every reachable state, and QueryImages, whatever its filters and
    limit, never returns two rows for one identifier. *)
Theorem image_ids_unique (category language search : option string) (limit : Z)
    (w : World) :
  reachable w ->
  List.NoDup (map i_id (images (db w)))
  /\ (forall rows, fst (get_images category language search limit w) = Ok rows ->
                   List.NoDup (map (fun r => i_id (r_image r)) rows)).
Proof.
  intros R. pose proof (reachable_image_ids w R) as H. split; [exact H|].
  intros rows E. rewrite get_images_run in E. cbn [fst] in E.
  destruct (storage_fails w); injection E as <-; [constructor|].
  destruct (query_accepted search limit) eqn:Q0;
    [|rewrite (query_images_refused _ _ _ _ _ Q0); constructor].
  rewrite query_images_accepted, Q0. cbn [or_empty]. unfold select_images.
  set (groups := somes (map (image_group category language search (labels (db w)))
                            (images (db w)))).
  destruct (limit_split limit (Sql.order_by newest_first groups)) as (rest & Q & _).
  rewrite <- (map_map r_image i_id).
  apply (NoDup_map_prefix i_id _ (map r_image rest)). rewrite <- map_app, Q.
  apply (Permutation_NoDup
           (Permutation_map i_id
              (Permutation_map r_image
                 (Permutation_sym (order_by_perm newest_first groups))))).
  unfold groups. rewrite groups_are_selected. apply NoDup_map_filter. exact H.
Qed.

Lemma image_ids_unique_witness :
  List.NoDup (map i_id (images (db gallery_world)))
  /\ map i_id (images (db gallery_world)) = ["img-1"; "img-2"; "img-3"].
Proof.
  assert (reachable gallery_world) as R
    by (exists [], [("uploads/cat.png", RegularFile)], gallery; reflexivity).
  split; [exact (proj1 (image_ids_unique None None None 50 gallery_world R))|].
  vm_compute. reflexivity.
Defined.

(** ** [add_image] *)

(** The three exits of [add_image]. *)
Lemma add_image_outcome (now : Z) (image_id title description category image_path
    uploaded_by : string) (kwargs : ImageKwargs) (w : World) :
  let row := mkImage image_id title description category image_path uploaded_by now
               (kw_latitude kwargs) (kw_longitude kwargs) (kw_city kwargs)
               (kw_country kwargs) (kw_location_method kwargs) (kw_file_size kwargs)
               (kw_image_width kwargs) (kw_image_height kwargs) 0 in
  let res := add_image now image_id title description category image_path uploaded_by
               kwargs w in
  (exists msg, storage_fails w = Some msg
               /\ res = (Raise (OperationalError msg), next w))
  \/ (storage_fails w = None /\ Sql.image_exists (db w) image_id = true
      /\ res = (Raise (IntegrityError "UNIQUE constraint failed: images.id"), next w))
  \/ (storage_fails w = None /\ Sql.image_exists (db w) image_id = false
      /\ fst res = Ok image_id
      /\ images (db (snd res)) = (images (db w) ++ [row])%list
      /\ users (db (snd res)) = users (db w)
      /\ labels (db (snd res)) = labels (db w)
      /\ credited 10 (user_activities (db w)) (user_activities (db (snd res)))).
Proof.
  intros row res. subst res. unfold add_image, try_except, get_connection.
  destruct (storage_fails w) eqn:F; [left; eexists; split; reflexivity|].
  right. run_service. unfold Sql.insert_image. cbn [cdb foreign_keys i_id andb].
  destruct (Sql.image_exists (db w) image_id) eqn:X;
    [left; repeat split; reflexivity|].
  right. split; [reflexivity|]. split; [reflexivity|].
  step_log_event.
  match goal with
  | |- context [_record_user_activity ?u ?t ?d ?p ?w0] =>
      destruct (record_user_activity_frame u t d p w0) as (w2 & L0 & C0 & _ & D0 & P0);
      rewrite L0; cbv beta iota
  end.
  cbn [fst snd]. destruct C as (C1 & C2 & C3 & _), C0 as (B1 & B2 & B3 & _).
  rewrite A in P0. rewrite B1, B2, B3, C1, C2, C3. repeat split; try reflexivity.
  exact P0.
Qed.

(** X7: AddImage returns the new identifier exactly when the storage
    works and no image has that identifier yet; it then appends one image
    row with a label count of 0, so that the statistics count one image
    more, leaves users and labels alone and credits at most one entry of
    10 points.  Otherwise it raises - the storage error, or an integrity
    error for an identifier in use - and the database is as before. *)
Theorem add_image_contract (now now' : Z) (image_id title description category image_path
    uploaded_by : string) (kwargs : ImageKwargs) (w : World) :
  let res := add_image now image_id title description category image_path uploaded_by
               kwargs w in
  (fst res = Ok image_id <->
   storage_fails w = None /\ Sql.image_exists (db w) image_id = false)
  /\ (fst res = Ok image_id ->
      (exists row, images (db (snd res)) = (images (db w) ++ [row])%list
                   /\ i_id row = image_id /\ i_title row = title
                   /\ i_category row = category /\ i_image_path row = image_path
                   /\ i_uploaded_by row = uploaded_by /\ i_uploaded_at row = now
                   /\ i_label_count row = 0)
      /\ users (db (snd res)) = users (db w)
      /\ labels (db (snd res)) = labels (db w)
      /\ credited 10 (user_activities (db w)) (user_activities (db (snd res)))
      /\ dict_get "total_images" (statistics now' (db (snd res)))
         = Some (PInt (Z.of_nat (List.length (images (db w))) + 1)))
  /\ (fst res <> Ok image_id ->
      db (snd res) = db w
      /\ ((exists msg, storage_fails w = Some msg
                       /\ fst res = Raise (OperationalError msg))
          \/ (storage_fails w = None
              /\ fst res = Raise (IntegrityError "UNIQUE constraint failed: images.id")))).
Proof.
  intros res. subst res.
  destruct (add_image_outcome now image_id title description category image_path
              uploaded_by kwargs w)
    as [(msg & F & E) | [(F & X & E) | (F & X & E & I & U & L & P)]].
  - rewrite E. cbn [fst snd]. split; [|split].
    + split; [discriminate|]. intros [F' _]. congruence.
    + discriminate.
    + intros _. split; [reflexivity|]. left. exists msg. auto.
  - rewrite E. cbn [fst snd]. split; [|split].
    + split; [discriminate|]. intros [_ X']. congruence.
    + discriminate.
    + intros _. split; [reflexivity|]. right. auto.
  - split; [|split].
    + split; auto.
    + intros _. split; [|split; [exact U|split; [exact L|split; [exact P|]]]].
      * eexists. split; [exact I|]. repeat split.
      * change (dict_get "total_images" (statistics now' (db (snd
                 (add_image now image_id title description category image_path
                    uploaded_by kwargs w)))))
          with (Some (PInt (Z.of_nat (List.length (images (db (snd
                 (add_image now image_id title description category image_path
                    uploaded_by kwargs w)))))))).
        rewrite I, length_app. cbn [List.length]. do 2 f_equal. lia.
    + intros N. contradiction.
Qed.

Lemma add_image_contract_witness :
  fst (add_image 9 "img-9" "Dog" "" "Animals" "uploads/dog.png" "alice123"
         no_image_kwargs scenario_world) = Ok "img-9"
  /\ db (snd (add_image 9 "img-1" "Dog" "" "Animals" "uploads/dog.png" "alice123"
                no_image_kwargs scenario_world)) = db scenario_world.
Proof.
  pose proof (add_image_contract 9 9 "img-9" "Dog" "" "Animals" "uploads/dog.png"
                "alice123" no_image_kwargs scenario_world) as H1.
  pose proof (add_image_contract 9 9 "img-1" "Dog" "" "Animals" "uploads/dog.png"
                "alice123" no_image_kwargs scenario_world) as H2.
  cbv zeta in H1, H2. destruct H1 as (H1 & _), H2 as (_ & _ & H2).
  split.
  - apply H1. split; vm_compute; reflexivity.
  - apply H2. vm_compute. discriminate.
Defined.

(** ** [add_label] and [get_image_labels] *)

Lemma labelled_image_rows (d : DB) (now : Z) (image_id text language added_by : string) :
  Forall2 same_image (images d) (images (labelled d now image_id text language added_by)).
Proof.
  rewrite labelled_images. induction (images d) as [|i l IH]; cbn [map]; constructor;
    [|exact IH].
  unfold same_image. destruct (Sql.streq (i_id i) image_id); reflexivity.
Qed.

(** X8: AddLabel never raises and never refuses an input: it returns
    true exactly when the storage works for its own connection, whatever
    the image, text, language and contributor are and whether or not the
    event log and the ledger can be written afterwards.  When it returns
    false the database is as before.  When it returns true the label is
    committed, no user row changes, the image rows change in [label_count]
    at most, and the ledger gets at most one entry, of 5 points. *)
Theorem add_label_contract (now : Z) (image_id text language added_by : string)
    (w : World) :
  let res := add_label now image_id text language added_by w in
  (fst res = Ok true \/ fst res = Ok false)
  /\ (fst res = Ok true <-> storage_fails w = None)
  /\ (fst res = Ok false -> db (snd res) = db w)
  /\ (fst res = Ok true ->
      In (new_label (db w) now image_id text language added_by) (labels (db (snd res)))
      /\ users (db (snd res)) = users (db w)
      /\ Forall2 same_image (images (db w)) (images (db (snd res)))
      /\ credited 5 (user_activities (db w)) (user_activities (db (snd res)))).
Proof.
  intros res. subst res.
  destruct (add_label_cases now image_id text language added_by w)
    as [(msg & F & E) | (F & w' & E & (U & I & L & _) & _ & P)]; rewrite E; cbn [fst snd].
  - split; [right; reflexivity|]. split; [|split].
    + split; [discriminate|congruence].
    + reflexivity.
    + discriminate.
  - split; [left; reflexivity|]. split; [|split].
    + split; auto.
    + discriminate.
    + intros _. rewrite U, I, L. split; [|split; [reflexivity|split; [|exact P]]].
      * rewrite labelled_labels, in_app_iff. right. left. reflexivity.
      * apply labelled_image_rows.
Qed.

Lemma add_label_contract_witness :
  fst (add_label 9 "img-1" "" "xx" "nobody"
         (mkWorld (db scenario_world) [None; Some "disk I/O error"; Some "disk I/O error"]
                  [])) = Ok true
  /\ db (snd (add_label 9 "img-1" "dog" "en" "alice123" locked_world)) = db locked_world.
Proof.
  pose proof (add_label_contract 9 "img-1" "" "xx" "nobody"
                (mkWorld (db scenario_world)
                         [None; Some "disk I/O error"; Some "disk I/O error"] [])) as H1.
  pose proof (add_label_contract 9 "img-1" "dog" "en" "alice123" locked_world) as H2.
  cbv zeta in H1, H2. destruct H1 as (_ & H1 & _), H2 as (_ & _ & H2 & _).
  split.
  - apply H1. reflexivity.
  - apply H2. vm_compute. reflexivity.
Defined.

Lemma newest_label_sort (l : list LabelRow) :
  StronglySorted not_older_label
    (Sql.order_by (fun a b => l_added_at b <=? l_added_at a) l).
Proof.
  apply (order_by_sorted (fun a b => l_added_at b <=? l_added_at a) not_older_label);
    unfold not_older_label.
  - intros a b H. apply Z.leb_le in H. exact H.
  - intros a b H. apply Z.leb_gt in H. lia.
  - intros a b c H1 H2. lia.
Qed.

(** X9: when the storage works, GetLabels returns the labels of the
    image, each once, and no label of another image, newest first; when
    it fails, the empty list. *)
Theorem image_labels_listed (image_id : string) (w : World) :
  exists rows,
    get_image_labels image_id w = (Ok rows, next w)
    /\ (storage_fails w <> None -> rows = [])
    /\ (storage_fails w = None ->
        Permutation rows
          (List.filter (fun l => Sql.streq (l_image_id l) image_id) (labels (db w)))
        /\ (forall l, In l rows <-> In l (labels (db w)) /\ l_image_id l = image_id)
        /\ StronglySorted not_older_label rows).
Proof.
  rewrite get_image_labels_run. eexists. split; [reflexivity|].
  destruct (storage_fails w); split; try congruence; try discriminate.
  intros _. unfold select_image_labels.
  set (mine := List.filter (fun l => Sql.streq (l_image_id l) image_id) (labels (db w))).
  pose proof (order_by_perm (fun a b => l_added_at b <=? l_added_at a) mine) as P.
  split; [exact P|]. split; [|apply newest_label_sort].
  intros l. split.
  - intros H. apply (Permutation_in l P) in H. apply filter_In in H as [H1 H2].
    apply streq_eq in H2. auto.
  - intros [H1 H2]. apply (Permutation_in l (Permutation_sym P)).
    apply filter_In. rewrite streq_eq. auto.
Qed.

Lemma image_labels_listed_witness :
  exists rows,
    get_image_labels "img-1" scenario_world = (Ok rows, next scenario_world)
    /\ map l_text rows = ["billi"; "cat"].
Proof.
  destruct (image_labels_listed "img-1" scenario_world) as (rows & E & _ & H).
  exists rows. split; [exact E|].
  destruct (H eq_refl) as (_ & _ & _).
  vm_compute in E. injection E as <-. vm_compute. reflexivity.
Defined.

Lemma LabelRow_eq_dec (a b : LabelRow) : {a = b} + {a <> b}.
Proof. decide equality; first [apply Z.eq_dec | apply string_dec]. Defined.

Lemma sorted_head_newest (rows : list LabelRow) (x : LabelRow) :
  StronglySorted not_older_label rows ->
  In x rows ->
  (forall l, In l rows -> l <> x -> l_added_at l < l_added_at x) ->
  exists rest, rows = x :: rest.
Proof.
  intros Hs Hin Hnew. destruct rows as [|h rest]; [destruct Hin|].
  exists rest. f_equal.
  destruct Hin as [E|Hin]; [exact E|].
  inversion Hs as [|? ? _ Hh]; subst. rewrite List.Forall_forall in Hh.
  specialize (Hh x Hin). unfold not_older_label in Hh.
  destruct (LabelRow_eq_dec h x) as [E|N]; [exact E|].
  specialize (Hnew h (or_introl eq_refl) N). lia.
Qed.

(** X10: a label that AddLabel has just committed is listed by GetLabels
    for its image (the storage working); when its timestamp is later than
    that of every other label of the image, it is listed first. *)
Theorem added_label_is_listed (now : Z) (image_id text language added_by : string)
    (w : World) :
  let w1 := snd (add_label now image_id text language added_by w) in
  let new := new_label (db w) now image_id text language added_by in
  fst (add_label now image_id text language added_by w) = Ok true ->
  storage_fails w1 = None ->
  exists rows,
    fst (get_image_labels image_id w1) = Ok rows
    /\ In new rows
    /\ ((forall l, In l (labels (db w)) -> l_image_id l = image_id -> l_added_at l < now) ->
        exists rest, rows = new :: rest).
Proof.
  intros w1 new Hok F. subst w1.
  destruct (add_label_cases now image_id text language added_by w)
    as [(msg & _ & E) | (_ & w' & E & (_ & _ & L & _) & _)]; rewrite E in *;
    cbn [fst snd] in *; [discriminate Hok|].
  rewrite get_image_labels_run, F. cbn [fst]. eexists. split; [reflexivity|].
  unfold select_image_labels.
  set (mine := List.filter (fun l => Sql.streq (l_image_id l) image_id) (labels (db w'))).
  pose proof (order_by_perm (fun a b => l_added_at b <=? l_added_at a) mine) as P.
  assert (In new mine) as Hnew.
  { apply filter_In. rewrite L, labelled_labels, in_app_iff. split.
    - right. left. reflexivity.
    - apply streq_refl. }
  assert (In new (Sql.order_by (fun a b => l_added_at b <=? l_added_at a) mine)) as Hin
    by (apply (Permutation_in new (Permutation_sym P)); exact Hnew).
  split; [exact Hin|]. intros Hold.
  apply (sorted_head_newest _ new (newest_label_sort mine) Hin).
  intros l Hl Hne. apply (Permutation_in l P) in Hl. apply filter_In in Hl as [Hl Hi].
  apply streq_eq in Hi. rewrite L, labelled_labels, in_app_iff in Hl.
  destruct Hl as [Hl|[Hl|[]]]; [|exfalso; apply Hne; symmetry; exact Hl].
  apply filter_In in Hl as [Hl _]. subst new. cbn [new_label l_added_at].
  apply Hold; assumption.
Qed.

Lemma added_label_is_listed_witness :
  exists rest,
    fst (get_image_labels "img-1"
           (snd (add_label 5 "img-1" "chat" "fr" "bob" scenario_world)))
    = Ok (new_label (db scenario_world) 5 "img-1" "chat" "fr" "bob" :: rest).
Proof.
  destruct (added_label_is_listed 5 "img-1" "chat" "fr" "bob" scenario_world)
    as (rows & E & _ & H); [vm_compute; reflexivity|vm_compute; reflexivity|].
  assert (forallb (fun l => l_added_at l <? 5) (labels (db scenario_world)) = true) as B
    by (vm_compute; reflexivity).
  destruct H as (rest & Hr).
  - intros l Hl _. apply Z.ltb_lt. exact (proj1 (forallb_forall _ _) B l Hl).
  - exists rest. rewrite <- Hr. exact E.
Defined.

(** ** Grouped counts *)

Section Grouping.
Context {K : Type} (eqb : K -> K -> bool) (dist : list K -> list K).
Hypothesis eqb_spec : forall a b, eqb a b = true <-> a = b.
Hypothesis dist_nil : dist [] = [].
Hypothesis dist_cons :
  forall x l, dist (x :: l) = x :: List.filter (fun y => negb (eqb y x)) (dist l).

Lemma eqb_comm (a b : K) : eqb a b = eqb b a.
Proof.
  destruct (eqb a b) eqn:E1, (eqb b a) eqn:E2; try reflexivity.
  - apply eqb_spec in E1. subst. assert (eqb b b = true) by (apply eqb_spec; reflexivity).
    congruence.
  - apply eqb_spec in E2. subst. assert (eqb a a = true) by (apply eqb_spec; reflexivity).
    congruence.
Qed.

Lemma filter_filter_comm (p q : K -> bool) (l : list K) :
  List.filter p (List.filter q l) = List.filter q (List.filter p l).
Proof.
  induction l as [|x l IH]; [reflexivity|]. cbn [List.filter].
  destruct (p x) eqn:P, (q x) eqn:Q; cbn [List.filter]; rewrite ?P, ?Q; congruence.
Qed.

Lemma dist_filter (p : K -> bool) (l : list K) :
  dist (List.filter p l) = List.filter p (dist l).
Proof.
  induction l as [|x l IH]; cbn [List.filter]; [rewrite dist_nil; reflexivity|].
  rewrite dist_cons. destruct (p x) eqn:P; cbn [List.filter]; rewrite ?P.
  - rewrite dist_cons, IH, filter_filter_comm. reflexivity.
  - rewrite IH, filter_filter_comm. symmetry. apply filter_all.
    intros y Hy. apply filter_In in Hy as [_ Py]. cbn beta.
    destruct (eqb y x) eqn:E; [|reflexivity].
    apply eqb_spec in E. subst. congruence.
Qed.

Lemma dist_In (l : list K) (x : K) : In x (dist l) <-> In x l.
Proof.
  induction l as [|y l IH]; [rewrite dist_nil; reflexivity|].
  rewrite dist_cons. cbn [In]. rewrite filter_In, IH. split.
  - intros [H|[H _]]; auto.
  - intros [H|H]; [left; exact H|].
    destruct (eqb x y) eqn:E.
    + left. apply eqb_spec in E. congruence.
    + right. split; [exact H|reflexivity].
Qed.

Lemma dist_NoDup (l : list K) : List.NoDup (dist l).
Proof.
  induction l as [|y l IH]; [rewrite dist_nil; constructor|].
  rewrite dist_cons. constructor.
  - rewrite filter_In. intros [_ H]. cbn beta in H.
    assert (eqb y y = true) as E by (apply eqb_spec; reflexivity).
    rewrite E in H. discriminate H.
  - apply filter_NoDup. exact IH.
Qed.

Lemma filter_partition_length (p : K -> bool) (l : list K) :
  (List.length (List.filter p l) + List.length (List.filter (fun y => negb (p y)) l)
   = List.length l)%nat.
Proof.
  induction l as [|x l IH]; [reflexivity|]. cbn [List.filter].
  destruct (p x); cbn [negb List.length]; lia.
Qed.

Lemma count_sum_aux (n : nat) :
  forall l, (List.length l <= n)%nat ->
  Sql.sum (map (fun k => Sql.count (eqb k) l) (dist l)) = Z.of_nat (List.length l).
Proof.
  induction n as [|n IH]; intros l Hn.
  - destruct l; [rewrite dist_nil; reflexivity|cbn in Hn; lia].
  - destruct l as [|x l]; [rewrite dist_nil; reflexivity|].
    rewrite dist_cons, <- dist_filter. cbn [map Sql.sum foldr].
    set (m := List.filter (fun y => negb (eqb y x)) l).
    assert (map (fun k => Sql.count (eqb k) (x :: l)) (dist m)
            = map (fun k => Sql.count (eqb k) m) (dist m)) as ->.
    { apply map_ext_in. intros k Hk. apply (proj1 (dist_In _ _)) in Hk.
      apply filter_In in Hk as [_ Hk]. cbn beta in Hk. unfold Sql.count.
      cbn [List.filter].
      destruct (eqb k x) eqn:E; [discriminate Hk|].
      f_equal. f_equal. subst m. rewrite filter_filter_comm.
      symmetry. apply filter_all. intros y Hy.
      apply filter_In in Hy as [_ Hy]. apply eqb_spec in Hy. subst y. cbn beta.
      rewrite E. reflexivity. }
    pose proof (filter_partition_length (eqb x) l) as P.
    assert (List.filter (fun y => negb (eqb x y)) l = m) as Em.
    { subst m. apply List.filter_ext. intros y. rewrite eqb_comm. reflexivity. }
    rewrite Em in P.
    change (foldr Z.add 0) with Sql.sum. rewrite (IH m).
    + unfold Sql.count. cbn [List.filter].
      assert (eqb x x = true) as -> by (apply eqb_spec; reflexivity).
      cbn [List.length]. lia.
    + cbn [List.length] in Hn. lia.
Qed.

Lemma count_sum (l : list K) :
  Sql.sum (map (fun k => Sql.count (eqb k) l) (dist l)) = Z.of_nat (List.length l).
Proof. apply (count_sum_aux (List.length l)). lia. Qed.

Lemma count_positive (l : list K) (k : K) : In k l -> 0 < Sql.count (eqb k) l.
Proof.
  intros H. unfold Sql.count.
  assert (In k (List.filter (eqb k) l)) as Hk
    by (apply filter_In; split; [exact H|apply eqb_spec; reflexivity]).
  destruct (List.filter (eqb k) l); [destruct Hk|cbn [List.length]; lia].
Qed.

Lemma sum_perm (l l' : list Z) : Permutation l l' -> Sql.sum l = Sql.sum l'.
Proof.
  induction 1; cbn [Sql.sum foldr] in *; unfold Sql.sum in *; cbn [foldr]; lia.
Qed.

Lemma grouped_rows (keys : list K) (rows : list (K * Z)) :
  Permutation rows (map (fun k => (k, Sql.count (eqb k) keys)) (dist keys)) ->
  grouped eqb keys rows.
Proof.
  intros P. unfold grouped.
  assert (map fst (map (fun k => (k, Sql.count (eqb k) keys)) (dist keys)) = dist keys)
    as Efst by (rewrite map_map; apply map_id).
  assert (forall k n, In (k, n) rows <-> In k keys /\ n = Sql.count (eqb k) keys) as Hin.
  { intros k n. split.
    - intros H. apply (Permutation_in _ P) in H. apply in_map_iff in H as (k' & E & H).
      inversion E; subst. split; [apply dist_In; exact H|reflexivity].
    - intros [H ->]. apply (Permutation_in _ (Permutation_sym P)).
      apply in_map_iff. exists k. split; [reflexivity|apply dist_In; exact H]. }
  split; [|split; [exact Hin|split]].
  - apply (Permutation.Permutation_NoDup (l := dist keys)); [|apply dist_NoDup].
    rewrite <- Efst. apply Permutation_sym, Permutation_map. exact P.
  - apply List.Forall_forall. intros [k n] H. apply Hin in H as [H ->].
    apply count_positive. exact H.
  - rewrite (sum_perm _ _ (Permutation_map snd P)), map_map. cbn [snd].
    apply count_sum.
Qed.
End Grouping.

Lemma by_count_desc_sorted (rows : list (string * Z)) :
  StronglySorted (fun a b => snd b <= snd a) (Sql.order_by by_count_desc rows).
Proof.
  apply order_by_sorted; unfold by_count_desc; intros; try lia.
Qed.

Lemma group_count_grouped (keys : list string) :
  grouped Sql.streq keys (Sql.order_by by_count_desc (Sql.group_count keys)).
Proof.
  apply (grouped_rows Sql.streq Sql.distinct streq_eq eq_refl (fun _ _ => eq_refl)).
  apply order_by_perm.
Qed.

(** X11: with the storage working, [get_category_statistics] returns one
    entry per category that occurs in [images], with the number of images
    of that category (never zero), entries with larger counts first, and
    the counts add up to the number of images; [get_language_statistics]
    does the same for the languages of [labels]. *)
Theorem group_statistics (w : World) :
  storage_fails w = None ->
  (exists rows,
     fst (get_category_statistics w) = Ok rows
     /\ grouped Sql.streq (map i_category (images (db w))) rows
     /\ StronglySorted (fun a b => snd b <= snd a) rows)
  /\ (exists rows,
        fst (get_language_statistics w) = Ok rows
        /\ grouped Sql.streq (map l_language (labels (db w))) rows
        /\ StronglySorted (fun a b => snd b <= snd a) rows).
Proof.
  intros F. rewrite get_category_statistics_run, get_language_statistics_run, F.
  cbn [fst]. split; eexists; (split; [reflexivity|]);
    (split; [apply group_count_grouped|apply by_count_desc_sorted]).
Qed.

Lemma group_statistics_witness :
  (exists rows,
     fst (get_category_statistics gallery_world) = Ok rows
     /\ grouped Sql.streq ["Animals"; "Nature"; "Animals"] rows
     /\ StronglySorted (fun a b => snd b <= snd a) rows)
  /\ (exists rows,
        fst (get_language_statistics gallery_world) = Ok rows
        /\ grouped Sql.streq ["en"; "hi"] rows
        /\ StronglySorted (fun a b => snd b <= snd a) rows).
Proof.
  apply (group_statistics gallery_world). vm_compute. reflexivity.
Defined.

Lemma sorted_le_lt (rows : list (Z * Z)) :
  StronglySorted (fun a b => fst a <= fst b) rows ->
  List.NoDup (map fst rows) ->
  StronglySorted (fun a b => fst a < fst b) rows.
Proof.
  induction 1 as [|a l Hs IH Ha]; cbn [map]; intros Hn; constructor;
    inversion Hn as [|x xs Hx Hxs]; subst.
  - apply IH. exact Hxs.
  - apply List.Forall_forall. intros b Hb.
    pose proof (proj1 (List.Forall_forall _ _) Ha b Hb) as Hle. cbn beta in Hle.
    assert (fst a <> fst b) by (intros E; apply Hx; rewrite E; apply in_map; exact Hb).
    lia.
Qed.

Lemma count_filter_length {A : Type} (p : A -> bool) (l : list A) :
  Sql.count p l <= Z.of_nat (List.length l).
Proof.
  unfold Sql.count. induction l as [|x l IH]; cbn [List.filter List.length]; [lia|].
  destruct (p x); cbn [List.length]; lia.
Qed.

Lemma days_before_cases (now days : Z) :
  (start_date_exists now days /\ days_before now days = Ok (now - days * day))
  \/ (~ start_date_exists now days /\ exists e, days_before now days = Raise e).
Proof.
  unfold days_before, start_date_exists.
  destruct ((days <? -999999999) || (999999999 <? days)) eqn:E1.
  - right. split; [|eexists; reflexivity].
    apply orb_true_iff in E1 as [E|E]; apply Z.ltb_lt in E; lia.
  - apply orb_false_iff in E1 as [E1 E2]. apply Z.ltb_ge in E1, E2.
    destruct ((now - days * day <? datetime_min) || (datetime_max <? now - days * day))
      eqn:E3.
    + right. split; [|eexists; reflexivity].
      apply orb_true_iff in E3 as [E|E]; apply Z.ltb_lt in E; lia.
    + apply orb_false_iff in E3 as [E3 E4]. apply Z.ltb_ge in E3, E4.
      left. split; [lia|reflexivity].
Qed.

(** X12: with the storage working and a start date that exists (a number
    of days of magnitude at most 999999999 that leads to a date in the
    years 1 to 9999), [get_activity_timeline] returns one entry per
    calendar day on which an image uploaded after the start date was
    uploaded, with the number of those images (days without uploads have
    no entry), in strictly ascending order of the day; the uploads add up
    to the number of images uploaded after the start date, which for
    [days = 7] is the [recent_images] of [get_statistics] taken at the
    same time.  When the start date does not exist, the timeline is
    empty. *)
Theorem upload_timeline (now days : Z) (w : World) :
  storage_fails w = None ->
  (start_date_exists now days ->
   exists rows,
     fst (get_activity_timeline now days w) = Ok rows
     /\ grouped Z.eqb
          (map (fun i => date_of (i_uploaded_at i))
               (List.filter (uploaded_since now days) (images (db w))))
          rows
     /\ StronglySorted (fun a b => fst a < fst b) rows
     /\ Sql.sum (map snd rows) = Sql.count (uploaded_since now days) (images (db w))
     /\ (days = 7 ->
         exists stats,
           fst (get_statistics now w) = Ok stats
           /\ dict_get "recent_images" stats = Some (PInt (Sql.sum (map snd rows)))))
  /\ (~ start_date_exists now days ->
      fst (get_activity_timeline now days w) = Ok []).
Proof.
  intros F. rewrite get_activity_timeline_run, F. cbn [fst].
  destruct (days_before_cases now days) as [[Hs ->]|[Hs (e & ->)]];
    (split; [|intros Hn]); try reflexivity; try contradiction.
  intros _.
  eexists. split; [reflexivity|].
  unfold activity_timeline. fold (uploaded_since now days).
  set (dates := map (fun i => date_of (i_uploaded_at i))
                    (List.filter (uploaded_since now days) (images (db w)))).
  set (rows := Sql.order_by _ _).
  assert (grouped Z.eqb dates rows) as G.
  { apply (grouped_rows Z.eqb Sql.distinctZ Z.eqb_eq eq_refl (fun _ _ => eq_refl)).
    apply order_by_perm. }
  assert (Sql.sum (map snd rows) = Sql.count (uploaded_since now days) (images (db w)))
    as S.
  { destruct G as (_ & _ & _ & ->). subst dates. rewrite length_map. reflexivity. }
  split; [exact G|]. split; [|split; [exact S|]].
  - apply sorted_le_lt; [|apply G].
    apply order_by_sorted; intros; lia.
  - intros ->. rewrite get_statistics_run, F. cbn [fst]. eexists.
    split; [reflexivity|]. rewrite S. reflexivity.
Qed.

(** Three days back on the sample data, and a number of days that no
    [timedelta] holds. *)
Lemma upload_timeline_witness :
  (exists rows,
      fst (get_activity_timeline (4 * day) 3 calendar_world) = Ok rows
      /\ grouped Z.eqb [3; 1; 1] rows
      /\ StronglySorted (fun a b => fst a < fst b) rows
      /\ Sql.sum (map snd rows) = 3)
  /\ fst (get_activity_timeline (4 * day) 1000000000 calendar_world) = Ok [].
Proof.
  split.
  - destruct (upload_timeline (4 * day) 3 calendar_world) as [H _];
      [vm_compute; reflexivity|].
    destruct H as (rows & E & G & S & T & _);
      [unfold start_date_exists, datetime_min, datetime_max, day; lia|].
    assert (map (fun i => date_of (i_uploaded_at i))
                (List.filter (uploaded_since (4 * day) 3) (images (db calendar_world)))
            = [3; 1; 1]) as K by (vm_compute; reflexivity).
    assert (Sql.count (uploaded_since (4 * day) 3) (images (db calendar_world)) = 3) as C
      by (vm_compute; reflexivity).
    rewrite K in G. rewrite C in T. exists rows. auto.
  - destruct (upload_timeline (4 * day) 1000000000 calendar_world) as [_ H];
      [vm_compute; reflexivity|].
    apply H. unfold start_date_exists. lia.
Defined.

(** ** Platform statistics *)

Lemma distinct_length (l : list string) :
  (List.length (Sql.distinct l) <= List.length l)%nat.
Proof.
  apply List.NoDup_incl_length; [apply distinct_NoDup|].
  intros x Hx. apply distinct_In. exact Hx.
Qed.

Lemma sum_counted (l : list ImageRow) :
  Z.of_nat (List.length (List.filter (fun i => 0 <? i_label_count i) l))
  <= Sql.sum (map i_label_count (List.filter (fun i => 0 <? i_label_count i) l)).
Proof.
  induction l as [|i l IH]; [cbn; lia|]. cbn [List.filter].
  destruct (0 <? i_label_count i) eqn:E; [|exact IH].
  apply Z.ltb_lt in E. cbn [List.length map]. unfold Sql.sum in *. cbn [foldr]. lia.
Qed.

(** X13: with the storage working, [get_statistics] returns all seven
    figures, and they are consistent with each other: the recent counts do
    not exceed the totals, the number of languages is between 0 and the
    number of labels, is 0 only when there is no label, and is the number
    of entries of [get_language_statistics]; the average is either 0 (no
    image has a positive label count) or a quotient [n / d] over the [d]
    images with a positive label count, with [d <= n], so it is never
    between 0 and 1; and [total_users] counts the active users, which in
    every reachable state are all the users. *)
Theorem statistics_bounds (now : Z) (w : World) :
  storage_fails w = None ->
  exists stats ti tl tu lu avg ri rl,
    fst (get_statistics now w) = Ok stats
    /\ dict_get "total_images" stats = Some (PInt ti)
    /\ dict_get "total_labels" stats = Some (PInt tl)
    /\ dict_get "total_users" stats = Some (PInt tu)
    /\ dict_get "languages_used" stats = Some (PInt lu)
    /\ dict_get "avg_labels_per_image" stats = Some avg
    /\ dict_get "recent_images" stats = Some (PInt ri)
    /\ dict_get "recent_labels" stats = Some (PInt rl)
    /\ ti = Z.of_nat (List.length (images (db w)))
    /\ tl = Z.of_nat (List.length (labels (db w)))
    /\ 0 <= ri <= ti /\ 0 <= rl <= tl
    /\ 0 <= lu <= tl /\ (lu = 0 <-> tl = 0)
    /\ (exists langs, fst (get_language_statistics w) = Ok langs
                      /\ lu = Z.of_nat (List.length langs))
    /\ 0 <= tu <= Z.of_nat (List.length (users (db w)))
    /\ (reachable w -> tu = Z.of_nat (List.length (users (db w))))
    /\ (avg = PInt 0 \/ exists n d, avg = PRatio n d /\ 0 < d <= ti /\ d <= n).
Proof.
  intros F. rewrite get_statistics_run, get_language_statistics_run, F. cbn [fst].
  unfold statistics.
  set (counted := List.filter (fun i => 0 <? i_label_count i) (images (db w))).
  eexists _, _, _, _, _, _, _, _.
  do 8 (split; [reflexivity|]).
  split; [reflexivity|]. split; [reflexivity|].
  split; [pose proof (count_filter_length (fun i => now - 7 * day <? i_uploaded_at i)
                                          (images (db w))); unfold Sql.count in *; lia|].
  split; [pose proof (count_filter_length (fun l => now - 7 * day <? l_added_at l)
                                          (labels (db w))); unfold Sql.count in *; lia|].
  split; [pose proof (distinct_length (map l_language (labels (db w)))) as H;
          rewrite length_map in H; lia|].
  split.
  { destruct (labels (db w)) as [|l ls]; cbn [map Sql.distinct List.length]; lia. }
  split.
  { eexists. split; [reflexivity|].
    rewrite (Permutation.Permutation_length (order_by_perm _ _)).
    unfold Sql.group_count. rewrite length_map. reflexivity. }
  split; [pose proof (count_filter_length u_is_active (users (db w)));
          unfold Sql.count in *; lia|].
  split.
  { intros R. unfold Sql.count. rewrite filter_all; [reflexivity|].
    intros u Hu. destruct (reachable_users w R) as [_ Hok].
    apply (proj1 (List.Forall_forall _ _) Hok u Hu). }
  pose proof (sum_counted (images (db w))) as S. fold counted in S.
  pose proof (count_filter_length (fun i => 0 <? i_label_count i) (images (db w))) as L.
  unfold Sql.count in L. fold counted in L.
  destruct counted as [|i l]; [left; reflexivity|right].
  eexists _, _. split; [reflexivity|]. cbn [List.length] in *. lia.
Qed.

Lemma statistics_bounds_witness :
  exists stats,
    fst (get_statistics 10 gallery_world) = Ok stats
    /\ dict_get "total_users" stats = Some (PInt 2)
    /\ dict_get "avg_labels_per_image" stats = Some (PRatio 2 1).
Proof.
  destruct (statistics_bounds 10 gallery_world)
    as (stats & ti & tl & tu & lu & avg & ri & rl & E & _); [vm_compute; reflexivity|].
  exists stats. split; [exact E|].
  vm_compute in E. injection E as <-. split; reflexivity.
Defined.

(** ** The workbook *)

Lemma join_matches (imgs : list ImageRow) (image_id : string) :
  List.NoDup (map i_id imgs) ->
  List.length (List.filter (fun i => Sql.streq image_id (i_id i)) imgs)
  = if existsb (fun i => Sql.streq (i_id i) image_id) imgs then 1%nat else 0%nat.
Proof.
  induction imgs as [|i l IH]; cbn [map List.filter existsb]; intros H; [reflexivity|].
  inversion H as [|x xs Hx Hxs]; subst. rewrite (streq_sym image_id (i_id i)).
  destruct (Sql.streq (i_id i) image_id) eqn:E; cbn [orb List.length];
    [|apply IH; exact Hxs].
  apply streq_eq in E. subst image_id. f_equal.
  rewrite (IH Hxs).
  destruct (existsb (fun i0 => Sql.streq (i_id i0) (i_id i)) l) eqn:X; [|reflexivity].
  exfalso. apply Hx. apply existsb_exists in X as (j & Hj & Ej).
  apply streq_eq in Ej. rewrite <- Ej. apply in_map. exact Hj.
Qed.

Lemma labels_with_title_rows (d : DB) :
  List.NoDup (map i_id (images d)) ->
  map fst (labels_with_title d)
  = List.filter (fun l => Sql.image_exists d (l_image_id l)) (labels d).
Proof.
  intros H. unfold labels_with_title, Sql.image_exists.
  induction (labels d) as [|l ls IH]; [reflexivity|].
  cbn [flat_map List.filter]. rewrite map_app, IH, map_map. cbn [fst].
  pose proof (join_matches (images d) (l_image_id l) H) as J.
  destruct (existsb _ (images d)).
  - destruct (List.filter _ (images d)) as [|i [|j r]]; try discriminate J. reflexivity.
  - destruct (List.filter _ (images d)) as [|i r]; try discriminate J. reflexivity.
Qed.

Lemma export_to_excel_book (excel_raises : writer_step -> bool) (now : Z) (w : World) :
  storage_fails w = None ->
  fst (export_to_excel excel_raises now w)
  = Ok (if existsb excel_raises (writer_steps now w) then None
        else Some (exported_book now w)).
Proof.
  intros F. unfold export_to_excel, try_except.
  rewrite (get_connection_works _ _ F).
  unfold writer_steps, exported_book.
  cbn [existsb sheet_users sheet_images sheet_labels sheet_statistics cdb].
  unfold bind at 1. rewrite write_cases.
  destruct (excel_raises OpenWriter); [reflexivity|].
  unfold bind at 1. rewrite write_cases.
  destruct (excel_raises (UsersSheet _)); [reflexivity|].
  unfold bind at 1. rewrite write_cases.
  destruct (excel_raises (ImagesSheet _)); [reflexivity|].
  unfold bind at 1. rewrite write_cases.
  destruct (excel_raises (LabelsSheet _)); [reflexivity|].
  rewrite (bind_ok _ _ _ _ _ (get_statistics_run now (next w))).
  unfold bind at 1. rewrite write_cases.
  change (db (next w)) with (db w).
  destruct (excel_raises (StatisticsSheet _)); [reflexivity|].
  unfold bind at 1. rewrite write_cases.
  destruct (excel_raises (CloseWriter _)); reflexivity.
Qed.

(** X14: with the storage working for its own connection,
    [export_to_excel] returns a workbook if the Excel writer raises on
    none of its steps, and nothing if it raises on one (a text that a cell
    cannot hold, a sheet with too many rows).  The Images sheet of the
    workbook has one row per image and its Users sheet one row per user,
    in table order; the Labels sheet pairs each label with the title of
    its image, so a label whose image does not exist is left out of the
    export; in a reachable state the sheet has exactly one row for each of
    the other labels, in table order.  The Statistics sheet holds the
    figures of [get_statistics], or no figure at all when the storage
    fails for the nested call. *)
Theorem export_contents (excel_raises : writer_step -> bool) (now : Z) (w : World) :
  storage_fails w = None ->
  (existsb excel_raises (writer_steps now w) = true ->
   fst (export_to_excel excel_raises now w) = Ok None)
  /\ (existsb excel_raises (writer_steps now w) = false ->
      exists book,
        fst (export_to_excel excel_raises now w) = Ok (Some book)
        /\ sheet_images book = images (db w)
        /\ map xu_username (sheet_users book) = map u_username (users (db w))
        /\ (forall l t, In (l, t) (sheet_labels book) <->
              In l (labels (db w))
              /\ exists i, In i (images (db w)) /\ i_id i = l_image_id l /\ i_title i = t)
        /\ (reachable w ->
            map fst (sheet_labels book)
            = List.filter (fun l => Sql.image_exists (db w) (l_image_id l))
                          (labels (db w)))
        /\ sheet_statistics book
           = match storage_fails (next w) with
             | Some _ => []
             | None => statistics now (db w)
             end).
Proof.
  intros F. rewrite (export_to_excel_book excel_raises now w F).
  split; intros ->; [reflexivity|].
  exists (exported_book now w). split; [reflexivity|].
  cbn [exported_book sheet_images sheet_users sheet_labels sheet_statistics].
  split; [reflexivity|]. split; [rewrite map_map; reflexivity|].
  split; [|split; [|reflexivity]].
  - intros l t. unfold labels_with_title. rewrite in_flat_map. split.
    + intros (l' & Hl & Hi). apply in_map_iff in Hi as (i & E & Hi).
      inversion E; subst. apply filter_In in Hi as [Hi Ei]. apply streq_eq in Ei.
      split; [exact Hl|]. exists i. auto.
    + intros (Hl & i & Hi & Ei & Et). exists l. split; [exact Hl|].
      apply in_map_iff. exists i. split; [rewrite Et; reflexivity|].
      apply filter_In. split; [exact Hi|]. apply streq_eq. symmetry. exact Ei.
  - intros R. apply labels_with_title_rows. apply reachable_image_ids. exact R.
Qed.

(** On the sample data with a label whose image does not exist: with a
    writer that works, and with one that refuses the Labels sheet. *)
Lemma export_contents_witness :
  (exists book,
      fst (export_to_excel writer_works 10 orphaned_world) = Ok (Some book)
      /\ List.length (labels (db orphaned_world)) = 3%nat
      /\ map (fun r => (l_text (fst r), snd r)) (sheet_labels book)
         = [("cat", "Cat"); ("billi", "Cat")])
  /\ fst (export_to_excel labels_sheet_refused 10 orphaned_world) = Ok None.
Proof.
  split.
  - destruct (export_contents writer_works 10 orphaned_world) as [_ H];
      [vm_compute; reflexivity|].
    destruct H as (book & E & _); [reflexivity|].
    exists book. split; [exact E|]. vm_compute in E. injection E as <-.
    split; reflexivity.
  - destruct (export_contents labels_sheet_refused 10 orphaned_world) as [H _];
      [vm_compute; reflexivity|].
    apply H. vm_compute. reflexivity.
Defined.

(** ** The leaderboard *)

Lemma gallery_world_reachable : reachable gallery_world.
Proof. exists [], [("uploads/cat.png", RegularFile)], gallery. reflexivity. Qed.

Lemma rank_monotone (acts : list ActivityRow) (u v : string) :
  Forall (fun a => 0 <= act_points_earned a) acts ->
  points_of acts u < points_of acts v ->
  rank_of acts v < rank_of acts u.
Proof.
  intros Hpos Hlt. rewrite !rank_of_counts.
  set (ids := Sql.distinct (map act_user_id acts)).
  set (above_u := List.filter (fun x => points_of acts u <? points_of acts x) ids).
  set (above_v := List.filter (fun x => points_of acts v <? points_of acts x) ids).
  assert (In v ids) as Hv.
  { destruct (more_points_has_activity acts v (points_of acts u)) as (a & Ha & Ea);
      [apply points_of_nonnegative; exact Hpos|exact Hlt|].
    apply distinct_In. rewrite <- Ea. apply in_map. exact Ha. }
  assert (List.NoDup (v :: above_v)) as Hnd.
  { constructor.
    - intros H. apply filter_In in H as [_ H]. apply Z.ltb_lt in H. lia.
    - apply filter_NoDup. apply distinct_NoDup. }
  assert (incl (v :: above_v) above_u) as Hincl.
  { intros x [<-|Hx]; apply filter_In.
    - split; [exact Hv|]. apply Z.ltb_lt. exact Hlt.
    - apply filter_In in Hx as [Hx Hp]. split; [exact Hx|].
      apply Z.ltb_lt in Hp. apply Z.ltb_lt. lia. }
  pose proof (List.NoDup_incl_length Hnd Hincl) as L. cbn [List.length] in L. lia.
Qed.

Lemma rank_equal (acts : list ActivityRow) (u v : string) :
  points_of acts u = points_of acts v -> rank_of acts u = rank_of acts v.
Proof. intros E. rewrite !rank_of_counts, E. reflexivity. Qed.

(** X15: the ranks of [get_user_stats] order the users by their points.
    In every reachable state, with the storage working, for any two user
    names: points are not negative, a rank is at least 1, the user with
    strictly more points has the strictly better (smaller) rank and
    conversely, and users with equal points share their rank. *)
Theorem leaderboard_order (u v : string) (w : World) :
  reachable w ->
  storage_fails w = None ->
  exists su sv pu pv ru rv,
    fst (get_user_stats u w) = Ok su
    /\ fst (get_user_stats v w) = Ok sv
    /\ dict_get "total_points" su = Some pu
    /\ dict_get "user_rank" su = Some ru
    /\ dict_get "total_points" sv = Some pv
    /\ dict_get "user_rank" sv = Some rv
    /\ 0 <= pu /\ 1 <= ru
    /\ (rv < ru <-> pu < pv)
    /\ (pu = pv -> ru = rv).
Proof.
  intros R F. rewrite !get_user_stats_run, F. cbn [fst].
  eexists _, _, _, _, _, _. do 6 (split; [reflexivity|]).
  pose proof (reachable_nonnegative w R) as Hpos. unfold ledger_nonnegative in Hpos.
  set (acts := user_activities (db w)) in *.
  split; [apply points_of_nonnegative; exact Hpos|].
  split; [rewrite rank_of_counts; lia|].
  split; [|apply rank_equal].
  split; [|apply rank_monotone; exact Hpos].
  intros Hr.
  destruct (Z.lt_trichotomy (points_of acts u) (points_of acts v)) as [H|[H|H]];
    [exact H| |].
  - apply rank_equal in H. lia.
  - apply (rank_monotone acts v u Hpos) in H. lia.
Qed.

Lemma leaderboard_order_witness :
  exists su sv,
    fst (get_user_stats "bob" gallery_world) = Ok su
    /\ fst (get_user_stats "alice123" gallery_world) = Ok sv
    /\ dict_get "user_rank" su = Some 2
    /\ dict_get "user_rank" sv = Some 1.
Proof.
  destruct (leaderboard_order "bob" "alice123" gallery_world)
    as (su & sv & pu & pv & ru & rv & Eu & Ev & _);
    [exact gallery_world_reachable|vm_compute; reflexivity|].
  exists su, sv. split; [exact Eu|]. split; [exact Ev|].
  vm_compute in Eu, Ev. injection Eu as <-. injection Ev as <-. split; reflexivity.
Defined.

(** ** Points for labels *)

Lemma log_event_faults (event_type : string) (user_id : option string)
    (metadata : option (list (string * jval))) (w : World) :
  faults (snd (log_event event_type user_id metadata w)) = tl (faults w).
Proof.
  unfold log_event, try_except, get_connection, commit, ret.
  destruct (storage_fails w); reflexivity.
Qed.

Lemma record_user_activity_run (user_id activity_type description : string)
    (points : Z) (w : World) :
  exists w',
    _record_user_activity user_id activity_type description points w = (Ok tt, w')
    /\ faults w' = tl (faults w)
    /\ user_activities (db w')
       = match storage_fails w with
         | Some _ => user_activities (db w)
         | None => (user_activities (db w)
                    ++ [mkActivity user_id activity_type description points])%list
         end.
Proof.
  unfold _record_user_activity, try_except, get_connection, bind, execute, commit, ret.
  destruct (storage_fails w); eexists; repeat split; reflexivity.
Qed.

(** The ledger and the pending failures after an [add_label] whose own
    connection works: it opens three connections, and the third one
    writes the ledger. *)
Lemma add_label_ledger (now : Z) (image_id text language added_by : string) (w : World) :
  storage_fails w = None ->
  let w' := snd (add_label now image_id text language added_by w) in
  faults w' = tl (tl (tl (faults w)))
  /\ user_activities (db w')
     = match storage_fails (next (next w)) with
       | Some _ => user_activities (db w)
       | None => (user_activities (db w)
                  ++ [mkActivity added_by "label_add"
                        ("Added label: " ++ Py.take 50 text ++ "...") 5])%list
       end.
Proof.
  intros F. unfold add_label, try_except. rewrite (get_connection_works _ _ F).
  run_service. cbn [Sql.insert_or_replace_label foreign_keys andb].
  match goal with
  | |- context [log_event ?e ?u ?m ?w0] =>
      pose proof (log_event_faults e u m w0) as LF;
      destruct (log_event_frame e u m w0) as (w1 & L1 & _ & A1 & _);
      rewrite L1 in LF |- *; cbn [snd] in LF; cbv beta iota
  end.
  match goal with
  | |- context [_record_user_activity ?a ?b ?c ?p ?w0] =>
      destruct (record_user_activity_run a b c p w0) as (w2 & L2 & F2 & A2);
      rewrite L2; cbv beta iota
  end.
  cbn [snd]. split.
  - rewrite F2, LF. reflexivity.
  - rewrite A2. unfold storage_fails. rewrite LF. cbn [next set_faults faults].
    rewrite A1. reflexivity.
Qed.

Lemma points_of_app (acts : list ActivityRow) (a : ActivityRow) (u : string) :
  points_of (acts ++ [a]) u
  = points_of acts u + (if Sql.streq (act_user_id a) u then act_points_earned a else 0).
Proof.
  unfold points_of. rewrite List.filter_app, map_app. cbn [List.filter].
  assert (forall l l', Sql.sum (l ++ l') = Sql.sum l + Sql.sum l') as S.
  { induction l as [|x l IH]; intros l'; unfold Sql.sum in *; cbn [app foldr];
      [lia|rewrite IH; lia]. }
  rewrite S. destruct (Sql.streq (act_user_id a) u); cbn; lia.
Qed.

(** X16: the 5 points of a label are given for the call, not for the
    label.  An AddLabel that succeeds credits 5 points to the name it was
    given as contributor, and to nobody else, when the storage works for
    the third connection it opens, and no points when it does not (the
    label is stored either way).  The points are credited also when the
    call only replaces a label: with the storage working, repeating a call
    leaves the number of labels as it was after the first call and gives
    the contributor 10 points. *)
Theorem label_points (now : Z) (image_id text language added_by : string) (w : World) :
  let w1 := snd (add_label now image_id text language added_by w) in
  fst (add_label now image_id text language added_by w) = Ok true ->
  (storage_fails (next (next w)) = None ->
   points_of (user_activities (db w1)) added_by
   = points_of (user_activities (db w)) added_by + 5
   /\ forall u, u <> added_by ->
        points_of (user_activities (db w1)) u = points_of (user_activities (db w)) u)
  /\ (storage_fails (next (next w)) <> None ->
      user_activities (db w1) = user_activities (db w))
  /\ (faults w = [] ->
      forall now',
        let w2 := snd (add_label now' image_id text language added_by w1) in
        fst (add_label now' image_id text language added_by w1) = Ok true
        /\ List.length (labels (db w2)) = List.length (labels (db w1))
        /\ points_of (user_activities (db w2)) added_by
           = points_of (user_activities (db w)) added_by + 10).
Proof.
  intros w1 Hok.
  assert (storage_fails w = None) as F.
  { destruct (add_label_cases now image_id text language added_by w)
      as [(msg & _ & E) | (F & _)]; [|exact F].
    rewrite E in Hok. discriminate Hok. }
  destruct (add_label_ledger now image_id text language added_by w F) as [Hf Ha].
  fold w1 in Hf, Ha.
  split; [|split].
  - intros F2. rewrite F2 in Ha. rewrite Ha. split.
    + rewrite points_of_app. cbn [act_user_id act_points_earned].
      rewrite streq_refl. reflexivity.
    + intros u Hu. rewrite points_of_app. cbn [act_user_id act_points_earned].
      assert (Sql.streq added_by u = false) as -> by (apply streq_neq; congruence).
      lia.
  - intros F2. destruct (storage_fails (next (next w))); [exact Ha|congruence].
  - intros Hnil now' w2.
    assert (faults w1 = []) as Hf1 by (rewrite Hf, Hnil; reflexivity).
    assert (storage_fails w1 = None) as F1 by (unfold storage_fails; rewrite Hf1; reflexivity).
    destruct (add_label_ledger now' image_id text language added_by w1 F1) as [_ Ha2].
    fold w2 in Ha2.
    assert (storage_fails (next (next w)) = None) as E1
      by (unfold storage_fails, next; cbn [faults set_faults]; rewrite Hnil; reflexivity).
    assert (storage_fails (next (next w1)) = None) as E2
      by (unfold storage_fails, next; cbn [faults set_faults]; rewrite Hf1; reflexivity).
    rewrite E1 in Ha. rewrite E2 in Ha2.
    destruct (add_label_cases now image_id text language added_by w)
      as [(msg & Fm & _) | (_ & w1' & E & (_ & _ & L & _) & _)]; [congruence|].
    destruct (add_label_cases now' image_id text language added_by w1)
      as [(msg & Fm & _) | (_ & w2' & E' & (_ & _ & L' & _) & _)]; [congruence|].
    split; [rewrite E'; reflexivity|]. split.
    + subst w2. rewrite E'. cbn [snd]. rewrite L'.
      assert (labels (db w1) = labels (labelled (db w) now image_id text language added_by))
        as Lw1 by (subst w1; rewrite E; exact L).
      rewrite (labelled_labels (db w1)), length_app. cbn [List.length].
      pose proof (filter_partition_length (Sql.same_key image_id text language)
                    (labels (db w1))) as P.
      rewrite Lw1 in P at 1. rewrite labelled_replaces in P. cbn [List.length] in P. lia.
    + rewrite Ha2, Ha, !points_of_app. cbn [act_user_id act_points_earned].
      rewrite streq_refl. lia.
Qed.

Lemma label_points_witness :
  points_of (user_activities
               (db (snd (add_label 8 "img-1" "cat" "en" "alice123" scenario_world))))
            "alice123"
  = points_of (user_activities (db scenario_world)) "alice123" + 5
  /\ points_of (user_activities (db scenario_world)) "alice123" = 20.
Proof.
  pose proof (label_points 8 "img-1" "cat" "en" "alice123" scenario_world) as H.
  cbv zeta in H. destruct H as (H & _); [vm_compute; reflexivity|].
  split; [|vm_compute; reflexivity].
  apply H. vm_compute. reflexivity.
Defined.

Lemma unique_key_filter (rows : list LabelRow) (old : LabelRow)
    (image_id text language : string) :
  List.NoDup (map label_key rows) ->
  In old rows ->
  label_key old = (image_id, text, language) ->
  List.filter (Sql.same_key image_id text language) rows = [old].
Proof.
  intros Hnd Hin Hk. induction rows as [|l ls IH]; [destruct Hin|].
  cbn [map] in Hnd. inversion Hnd as [|x xs Hx Hxs]; subst.
  assert (forall l', In l' ls -> label_key l' <> label_key l) as Hother.
  { intros l' Hl' E. apply Hx. rewrite <- E. apply in_map. exact Hl'. }
  cbn [List.filter]. destruct Hin as [->|Hin].
  - rewrite (proj2 (same_key_iff image_id text language old) Hk). f_equal.
    apply filter_nil_existsb. apply not_true_is_false. intros X.
    apply existsb_exists in X as (l' & Hl' & K). apply same_key_iff in K.
    apply (Hother l' Hl'). congruence.
  - destruct (Sql.same_key image_id text language l) eqn:K.
    + apply same_key_iff in K. exfalso. apply (Hother old Hin). congruence.
    + apply IH; assumption.
Qed.

Lemma filter_split_length {A : Type} (p q : A -> bool) (l : list A) :
  (List.length (List.filter p l)
   = List.length (List.filter p (List.filter q l))
     + List.length (List.filter p (List.filter (fun x => negb (q x)) l)))%nat.
Proof.
  induction l as [|x l IH]; [reflexivity|]. cbn [List.filter].
  destruct (q x), (p x) eqn:P; cbn [negb List.filter List.length]; rewrite ?P;
    cbn [List.length]; lia.
Qed.

(** X17: a label belongs to the last contributor who submitted its
    triple.  In a reachable state, an AddLabel that succeeds on the triple
    (image, text, language) of a stored label of another contributor
    removes that row: the number of labels stays the same, the previous
    contributor's [labels_added] goes down by one and the new
    contributor's goes up by one, while the previous contributor keeps
    the points earned; on a triple that is not stored the table grows by
    one row.  ([labels_added] is the figure of that name in
    [get_user_stats].) *)
Theorem relabel_moves_label (now : Z) (image_id text language added_by : string)
    (w : World) :
  let w1 := snd (add_label now image_id text language added_by w) in
  reachable w ->
  fst (add_label now image_id text language added_by w) = Ok true ->
  (forall old,
     In old (labels (db w)) ->
     label_key old = (image_id, text, language) ->
     l_added_by old <> added_by ->
     ~ In old (labels (db w1))
     /\ List.length (labels (db w1)) = List.length (labels (db w))
     /\ labels_added (db w1) (l_added_by old) = labels_added (db w) (l_added_by old) - 1
     /\ labels_added (db w1) added_by = labels_added (db w) added_by + 1
     /\ points_of (user_activities (db w1)) (l_added_by old)
        = points_of (user_activities (db w)) (l_added_by old))
  /\ ((forall l, In l (labels (db w)) -> label_key l <> (image_id, text, language)) ->
      List.length (labels (db w1)) = S (List.length (labels (db w)))
      /\ labels_added (db w1) added_by = labels_added (db w) added_by + 1)
  /\ (forall u, storage_fails w1 = None ->
        exists stats, fst (get_user_stats u w1) = Ok stats
                      /\ dict_get "labels_added" stats = Some (labels_added (db w1) u)).
Proof.
  intros w1 R Hok.
  destruct (add_label_cases now image_id text language added_by w)
    as [(msg & _ & E) | (F & w' & E & (_ & _ & L & _) & _)];
    [rewrite E in Hok; discriminate Hok|].
  assert (labels (db w1)
          = (List.filter (fun l => negb (Sql.same_key image_id text language l))
                         (labels (db w))
             ++ [new_label (db w) now image_id text language added_by])%list) as Lw1
    by (subst w1; rewrite E; cbn [snd]; rewrite L; apply labelled_labels).
  pose proof (reachable_unique w R) as U. unfold unique_label_keys in U.
  assert (forall u, labels_added (db w1) u
                    = Z.of_nat (List.length
                        (List.filter (fun l => Sql.streq (l_added_by l) u)
                           (List.filter (fun l => negb (Sql.same_key image_id text language l))
                                        (labels (db w)))))
                      + (if Sql.streq added_by u then 1 else 0)) as Hadded.
  { intros u. unfold labels_added. rewrite Lw1, List.filter_app, length_app.
    cbn [List.filter new_label l_added_by].
    destruct (Sql.streq added_by u); cbn [List.length]; lia. }
  split; [|split].
  - intros old Hin Hk Hne.
    pose proof (unique_key_filter _ old image_id text language U Hin Hk) as Hone.
    pose proof (filter_partition_length (Sql.same_key image_id text language)
                  (labels (db w))) as P.
    rewrite Hone in P. cbn [List.length] in P.
    assert (forall u, labels_added (db w) u
                      = (if Sql.streq (l_added_by old) u then 1 else 0)
                        + Z.of_nat (List.length
                            (List.filter (fun l => Sql.streq (l_added_by l) u)
                               (List.filter
                                  (fun l => negb (Sql.same_key image_id text language l))
                                  (labels (db w)))))) as Hbefore.
    { intros u. unfold labels_added.
      rewrite (filter_split_length (fun l => Sql.streq (l_added_by l) u)
                 (Sql.same_key image_id text language) (labels (db w))), Hone.
      cbn [List.filter]. destruct (Sql.streq (l_added_by old) u); cbn [List.length]; lia. }
    split; [|split; [|split; [|split]]].
    + rewrite Lw1, in_app_iff, filter_In.
      rewrite (proj2 (same_key_iff image_id text language old) Hk).
      intros [[_ H]|[H|[]]]; [discriminate H|].
      apply Hne. rewrite <- H. reflexivity.
    + rewrite Lw1, length_app. cbn [List.length]. lia.
    + rewrite Hadded, Hbefore, streq_refl.
      assert (Sql.streq added_by (l_added_by old) = false) as ->
        by (apply streq_neq; congruence).
      lia.
    + rewrite Hadded, Hbefore, streq_refl.
      assert (Sql.streq (l_added_by old) added_by = false) as ->
        by (apply streq_neq; exact Hne).
      lia.
    + destruct (add_label_ledger now image_id text language added_by w F) as [_ Ha].
      fold w1 in Ha. rewrite Ha.
      destruct (storage_fails (next (next w))); [reflexivity|].
      rewrite points_of_app. cbn [act_user_id act_points_earned].
      assert (Sql.streq added_by (l_added_by old) = false) as ->
        by (apply streq_neq; congruence).
      lia.
  - intros Hnew.
    assert (List.filter (fun l => negb (Sql.same_key image_id text language l))
                        (labels (db w)) = labels (db w)) as Hall.
    { apply filter_all. intros l Hl. apply negb_true_iff, not_true_is_false.
      intros K. apply same_key_iff in K. exact (Hnew l Hl K). }
    split.
    + rewrite Lw1, Hall, length_app. cbn [List.length]. lia.
    + rewrite Hadded, Hall, streq_refl. unfold labels_added. lia.
  - intros u F1. rewrite get_user_stats_run, F1. eexists. split; reflexivity.
Qed.

Lemma relabel_moves_label_witness :
  let w1 := snd (add_label 8 "img-1" "cat" "en" "bob" scenario_world) in
  List.length (labels (db w1)) = List.length (labels (db scenario_world))
  /\ labels_added (db w1) "alice123" = labels_added (db scenario_world) "alice123" - 1
  /\ labels_added (db scenario_world) "alice123" = 2.
Proof.
  pose proof (relabel_moves_label 8 "img-1" "cat" "en" "bob" scenario_world) as H.
  cbv zeta in H |- *.
  destruct H as (H & _); [exact scenario_world_reachable|vm_compute; reflexivity|].
  assert (existsb (fun l => Sql.same_key "img-1" "cat" "en" l
                            && Sql.streq (l_added_by l) "alice123")
                  (labels (db scenario_world)) = true) as X by (vm_compute; reflexivity).
  apply existsb_exists in X as (old & Hin & K). apply andb_true_iff in K as [K B].
  apply same_key_iff in K. apply streq_eq in B.
  destruct (H old Hin K) as (_ & Hlen & Hprev & _).
  - rewrite B. discriminate.
  - rewrite B in Hprev. split; [exact Hlen|]. split; [exact Hprev|].
    vm_compute. reflexivity.
Defined.

(** ** Nothing is deleted *)

Section Kept.
Context {A : Type} (same : A -> A -> Prop).
Hypothesis same_refl : forall a, same a a.
Hypothesis same_trans : forall a b c, same a b -> same b c -> same a c.

Lemma Forall2_same_refl (l : list A) : Forall2 same l l.
Proof. induction l; constructor; auto. Qed.

Lemma Forall2_same_trans (l1 l2 l3 : list A) :
  Forall2 same l1 l2 -> Forall2 same l2 l3 -> Forall2 same l1 l3.
Proof.
  intros H. revert l3. induction H as [|a b l l' Hab _ IH]; intros l3 H3;
    inversion H3; subst; constructor; eauto.
Qed.

Lemma kept_rows (rows rows' : list A) : Forall2 same rows rows' -> kept same rows rows'.
Proof. intros H. exists rows', []. rewrite app_nil_r. auto. Qed.

Lemma kept_same (rows rows' : list A) : rows' = rows -> kept same rows rows'.
Proof. intros ->. apply kept_rows, Forall2_same_refl. Qed.

Lemma kept_app (rows rows' more : list A) :
  rows' = (rows ++ more)%list -> kept same rows rows'.
Proof. intros ->. exists rows, more. split; [reflexivity|apply Forall2_same_refl]. Qed.

Lemma kept_trans (r1 r2 r3 : list A) :
  kept same r1 r2 -> kept same r2 r3 -> kept same r1 r3.
Proof.
  intros (o1 & m1 & -> & H1) (o2 & m2 & -> & H2).
  apply Forall2_app_inv_l in H2 as (o2a & o2b & Ha & Hb & ->).
  exists o2a, (o2b ++ m2)%list. rewrite app_assoc. split; [reflexivity|].
  apply (Forall2_same_trans _ _ _ H1 Ha).
Qed.

Lemma kept_In (rows rows' : list A) (a : A) :
  kept same rows rows' -> In a rows -> exists a', In a' rows' /\ same a a'.
Proof.
  intros (old & more & -> & H) Ha. revert Ha.
  induction H as [|x y l l' Hxy _ IH]; intros Ha; [destruct Ha|].
  destruct Ha as [<-|Ha].
  - exists y. split; [left; reflexivity|exact Hxy].
  - destruct (IH Ha) as (a' & Ha' & S). exists a'. split; [right; exact Ha'|exact S].
Qed.
End Kept.

Lemma same_account_refl (u : UserRow) : same_account u u.
Proof. unfold same_account. repeat split. Qed.

Lemma same_account_trans (a b c : UserRow) :
  same_account a b -> same_account b c -> same_account a c.
Proof.
  unfold same_account.
  intros (A1 & A2 & A3 & A4 & A5 & A6 & A7 & A8 & A9)
         (B1 & B2 & B3 & B4 & B5 & B6 & B7 & B8 & B9).
  repeat split; congruence.
Qed.

Lemma same_image_refl (i : ImageRow) : same_image i i.
Proof. reflexivity. Qed.

Lemma same_image_trans (a b c : ImageRow) :
  same_image a b -> same_image b c -> same_image a c.
Proof. unfold same_image. congruence. Qed.

Lemma credited_positive (points : Z) (acts acts' : list ActivityRow) :
  0 < points ->
  credited points acts acts' ->
  exists more, acts' = (acts ++ more)%list
               /\ Forall (fun a => 0 < act_points_earned a) more.
Proof.
  intros Hp [->|(u & t & d & ->)].
  - exists []. rewrite app_nil_r. split; [reflexivity|constructor].
  - eexists. split; [reflexivity|]. constructor; [exact Hp|constructor].
Qed.

Lemma grows_from_trans (d1 d2 d3 : DB) :
  grows_from d1 d2 -> grows_from d2 d3 -> grows_from d1 d3.
Proof.
  intros (U1 & I1 & m1 & E1 & P1) (U2 & I2 & m2 & E2 & P2). split; [|split].
  - exact (kept_trans same_account same_account_trans _ _ _ U1 U2).
  - exact (kept_trans same_image same_image_trans _ _ _ I1 I2).
  - exists (m1 ++ m2)%list. rewrite E2, E1, app_assoc. split; [reflexivity|].
    apply Forall_app. auto.
Qed.

Lemma after_grows (c : call) (w : World) : grows_from (db w) (db (after c w)).
Proof.
  split; [|split].
  - assert (forall d : DB, users d = users (db w) -> kept same_account (users (db w)) (users d))
      as Same by (intros d E; apply (kept_same _ same_account_refl); exact E).
    destruct c; cbn [after].
    + pose proof (create_user_outcome now username password kwargs w) as O.
      remember (create_user now username password kwargs w) as res eqn:R. clear R.
      destruct O as [| | | | | | | w' V F K X U]; cbn [snd]; try (apply Same; reflexivity).
      apply (kept_app _ same_account_refl _ _ _ U).
    + destruct (authenticate_user_cases now username password w)
        as [[E _] | (_ & _ & _ & U & _)]; [rewrite E; apply Same; reflexivity|].
      rewrite U. apply kept_rows.
      eapply List.Forall2_impl; [|exact (update_last_login_rows (db w) now username)].
      intros u u' [S _]. exact S.
    + destruct (add_image_frame now image_id title description category image_path
                  uploaded_by kwargs w) as (_ & _ & U).
      apply Same. exact U.
    + destruct (add_label_cases now image_id text language added_by w)
        as [(msg & _ & E) | (_ & w' & E & (U & _) & _)]; rewrite E; apply Same;
        [reflexivity|exact U].
    + rewrite get_images_run. apply Same. reflexivity.
    + rewrite get_image_labels_run. apply Same. reflexivity.
    + rewrite get_statistics_run. apply Same. reflexivity.
    + rewrite get_user_stats_run. apply Same. reflexivity.
    + rewrite get_category_statistics_run. apply Same. reflexivity.
    + rewrite get_language_statistics_run. apply Same. reflexivity.
    + rewrite get_activity_timeline_run. apply Same. reflexivity.
    + destruct (export_to_excel_frame excel_raises now w) as (x & w' & E & D & _). rewrite E.
      cbn [snd]. rewrite D. apply Same. reflexivity.
    + destruct (create_images_zip_frame w) as (x & E). rewrite E. apply Same. reflexivity.
  - assert (forall d : DB, images d = images (db w) -> kept same_image (images (db w)) (images d))
      as Same by (intros d E; apply (kept_same _ same_image_refl); exact E).
    destruct c; cbn [after].
    + apply Same. apply (create_user_frame now username password kwargs w).
    + destruct (authenticate_user_cases now username password w)
        as [[E _] | (_ & _ & _ & _ & I & _)]; [rewrite E|]; apply Same; auto.
    + destruct (add_image_cases now image_id title description category image_path
                  uploaded_by kwargs w)
        as [(e & E & _) | (_ & X & w' & E & I & _)]; rewrite E; cbn [snd];
        [apply Same; reflexivity|].
      apply (kept_app _ same_image_refl _ _ _ I).
    + destruct (add_label_cases now image_id text language added_by w)
        as [(msg & _ & E) | (_ & w' & E & (_ & I & _) & _)]; rewrite E; cbn [snd];
        [apply Same; reflexivity|].
      rewrite I. apply kept_rows, labelled_image_rows.
    + rewrite get_images_run. apply Same. reflexivity.
    + rewrite get_image_labels_run. apply Same. reflexivity.
    + rewrite get_statistics_run. apply Same. reflexivity.
    + rewrite get_user_stats_run. apply Same. reflexivity.
    + rewrite get_category_statistics_run. apply Same. reflexivity.
    + rewrite get_language_statistics_run. apply Same. reflexivity.
    + rewrite get_activity_timeline_run. apply Same. reflexivity.
    + destruct (export_to_excel_frame excel_raises now w) as (x & w' & E & D & _). rewrite E.
      cbn [snd]. rewrite D. apply Same. reflexivity.
    + destruct (create_images_zip_frame w) as (x & E). rewrite E. apply Same. reflexivity.
  - destruct (after_ledger c w) as [H|H]; eapply credited_positive; try exact H; lia.
Qed.

Lemma points_of_more (acts more : list ActivityRow) (u : string) :
  Forall (fun a => 0 < act_points_earned a) more ->
  points_of acts u <= points_of (acts ++ more) u.
Proof.
  intros H.
  assert (points_of (acts ++ more) u = points_of acts u + points_of more u) as ->.
  { unfold points_of. rewrite List.filter_app, map_app.
    induction (map act_points_earned (List.filter _ acts)) as [|x l IH];
      unfold Sql.sum in *; cbn [app foldr]; lia. }
  assert (0 <= points_of more u); [|lia].
  apply points_of_nonnegative. eapply List.Forall_impl; [|exact H].
  cbn beta. intros a Ha. lia.
Qed.

(** X18: the service never deletes.  Along every run of calls, from any
    state: each stored user is still stored afterwards, changed in
    [last_login] at most, each stored image is still stored, changed in
    [label_count] at most, both tables keep their order and only get new
    rows at the end, the ledger is only extended, and so no user's points
    ever go down. *)
Theorem nothing_is_deleted (calls : list call) (w : World) :
  grows_from (db w) (db (run calls w))
  /\ (forall u, In u (users (db w)) ->
        exists u', In u' (users (db (run calls w))) /\ same_account u u')
  /\ (forall i, In i (images (db w)) ->
        exists i', In i' (images (db (run calls w))) /\ same_image i i')
  /\ (forall u, points_of (user_activities (db w)) u
                <= points_of (user_activities (db (run calls w))) u).
Proof.
  assert (grows_from (db w) (db (run calls w))) as G.
  { revert w. induction calls as [|c cs IH]; intros w.
    - cbn. split; [|split].
      + apply (kept_same _ same_account_refl). reflexivity.
      + apply (kept_same _ same_image_refl). reflexivity.
      + exists []. rewrite app_nil_r. split; [reflexivity|constructor].
    - change (run (c :: cs) w) with (run cs (after c w)).
      exact (grows_from_trans _ _ _ (after_grows c w) (IH (after c w))). }
  split; [exact G|]. destruct G as (U & I & more & E & P).
  split; [|split].
  - intros u Hu. exact (kept_In _ _ _ u U Hu).
  - intros i Hi. exact (kept_In _ _ _ i I Hi).
  - intros u. rewrite E. apply points_of_more. exact P.
Qed.

Lemma nothing_is_deleted_witness :
  points_of (user_activities (db scenario_world)) "alice123"
  <= points_of (user_activities (db (run labelling scenario_world))) "alice123".
Proof.
  exact (proj2 (proj2 (proj2 (nothing_is_deleted labelling scenario_world))) "alice123").
Defined.

(** ** The translation table *)

Lemma stored_add_translation (T : gmap string (gmap string string))
    (language key value l k : string) :
  stored (add_translation T language key value) l k
  = if decide (l = language /\ k = key) then Some value else stored T l k.
Proof.
  unfold stored, add_translation.
  destruct (decide (l = language)) as [->|Hl].
  - rewrite lookup_insert_eq.
    destruct (decide (k = key)) as [->|Hk].
    + rewrite lookup_insert_eq. rewrite decide_True by auto. reflexivity.
    + rewrite lookup_insert_ne by congruence.
      rewrite decide_False by (intros [_ H]; congruence).
      destruct (T !! language) as [d|] eqn:E.
      * rewrite E. reflexivity.
      * rewrite lookup_insert_eq. cbn [from_option id]. rewrite lookup_empty. reflexivity.
  - rewrite lookup_insert_ne by congruence.
    rewrite decide_False by (intros [H _]; congruence).
    destruct (T !! language) as [d|] eqn:E; [reflexivity|].
    rewrite lookup_insert_ne by congruence. reflexivity.
Qed.

(** [get_translation] depends on the table only through what is stored
    for the key in the language and in English. *)
Lemma get_translation_stored (T : gmap string (gmap string string))
    (key language : string) (default_ : option string) :
  Translations.get_translation T key language default_
  = match stored T language key with
    | Some s => s
    | None => match stored T "en" key with
              | Some s => s
              | None => Py.or_else default_ (humanized key)
              end
    end.
Proof.
  unfold Translations.get_translation, Translations.has_key, Translations.item, stored,
    humanized.
  destruct (T !! language) as [d|]; [destruct (d !! key) as [s|] eqn:K|].
  - rewrite bool_decide_eq_true_2 by eauto. cbn [from_option id]. rewrite K. reflexivity.
  - rewrite bool_decide_eq_false_2 by (intros [x Hx]; congruence).
    destruct (T !! "en") as [e|]; cbn [from_option id]; [destruct (e !! key) as [s|] eqn:Ke|].
    + rewrite bool_decide_eq_true_2 by eauto. rewrite ?Ke. reflexivity.
    + rewrite bool_decide_eq_false_2 by (intros [x Hx]; congruence). reflexivity.
    + rewrite lookup_empty.
      rewrite bool_decide_eq_false_2 by (intros [x Hx]; congruence). reflexivity.
  - destruct (T !! "en") as [e|]; cbn [from_option id]; [destruct (e !! key) as [s|] eqn:Ke|].
    + rewrite bool_decide_eq_true_2 by eauto. rewrite ?Ke. reflexivity.
    + rewrite bool_decide_eq_false_2 by (intros [x Hx]; congruence). reflexivity.
    + rewrite lookup_empty.
      rewrite bool_decide_eq_false_2 by (intros [x Hx]; congruence). reflexivity.
Qed.

(** X19: [add_translation] followed by [get_translation].  After
    [add_translation(language, key, value)] the lookup of [key] in
    [language] returns [value], whatever the default and whether or not
    the language had a table before; no other key is affected in any
    language; for a language other than English no other language is
    affected, while a string added to the English table becomes the
    result for the key in every language that stores nothing for it. *)
Theorem add_then_get_translation (T : gmap string (gmap string string))
    (language key value : string) :
  let T' := add_translation T language key value in
  (forall d, Translations.get_translation T' key language d = value)
  /\ (forall k l d, k <> key ->
        Translations.get_translation T' k l d = Translations.get_translation T k l d)
  /\ (language <> "en" ->
      forall l d, l <> language ->
        Translations.get_translation T' key l d = Translations.get_translation T key l d)
  /\ (language = "en" ->
      forall l d, stored T l key = None -> Translations.get_translation T' key l d = value).
Proof.
  intros T'. subst T'. split; [|split; [|split]].
  - intros d. rewrite get_translation_stored, stored_add_translation.
    rewrite decide_True by auto. reflexivity.
  - intros k l d Hk. rewrite !get_translation_stored, !stored_add_translation.
    rewrite !decide_False by (intros [_ H]; congruence). reflexivity.
  - intros Hen l d Hl. rewrite !get_translation_stored, !stored_add_translation.
    rewrite decide_False by (intros [H _]; congruence).
    rewrite decide_False by (intros [H _]; congruence). reflexivity.
  - intros -> l d Hs. rewrite get_translation_stored, !stored_add_translation.
    destruct (decide (l = "en" /\ key = key)); [reflexivity|]. rewrite Hs.
    rewrite decide_True by auto. reflexivity.
Qed.

Lemma add_then_get_translation_witness :
  Translations.get_translation
    (add_translation sample_translations "en" "upload" "Upload") "upload" "hi" None
  = "Upload"
  /\ Translations.get_translation sample_translations "upload" "hi" None = "Upload".
Proof.
  pose proof (add_then_get_translation sample_translations "en" "upload" "Upload") as H.
  cbv zeta in H. destruct H as (_ & _ & _ & H).
  split; [|vm_compute; reflexivity].
  apply H; [reflexivity|]. vm_compute. reflexivity.
Defined.

(** X20: [get_all_translations] does not merge.  On a table with an
    English part it returns the language's own table when the language
    has one, and the English table otherwise; it raises [KeyError] exactly
    when the table has no English part, whatever the language.  Every
    entry of the result is what [get_translation] returns for that key
    and language, but a key that only the English table holds is resolved
    by [get_translation] and absent from the result for a language with
    its own table.  [add_translation] never removes the English part. *)
Theorem all_translations (T : gmap string (gmap string string)) (language : string) :
  (get_all_translations T language = None <-> T !! "en" = None)
  /\ (forall en, T !! "en" = Some en ->
        (forall d, T !! language = Some d -> get_all_translations T language = Some d)
        /\ (T !! language = None -> get_all_translations T language = Some en))
  /\ (forall d key s dflt,
        get_all_translations T language = Some d -> d !! key = Some s ->
        Translations.get_translation T key language dflt = s)
  /\ (forall d key s dflt,
        T !! language = Some d -> d !! key = None -> stored T "en" key = Some s ->
        Translations.get_translation T key language dflt = s
        /\ exists d', get_all_translations T language = Some d' /\ d' !! key = None)
  /\ (forall l k v l',
        get_all_translations T l' <> None ->
        get_all_translations (add_translation T l k v) l' <> None).
Proof.
  unfold get_all_translations. split; [|split; [|split; [|split]]].
  - destruct (T !! "en"); split; congruence.
  - intros en ->. split; [intros d ->|intros ->]; reflexivity.
  - intros d key s dflt H K. rewrite get_translation_stored. unfold stored.
    destruct (T !! "en") as [en|]; [|discriminate H].
    destruct (T !! language) as [d0|]; cbn [from_option id] in H;
      injection H as ->; rewrite K; reflexivity.
  - intros d key s dflt L K E. rewrite get_translation_stored. unfold stored in *.
    rewrite L, K. destruct (T !! "en") as [en|]; [|discriminate E]. rewrite E.
    split; [reflexivity|]. exists d. split; [reflexivity|exact K].
  - intros l k v l' H.
    assert (is_Some (add_translation T l k v !! "en")) as [en' E'].
    { unfold add_translation. destruct (decide (l = "en")) as [->|Hl].
      - rewrite lookup_insert_eq. eauto.
      - rewrite lookup_insert_ne by congruence.
        destruct (T !! "en") as [en|] eqn:E; [|congruence].
        destruct (T !! l); [rewrite E; eauto|].
        rewrite lookup_insert_ne by congruence. rewrite E. eauto. }
    rewrite E'. discriminate.
Qed.

Lemma all_translations_witness :
  Translations.get_translation sample_translations "logout" "hi" None = "Logout"
  /\ exists d, get_all_translations sample_translations "hi" = Some d
               /\ d !! "logout" = None.
Proof.
  pose proof (all_translations sample_translations "hi") as H.
  destruct H as (_ & _ & _ & H & _).
  apply (H {[ "login" := "Pravesh" ]} "logout" "Logout" None); vm_compute; reflexivity.
Defined.

(** ** The pages of the feed *)

Lemma firstn_plus {A : Type} (n m : nat) (l : list A) :
  (firstn n l ++ firstn m (skipn n l))%list = firstn (n + m) l.
Proof.
  revert l. induction n as [|n IH]; intros l; [reflexivity|].
  destruct l as [|x l]; [cbn; rewrite firstn_nil; reflexivity|].
  cbn [firstn skipn Nat.add app]. rewrite IH. reflexivity.
Qed.

Lemma page_images_nat {A : Type} (images : list A) (k : nat) :
  page_images images (Z.of_nat (S k)) = firstn 8 (skipn (8 * k) images).
Proof.
  unfold page_images, slice, slice_index, IMAGES_PER_PAGE.
  set (n := List.length images).
  assert ((Z.of_nat (S k) - 1) * 8 = Z.of_nat (8 * k)) as -> by lia.
  destruct (Z.of_nat (8 * k) <? 0) eqn:E1; [apply Z.ltb_lt in E1; lia|].
  destruct (Z.of_nat (8 * k) + 8 <? 0) eqn:E2; [apply Z.ltb_lt in E2; lia|].
  destruct (Nat.le_gt_cases n (8 * k)) as [Hge|Hlt].
  - rewrite (skipn_all2 images Hge), firstn_nil.
    replace (Z.to_nat (Z.min (Z.of_nat (8 * k)) (Z.of_nat n))) with n by lia.
    rewrite (skipn_all2 images (Nat.le_refl n)), firstn_nil. reflexivity.
  - replace (Z.to_nat (Z.min (Z.of_nat (8 * k)) (Z.of_nat n))) with (8 * k)%nat by lia.
    destruct (Nat.le_gt_cases (8 * k + 8) n) as [Hfull|Hpart].
    + f_equal. lia.
    + assert (List.length (skipn (8 * k) images) = (n - 8 * k)%nat) as L
        by apply length_skipn.
      rewrite !firstn_all2; [reflexivity|lia|lia].
Qed.

Lemma pages_prefix {A : Type} (images : list A) (k : nat) :
  concat (map (page_images images) (map Z.of_nat (seq 1 k))) = firstn (8 * k) images.
Proof.
  induction k as [|k IH]; [reflexivity|].
  rewrite seq_S, !map_app, concat_app, IH. cbn [map concat Nat.add].
  rewrite app_nil_r, page_images_nat, firstn_plus. f_equal. lia.
Qed.

Lemma total_pages_bounds {A : Type} (images : list A) :
  let n := Z.of_nat (List.length images) in
  0 <= total_pages images /\ n <= 8 * total_pages images < n + 8.
Proof.
  unfold total_pages, IMAGES_PER_PAGE. cbv zeta.
  pose proof (Z.div_mod (Z.of_nat (List.length images) + 8 - 1) 8) as D.
  pose proof (Z.mod_pos_bound (Z.of_nat (List.length images) + 8 - 1) 8) as B.
  lia.
Qed.

(** X21: the pages of the feed.  The feed cuts the list of images it got
    into pages of [IMAGES_PER_PAGE] = 8: the pages the slider offers, put
    one after the other, are exactly the list, so every image is shown on
    exactly one page and in the order of the query; a non-empty list has
    at least one page; no page offered is empty, and every page but the
    last holds 8 images.  Since the feed asks [get_images] for at most 100
    images, it never has more than 13 pages. *)
Theorem feed_pages {A : Type} (found : list A) :
  concat (map (page_images found) (page_options found)) = found
  /\ (found <> [] -> 1 <= total_pages found)
  /\ (forall page, In page (page_options found) ->
        (1 <= List.length (page_images found page) <= 8)%nat
        /\ (page < total_pages found -> List.length (page_images found page) = 8%nat))
  /\ (forall category language search w rows,
        fst (get_images category language search 100 w) = Ok rows ->
        total_pages rows <= 13).
Proof.
  pose proof (total_pages_bounds found) as B. cbv zeta in B.
  split; [|split; [|split]].
  - unfold page_options. rewrite pages_prefix. apply firstn_all2. lia.
  - intros Hne. destruct found as [|x l]; [congruence|]. cbn [List.length] in B. lia.
  - intros page Hp. unfold page_options in Hp.
    apply in_map_iff in Hp as (p & <- & Hp). apply in_seq in Hp.
    destruct p as [|k]; [lia|]. rewrite page_images_nat, length_firstn, length_skipn.
    split; lia.
  - intros category language search w rows. rewrite get_images_run. cbn [fst].
    intros E. injection E as <-.
    assert (List.length (match storage_fails w with
                         | Some _ => []
                         | None => or_empty (query_images category language search 100
                                               (db w))
                         end) <= 100)%nat as L.
    { destruct (storage_fails w); [cbn; lia|].
      destruct (query_accepted search 100) eqn:Q;
        [|rewrite (query_images_refused _ _ _ _ _ Q); cbn; lia].
      rewrite query_images_accepted, Q. cbn [or_empty]. unfold select_images.
      destruct (limit_split 100 (Sql.order_by newest_first
                  (somes (map (image_group category language search (labels (db w)))
                              (images (db w)))))) as (rest & _ & _ & Hl).
      rewrite Hl by lia. lia. }
    match goal with |- total_pages ?r <= 13 => pose proof (total_pages_bounds r) as T end.
    cbv zeta in T. lia.
Qed.

Lemma feed_pages_witness :
  map (page_images [1; 2; 3; 4; 5; 6; 7; 8; 9; 10]) (page_options [1; 2; 3; 4; 5; 6; 7; 8; 9; 10])
  = [[1; 2; 3; 4; 5; 6; 7; 8]; [9; 10]]
  /\ (1 <= List.length (page_images [1; 2; 3; 4; 5; 6; 7; 8; 9; 10] 2) <= 8)%nat.
Proof.
  split; [vm_compute; reflexivity|].
  destruct (feed_pages [1; 2; 3; 4; 5; 6; 7; 8; 9; 10]) as (_ & _ & H & _).
  apply (H 2). vm_compute. right. left. reflexivity.
Defined.
